(** * pariksha: a shallow embedding of helper.go and its properties

    The Go package [pariksha] (helper.go, with the configuration variables and
    the [Resp] type of its companion file) is embedded function by function.
    Go strings and byte slices are sequences of 8-bit values: a Go [string] is
    a Rocq [string], a [[]byte] is a [list ascii].  Unsigned machine
    arithmetic is done in [N] with [N.shiftl], [N.lor], [N.land]; the
    conversion [byte(x)] is [ascii_of_N], which keeps the low eight bits.

    Functions of the Go standard library that helper.go calls are modelled in
    modules named after their packages ([strings], [hex], [base64], [fmt],
    [os], ...), so that the embedded code reads like its source. *)

From Stdlib Require Import String Ascii List NArith ZArith Bool Lia.
From stdpp Require Import gmap strings.
Import ListNotations.
Local Open Scope string_scope.
Local Open Scope list_scope.
Set Warnings "-register-all".

(* ===================================================================== *)
(** * Errors *)
(* ===================================================================== *)

Inductive errno : Type :=
  ENOENT | ENOTDIR | EEXIST | EISDIR | EACCES | EINVAL | EIO.

(** The [error] values that reach helper.go. *)
Inductive error : Type :=
| InvalidByteError (c : ascii)      (* encoding/hex: invalid byte *)
| ErrLength                         (* encoding/hex: odd length hex string *)
| CorruptInputError                 (* encoding/base64: illegal base64 data;
                                       the input offset it carries is not
                                       modelled *)
| Errorf (msg : string)             (* fmt.Errorf(msg) *)
| UnmarshalError (msg : string)     (* encoding/json: SyntaxError or
                                       UnmarshalTypeError *)
| PathError (op : string) (e : errno) (* package os *)
| ExitError                         (* os/exec: the command did not run or
                                       exited with a non-zero status *)
| ProfileError (msg : string)       (* runtime/pprof *)
| InvalidMethodError (method : string) (* net/http: invalid method *)
| URLError (url : string).          (* net/url: the string does not parse *)

(* ===================================================================== *)
(** * Package strings *)
(* ===================================================================== *)

Module strings.

(** [s[n:]] *)
Fixpoint slice_from (n : nat) (s : string) : string :=
  match n, s with
  | O, _ => s
  | S n', String _ s' => slice_from n' s'
  | S _, EmptyString => EmptyString
  end.

(** [s[:n]] *)
Fixpoint slice_to (n : nat) (s : string) : string :=
  match n, s with
  | O, _ => EmptyString
  | S n', String c s' => String c (slice_to n' s')
  | S _, EmptyString => EmptyString
  end.

(** [len(s) >= len(prefix) && s[:len(prefix)] == prefix] *)
Definition HasPrefix (s prefix : string) : bool :=
  (String.length prefix <=? String.length s)%nat
  && String.eqb (slice_to (String.length prefix) s) prefix.

(** [len(s) >= len(suffix) && s[len(s)-len(suffix):] == suffix] *)
Definition HasSuffix (s suffix : string) : bool :=
  (String.length suffix <=? String.length s)%nat
  && String.eqb (slice_from (String.length s - String.length suffix) s) suffix.

Definition TrimPrefix (s prefix : string) : string :=
  if HasPrefix s prefix then slice_from (String.length prefix) s else s.

Definition TrimSuffix (s suffix : string) : string :=
  if HasSuffix s suffix
  then slice_to (String.length s - String.length suffix) s
  else s.

(** [ReplaceAll s old new] for a non-empty [old]: the non-overlapping
    occurrences of [old], found from the left, are replaced by [new].
    [skip] counts the bytes of a matched occurrence still to be dropped.
    (helper.go only calls it with the one-byte strings "-" and " ".) *)
Fixpoint replace_from (old new : string) (skip : nat) (s : string) : string :=
  match s with
  | EmptyString => EmptyString
  | String c s' =>
      match skip with
      | S k => replace_from old new k s'
      | O =>
          if HasPrefix s old
          then new +:+ replace_from old new (String.length old - 1) s'
          else String c (replace_from old new 0 s')
      end
  end.

Definition ReplaceAll (s old new : string) : string :=
  replace_from old new 0 s.

End strings.

(* ===================================================================== *)
(** * Package encoding/hex *)
(* ===================================================================== *)

Module hex.

(** [reverseHexTable]: the value of a hexadecimal digit, [0xff] for any
    other byte. *)
Definition reverseHexTable (c : ascii) : N :=
  let n := N_of_ascii c in
  if (48 <=? n)%N && (n <=? 57)%N then (n - 48)%N          (* '0'..'9' *)
  else if (97 <=? n)%N && (n <=? 102)%N then (n - 87)%N    (* 'a'..'f' *)
  else if (65 <=? n)%N && (n <=? 70)%N then (n - 55)%N     (* 'A'..'F' *)
  else 255%N.

(** [hex.Decode], two bytes of input at a time; an invalid byte is
    reported before the odd length. *)
Fixpoint Decode (src : string) : list ascii + error :=
  match src with
  | EmptyString => inl []
  | String p EmptyString =>
      if (15 <? reverseHexTable p)%N then inr (InvalidByteError p)
      else inr ErrLength
  | String p (String q rest) =>
      let a := reverseHexTable p in
      let b := reverseHexTable q in
      if (15 <? a)%N then inr (InvalidByteError p)
      else if (15 <? b)%N then inr (InvalidByteError q)
      else match Decode rest with
           | inl bs => inl (ascii_of_N (N.lor (N.shiftl a 4) b) :: bs)
           | inr e => inr e
           end
  end.

Definition DecodeString (s : string) : list ascii + error := Decode s.

(** [hextable = "0123456789abcdef"] *)
Definition hextable : string := "0123456789abcdef".

Definition hexdigit (i : N) : ascii :=
  match String.get (N.to_nat i) hextable with
  | Some c => c
  | None => "0"%char
  end.

End hex.

(* ===================================================================== *)
(** * Package encoding/base64, [StdEncoding] (padded, not strict) *)
(* ===================================================================== *)

Module base64.

Definition encodeStd : string :=
  "ABCDEFGHIJKLMNOPQRSTUVWXYZabcdefghijklmnopqrstuvwxyz0123456789+/".

Definition padChar : ascii := "="%char.

(** [enc.encode[i]] *)
Definition encode (i : N) : ascii :=
  match String.get (N.to_nat i) encodeStd with
  | Some c => c
  | None => "A"%char
  end.

Fixpoint index_of (c : ascii) (s : string) (i : N) : option N :=
  match s with
  | EmptyString => None
  | String d s' => if Ascii.eqb c d then Some i else index_of c s' (i + 1)%N
  end.

(** [enc.decodeMap[c]]: the position of [c] in the alphabet, [0xff] when
    [c] is not in it. *)
Definition decodeMap (c : ascii) : N :=
  match index_of c encodeStd 0%N with
  | Some i => i
  | None => 255%N
  end.

(** [Encode]: three source bytes give four characters; a last block of one
    or two bytes is padded with '='. *)
Fixpoint Encode (src : list ascii) : string :=
  match src with
  | [] => EmptyString
  | [b0] =>
      let val := N.shiftl (N_of_ascii b0) 16 in
      String (encode (N.land (N.shiftr val 18) 63))
        (String (encode (N.land (N.shiftr val 12) 63))
           (String padChar (String padChar EmptyString)))
  | [b0; b1] =>
      let val := N.lor (N.shiftl (N_of_ascii b0) 16)
                       (N.shiftl (N_of_ascii b1) 8) in
      String (encode (N.land (N.shiftr val 18) 63))
        (String (encode (N.land (N.shiftr val 12) 63))
           (String (encode (N.land (N.shiftr val 6) 63))
              (String padChar EmptyString)))
  | b0 :: b1 :: b2 :: rest =>
      let val := N.lor (N.lor (N.shiftl (N_of_ascii b0) 16)
                              (N.shiftl (N_of_ascii b1) 8))
                       (N_of_ascii b2) in
      String (encode (N.land (N.shiftr val 18) 63))
        (String (encode (N.land (N.shiftr val 12) 63))
           (String (encode (N.land (N.shiftr val 6) 63))
              (String (encode (N.land val 63)) (Encode rest))))
  end.

Definition EncodeToString (src : list ascii) : string := Encode src.

Definition isNewline (c : ascii) : bool :=
  Ascii.eqb c "010"%char || Ascii.eqb c "013"%char.

(** [for si < len(src) && (src[si] == '\n' || src[si] == '\r') { si++ }] *)
Fixpoint skipNewlines (s : string) : string :=
  match s with
  | String c s' => if isNewline c then skipNewlines s' else s
  | EmptyString => EmptyString
  end.

(** The bytes of one quantum: [dbuf] holds the [dlen] six-bit values read
    (missing ones count as zero); [dlen - 1] bytes are produced. *)
Definition quantumBytes (dbuf : list N) : list ascii :=
  let val := N.lor (N.lor (N.lor (N.shiftl (nth 0 dbuf 0%N) 18)
                                 (N.shiftl (nth 1 dbuf 0%N) 12))
                          (N.shiftl (nth 2 dbuf 0%N) 6))
                   (nth 3 dbuf 0%N) in
  firstn (List.length dbuf - 1)
    [ascii_of_N (N.shiftr val 16); ascii_of_N (N.shiftr val 8); ascii_of_N val].

(** [Decode], as the repetition of [decodeQuantum]: [dbuf] is the part of
    the current quantum read so far ([j = length dbuf < 4]).  Newlines are
    skipped; padding is accepted only after two or three characters of a
    quantum and only at the end of the input; since the encoding is padded,
    an input that stops inside a quantum is corrupt.  (The fast paths of
    the Go function decode the same language.) *)
Fixpoint decodeFrom (src : string) (dbuf : list N) : list ascii + error :=
  match src with
  | EmptyString =>
      match dbuf with
      | [] => inl []
      | _ => inr CorruptInputError
      end
  | String c rest =>
      let out := decodeMap c in
      if negb (out =? 255)%N then
        let dbuf' := dbuf ++ [out] in
        if (List.length dbuf' =? 4)%nat then
          match decodeFrom rest [] with
          | inl bs => inl (quantumBytes dbuf' ++ bs)
          | inr e => inr e
          end
        else decodeFrom rest dbuf'
      else if isNewline c then decodeFrom rest dbuf
      else if negb (Ascii.eqb c padChar) then inr CorruptInputError
      else
        match List.length dbuf with
        | 0%nat | 1%nat => inr CorruptInputError      (* incorrect padding *)
        | 2%nat =>
            (* "==" is expected, the first "=" is already consumed *)
            match skipNewlines rest with
            | EmptyString => inr CorruptInputError     (* not enough padding *)
            | String c2 rest2 =>
                if negb (Ascii.eqb c2 padChar) then inr CorruptInputError
                else match skipNewlines rest2 with
                     | EmptyString => inl (quantumBytes dbuf)
                     | _ => inr CorruptInputError      (* trailing garbage *)
                     end
            end
        | _ =>
            match skipNewlines rest with
            | EmptyString => inl (quantumBytes dbuf)
            | _ => inr CorruptInputError               (* trailing garbage *)
            end
        end
  end.

Definition DecodeString (s : string) : list ascii + error := decodeFrom s [].

End base64.

(* ===================================================================== *)
(** * Package fmt: the verb %x on a byte slice *)
(* ===================================================================== *)

Module fmt.

(** Two lower-case hexadecimal digits per byte. *)
Fixpoint Sbx (bs : list ascii) : string :=
  match bs with
  | [] => EmptyString
  | b :: bs' =>
      String (hex.hexdigit (N.shiftr (N_of_ascii b) 4))
        (String (hex.hexdigit (N.land (N_of_ascii b) 15)) (Sbx bs'))
  end.

Fixpoint zeros (n : nat) : string :=
  match n with
  | O => EmptyString
  | S n' => String "0"%char (zeros n')
  end.

(** [%0<width>x]: padded on the left with zeros up to [width]. *)
Definition x0 (width : nat) (bs : list ascii) : string :=
  let s := Sbx bs in
  zeros (width - String.length s) +:+ s.

(** [bs[lo:hi]] for [lo <= hi <= len(bs)] *)
Definition slice (lo hi : nat) (bs : list ascii) : list ascii :=
  firstn (hi - lo) (skipn lo bs).

End fmt.

(* ===================================================================== *)
(** * helper.go: the BinData helpers *)
(* ===================================================================== *)

(** [GetBsonIdFromUUId]: the named result [binData] is the empty string when
    the hexadecimal decoding fails. *)
Definition GetBsonIdFromUUId (uuidStr : string) : string :=
  let uuidStr := strings.ReplaceAll uuidStr "-" "" in
  match hex.DecodeString uuidStr with
  | inr _ => ""
  | inl uuidBytes =>
      let base64Str := base64.EncodeToString uuidBytes in
      "BinData(0, '" +:+ base64Str +:+ "')"
  end.

(** [GetStringUUidFromBsonId]: the pair of the named results
    [(uuidStr, err)]; [None] is the nil error. *)
Definition GetStringUUidFromBsonId (binData : string) : string * option error :=
  if negb (strings.HasPrefix binData "BinData(0, '")
     || negb (strings.HasSuffix binData "')")
  then ("", Some (Errorf "invalid BinData format"))
  else
    let base64Str :=
      strings.TrimSuffix (strings.TrimPrefix binData "BinData(0, '") "')" in
    match base64.DecodeString base64Str with
    | inr err => ("", Some err)
    | inl uuidBytes =>
        if negb (List.length uuidBytes =? 16)%nat
        then ("", Some (Errorf "invalid UUID byte length"))
        else
          (fmt.x0 8 (fmt.slice 0 4 uuidBytes) +:+ "-" +:+
           fmt.x0 4 (fmt.slice 4 6 uuidBytes) +:+ "-" +:+
           fmt.x0 4 (fmt.slice 6 8 uuidBytes) +:+ "-" +:+
           fmt.x0 4 (fmt.slice 8 10 uuidBytes) +:+ "-" +:+
           fmt.x0 12 (fmt.slice 10 16 uuidBytes), None)
    end.

(* ===================================================================== *)
(** * Package encoding/json, as far as [Unmarshal] into [map[string]Resp]
      depends on it *)
(* ===================================================================== *)

Module json.

(** A number literal: [Integer z] is a literal without fraction and
    exponent, of value [z]; [Fraction fits] is any other literal, [fits]
    telling whether [strconv.ParseFloat] accepts it as a float64. *)
Inductive number : Type :=
| Integer (z : Z)
| Fraction (fits : bool).

(** The syntax tree of a JSON text; object members are kept in the order
    of the text, duplicates included, with their keys unquoted. *)
Inductive value : Type :=
| JNull
| JBool (b : bool)
| JNumber (n : number)
| JString (s : string)
| JArray (vs : list value)
| JObject (members : list (string * value)).

(** [strconv.ParseInt(lit, 10, 64)] succeeds (a Go [int] has 64 bits). *)
Definition fitsInt (n : number) : option Z :=
  match n with
  | Integer z => if (- 2 ^ 63 <=? z)%Z && (z <? 2 ^ 63)%Z then Some z else None
  | Fraction _ => None
  end.

(** [strconv.ParseFloat(lit, 64)] succeeds: the literal does not round to
    an infinity. *)
Definition fitsFloat (n : number) : bool :=
  match n with
  | Integer z => (Z.abs z <? 2 ^ 1024 - 2 ^ 970)%Z
  | Fraction fits => fits
  end.

(** Decoding into an [any]: only an out-of-range number is an error. *)
Fixpoint interfaceOK (v : value) : bool :=
  match v with
  | JNumber n => fitsFloat n
  | JArray vs => forallb interfaceOK vs
  | JObject members => forallb (fun m => interfaceOK (snd m)) members
  | _ => true
  end.

(** [foldName]: ASCII letters are upper-cased; the two non-ASCII runes
    whose case folding reaches an ASCII letter, U+017F (long s) and U+212A
    (Kelvin sign), become 'S' and 'K'; every other byte is kept (no other
    rune folds to ASCII, which is all that a comparison with a field name
    of [Resp] can see). *)
Fixpoint foldName (s : string) : string :=
  match s with
  | EmptyString => EmptyString
  | String c1 (String c2 (String c3 rest as r2) as r1) =>
      let n := N_of_ascii c1 in
      if (97 <=? n)%N && (n <=? 122)%N
      then String (ascii_of_N (n - 32)) (foldName r1)
      else if (n =? 197)%N && (N_of_ascii c2 =? 191)%N
      then String "S"%char (foldName r2)
      else if (n =? 226)%N && (N_of_ascii c2 =? 132)%N && (N_of_ascii c3 =? 170)%N
      then String "K"%char (foldName rest)
      else String c1 (foldName r1)
  | String c1 (String c2 rest as r1) =>
      let n := N_of_ascii c1 in
      if (97 <=? n)%N && (n <=? 122)%N
      then String (ascii_of_N (n - 32)) (foldName r1)
      else if (n =? 197)%N && (N_of_ascii c2 =? 191)%N
      then String "S"%char (foldName rest)
      else String c1 (foldName r1)
  | String c1 rest =>
      let n := N_of_ascii c1 in
      if (97 <=? n)%N && (n <=? 122)%N
      then String (ascii_of_N (n - 32)) (foldName rest)
      else String c1 (foldName rest)
  end.

End json.

(* ===================================================================== *)
(** * The response type and its decoding *)
(* ===================================================================== *)

(** [type Resp struct]; an [any] holds the decoded JSON value, [None] being
    the nil interface. *)
Record Resp : Type := mkResp {
  Code : Z;
  ApiStatus : Z;
  Message : string;
  Data : option json.value;
  MetaData : option json.value
}.

Definition zeroResp : Resp := mkResp 0 0 "" None None.

Inductive RespField : Type := FCode | FApiStatus | FMessage | FData | FMetaData.

(** The json tags of [Resp]. *)
Definition respFields : list (string * RespField) :=
  [("code", FCode); ("api_status", FApiStatus); ("message", FMessage);
   ("data", FData); ("meta_data", FMetaData)].

(** The field a member key selects: an exact match of the tag, otherwise a
    match of the folded names; [None] for an unknown key, whose value is
    skipped. *)
Definition fieldOfKey (key : string) : option RespField :=
  match List.find (fun f => String.eqb (fst f) key) respFields with
  | Some f => Some (snd f)
  | None =>
      match List.find (fun f => String.eqb (json.foldName (fst f)) (json.foldName key))
                      respFields with
      | Some f => Some (snd f)
      | None => None
      end
  end.

(** The decoder keeps the first error and goes on ([d.saveError]). *)
Definition saveError (saved : option error) (e : error) : option error :=
  match saved with
  | Some _ => saved
  | None => Some e
  end.

(** One member of the object decoded into a [Resp]: null leaves an [int] or
    a [string] as it is and clears an [any]; a value of the wrong kind, or a
    number out of range, is an [UnmarshalTypeError]. *)
Definition decodeField (st : Resp * option error) (m : string * json.value)
  : Resp * option error :=
  let '(r, err) := st in
  let '(key, v) := m in
  match fieldOfKey key with
  | None => (r, err)
  | Some FCode =>
      match v with
      | json.JNull => (r, err)
      | json.JNumber n =>
          match json.fitsInt n with
          | Some z => (mkResp z (ApiStatus r) (Message r) (Data r) (MetaData r), err)
          | None => (r, saveError err (UnmarshalError "Resp.code"))
          end
      | _ => (r, saveError err (UnmarshalError "Resp.code"))
      end
  | Some FApiStatus =>
      match v with
      | json.JNull => (r, err)
      | json.JNumber n =>
          match json.fitsInt n with
          | Some z => (mkResp (Code r) z (Message r) (Data r) (MetaData r), err)
          | None => (r, saveError err (UnmarshalError "Resp.api_status"))
          end
      | _ => (r, saveError err (UnmarshalError "Resp.api_status"))
      end
  | Some FMessage =>
      match v with
      | json.JNull => (r, err)
      | json.JString s => (mkResp (Code r) (ApiStatus r) s (Data r) (MetaData r), err)
      | _ => (r, saveError err (UnmarshalError "Resp.message"))
      end
  | Some FData =>
      let d := match v with json.JNull => None | _ => Some v end in
      (mkResp (Code r) (ApiStatus r) (Message r) d (MetaData r),
       if json.interfaceOK v then err else saveError err (UnmarshalError "number"))
  | Some FMetaData =>
      let d := match v with json.JNull => None | _ => Some v end in
      (mkResp (Code r) (ApiStatus r) (Message r) (Data r) d,
       if json.interfaceOK v then err else saveError err (UnmarshalError "number"))
  end.

(** A JSON value decoded into a fresh [Resp] element. *)
Definition decodeResp (v : json.value) (err : option error) : Resp * option error :=
  match v with
  | json.JNull => (zeroResp, err)
  | json.JObject members => fold_left decodeField members (zeroResp, err)
  | _ => (zeroResp, saveError err (UnmarshalError "Resp"))
  end.

(** One member of the outer object: the element is decoded from the zero
    [Resp] and stored under the key, a later duplicate replacing an earlier
    one. *)
Definition decodeEntry (st : gmap string Resp * option error)
  (m : string * json.value) : gmap string Resp * option error :=
  let '(outer, err) := st in
  let '(key, v) := m in
  let '(r, err') := decodeResp v err in
  (<[key := r]> outer, err').

(** The body of a recorded response as [json.Unmarshal] sees it: [None] when
    the bytes are not a syntactically valid JSON text, [Some v] with the
    syntax tree of the text otherwise. *)
Definition ResponseBody : Type := option json.value.

(** [json.Unmarshal(body, &outer)] with [var outer map[string]Resp]: the map
    and the error returned.  A nil map is the empty map. *)
Definition Unmarshal (body : ResponseBody) : gmap string Resp * option error :=
  match body with
  | None => (∅, Some (UnmarshalError "syntax"))
  | Some json.JNull => (∅, None)
  | Some (json.JObject members) => fold_left decodeEntry members (∅, None)
  | Some _ => (∅, Some (UnmarshalError "map[string]Resp"))
  end.

(* ===================================================================== *)
(** * helper.go: test cases and assertion mode *)
(* ===================================================================== *)

(** The request that [http.NewRequest] builds, with the headers set on it;
    the URL is kept as the string it was parsed from. *)
Record Request : Type := mkRequest {
  ReqMethod : string;
  ReqURL : string;
  ReqBody : string;
  ReqHeader : gmap string string
}.

(** What a handler receives, the [gin.Context] of the test: the request,
    nil when it could not be built, the context keys (their values kept as
    strings) and the path parameters. *)
Record Context : Type := mkContext {
  CtxRequest : option Request;
  Keys : gmap string string;
  Params : list (string * string)
}.

(** [type APITestCase struct]; the handles [T] and [B] of the host framework
    are not fields of the model, their calls are effects of the functions
    below.  A handler is the function from the context it is given to the
    body it leaves in the recorder: a handler that returns. *)
Record APITestCase : Type := mkAPITestCase {
  Name : string;
  Method : string;
  URL : string;
  HandlerFunc : Context -> ResponseBody;
  RequestBody : string;
  PathParams : gmap string string;
  Headers : gmap string string;
  ExpectedCode : Z;
  ContextKeys : gmap string string;
  FunctionName : string
}.

(** [SetAPITestPathParams]: one [gin.Param] per entry of the map. *)
Definition SetAPITestPathParams (tc : APITestCase) : list (string * string) :=
  map_to_list (PathParams tc).

(** Which [require] assertion stopped the test ([FailNow]), with the message
    given to it. *)
Inductive failure : Type :=
| NoErrorFailed (err : error) (msg : string)
| TrueFailed (msg : string)
| EqualFailed (expected actual : Z).

(** How a test case ends: every assertion held, an assertion stopped it, or
    it panicked. *)
Inductive verdict : Type :=
| Passed
| Failed (f : failure)
| Panicked (msg : string).

(** The package variables [LogResponse], [ProfilingOutputFormats] and
    [EnabledProfilingTypes]. *)
Record Config : Type := mkConfig {
  LogResponse : bool;
  ProfilingOutputFormats : list string;
  EnabledProfilingTypes : list string
}.

(** Their initial values. *)
Definition defaultConfig : Config :=
  mkConfig false ["png"] ["heap"; "goroutine"; "block"; "mutex"; "threadcreate"].

(* ===================================================================== *)
(** * The file system *)
(* ===================================================================== *)

(** A cleaned relative path: its elements, outermost first; [[]] is the
    working directory. *)
Definition path : Type := list string.

Inductive node : Type :=
| Dir (perm : N)
| File (perm : N) (data : list ascii).

Module filepath.

(** The elements of a path string: split at '/'; [cur] is the element
    being read. *)
Fixpoint elements (s : string) (cur : string) : list string :=
  match s with
  | EmptyString => [cur]
  | String c s' =>
      if Ascii.eqb c "/"%char then cur :: elements s' EmptyString
      else elements s' (cur +:+ String c EmptyString)
  end.

(** [Clean] on the elements of a relative path: empty and "." elements
    are dropped, ".." removes the element before it when there is one
    to remove.  [done] is the cleaned part, innermost first. *)
Fixpoint clean (elems : list string) (done : list string) : path :=
  match elems with
  | [] => rev done
  | e :: elems' =>
      if String.eqb e "" || String.eqb e "." then clean elems' done
      else if String.eqb e ".." then
        match done with
        | d :: done' => if String.eqb d ".." then clean elems' (e :: done)
                        else clean elems' done'
        | [] => clean elems' [e]
        end
      else clean elems' (e :: done)
  end.

(** [Join] of path elements that do not start at the root. *)
Definition Join (elems : list string) : path :=
  clean (concat (map (fun e => elements e EmptyString) elems)) [].

(** [Join(dir, file)] for a directory that is already a cleaned path. *)
Definition JoinDir (dir : path) (file : string) : path :=
  clean (elements file EmptyString) (rev dir).

(** [Base]: the last element; "." for the empty string, "/" for a string
    of separators only. *)
Definition Base (p : string) : string :=
  if String.eqb p "" then "."
  else match List.filter (fun e => negb (String.eqb e "")) (elements p EmptyString) with
       | [] => "/"
       | e :: es => List.last es e
       end.

End filepath.

(** A temporary file: [TempDir()/<prefix><random><suffix>]; [tmpRandom]
    stands for the random part, which [os.CreateTemp] chooses so that the
    name is new. *)
Definition tmpfile : Type := (string * nat * string)%type.

Definition tmpRandom (f : tmpfile) : nat := snd (fst f).

(** What the operating system and the Go runtime decide, the code not:
    which operations are refused, which profiles are registered, what the
    rendering tool answers; and what a package that is not embedded here
    answers.  The rendering tool is taken to end: [cmd.Output()] waits for
    it without a timeout. *)
Record Host : Type := mkHost {
  umask : N;
  (** [mkdir] of this path is refused (EACCES) *)
  mkdirDenied : path -> bool;
  (** the n-th call of [os.CreateTemp] fails *)
  createTempFails : nat -> bool;
  (** [pprof.Lookup(name) != nil] *)
  registered : string -> bool;
  (** [Profile.WriteTo] of this profile fails *)
  writeToFails : string -> bool;
  (** the standard output of [go tool pprof -<format> <profile>], [None]
      when the command fails *)
  pprofTool : string -> tmpfile -> option (list ascii);
  (** opening this file for writing is refused *)
  writeDenied : path -> bool;
  (** [url.Parse] accepts this string (package net/url is not embedded) *)
  urlParses : string -> bool;
  (** the write of these bytes to this file stops with an error after so
      many of them *)
  writeFails : path -> list ascii -> option nat
}.

Inductive arg : Type :=
| AStr (s : string)
| AUpper (s : string)     (* strings.ToUpper(s); package unicode is not embedded *)
| AFile (f : tmpfile)
| APath (p : path)
| AErr (e : error).

(** What a run does to the world outside, in the order it does it.
    [EvWriteFile p data]: the file [p] was opened for writing and holds
    [data] afterwards. *)
Inductive event : Type :=
| EvLogPrintf (format : string) (args : list arg)   (* log.Printf *)
| EvBLogf (format : string) (args : list arg)       (* tc.B.Logf *)
| EvFail (err : error) (msg : string)               (* require.NoError failed *)
| EvMkdir (p : path) (perm : N)
| EvCreateTemp (f : tmpfile)
| EvClose (f : tmpfile)
| EvRemove (f : tmpfile)
| EvStartCPUProfile (f : tmpfile)
| EvStopCPUProfile
| EvSetBlockProfileRate (rate : N)
| EvSetMutexProfileFraction (rate : N)
| EvRunParallel                    (* tc.B.RunParallel ran the workload *)
| EvWriteTo (profile : string) (f : tmpfile)
| EvExec (format : string) (f : tmpfile)            (* go tool pprof *)
| EvWriteFile (p : path) (data : list ascii).

Record World : Type := mkWorld {
  fs : gmap (list string) node;
  (** the temporary files that exist, by their random part *)
  temps : gset nat;
  (** the number of calls of [os.CreateTemp] so far *)
  tempCalls : nat;
  (** a CPU profile session is active *)
  cpuProfiling : bool;
  trace : list event
}.

Definition emit (e : event) (w : World) : World :=
  mkWorld (fs w) (temps w) (tempCalls w) (cpuProfiling w) (trace w ++ [e]).

Definition setFs (f : gmap (list string) node) (w : World) : World :=
  mkWorld f (temps w) (tempCalls w) (cpuProfiling w) (trace w).

(* ===================================================================== *)
(** * helper.go: running a test case *)
(* ===================================================================== *)

Module http.

(** [httpguts.IsTokenRune] on a byte: a letter, a digit or one of the
    characters listed; a byte of a rune outside ASCII is no token. *)
Definition isToken (c : ascii) : bool :=
  let n := N_of_ascii c in
  ((48 <=? n)%N && (n <=? 57)%N) || ((65 <=? n)%N && (n <=? 90)%N)
  || ((97 <=? n)%N && (n <=? 122)%N)
  || existsb (Ascii.eqb c) (list_ascii_of_string "!#$%&'*+-.^_`|~").

(** [validMethod] *)
Definition validMethod (method : string) : bool :=
  negb (String.eqb method "") && forallb isToken (list_ascii_of_string method).

(** [NewRequest(method, url, body)]: the empty method stands for "GET"; an
    invalid method and a URL that does not parse are errors. *)
Definition NewRequest (host : Host) (method url body : string) : Request + error :=
  let method := if String.eqb method "" then "GET" else method in
  if negb (validMethod method) then inr (InvalidMethodError method)
  else if urlParses host url then inl (mkRequest method url body ∅)
  else inr (URLError url).

End http.

(** What [log.Println] prints in [ExecuteHandler]. *)
Inductive printed : Type :=
| ErrorWhileHitting (err : error).

(** How [ExecuteHandler] ends: it returns the recorder, or it panics at
    [req.Header.Set] on the nil request. *)
Inductive execution : Type :=
| Recorded (body : ResponseBody)
| NilRequest.

(** [ExecuteHandler]: the lines printed and the recorder after the handler
    ran on the context built from the test case.  When [http.NewRequest]
    fails the error is printed and the code goes on with the nil request:
    the first header to set panics, and with no header the handler runs on a
    context without request. *)
Definition ExecuteHandler (host : Host) (tc : APITestCase) : list printed * execution :=
  match http.NewRequest host (Method tc) (URL tc) (RequestBody tc) with
  | inl req =>
      let req := mkRequest (ReqMethod req) (ReqURL req) (ReqBody req) (Headers tc) in
      ([], Recorded (HandlerFunc tc
                       (mkContext (Some req) (ContextKeys tc) (SetAPITestPathParams tc))))
  | inr err =>
      match map_to_list (Headers tc) with
      | [] =>
          ([ErrorWhileHitting err],
           Recorded (HandlerFunc tc
                       (mkContext None (ContextKeys tc) (SetAPITestPathParams tc))))
      | _ :: _ => ([ErrorWhileHitting err], NilRequest)
      end
  end.

(** What [tc.T.Log] records. *)
Inductive testLog : Type :=
| RawResponseBody (body : ResponseBody).

(** A run of a test case: the lines printed, the lines logged on [tc.T] and
    the verdict. *)
Record testRun : Type := mkTestRun {
  printedLines : list printed;
  logged : list testLog;
  result : verdict
}.

(** [RunSingle] *)
Definition RunSingle (host : Host) (cfg : Config) (tc : APITestCase) : testRun :=
  match ExecuteHandler host tc with
  | (lines, NilRequest) =>
      mkTestRun lines []
        (Panicked "runtime error: invalid memory address or nil pointer dereference")
  | (lines, Recorded recorder) =>
      let logs := if LogResponse cfg then [RawResponseBody recorder] else [] in
      let '(outer, err) := Unmarshal recorder in
      match err with
      | Some e =>
          mkTestRun lines logs
            (Failed (NoErrorFailed e "Could not unmarshal JSON response"))
      | None =>
          match outer !! "response" with
          | None =>
              mkTestRun lines logs (Failed (TrueFailed "Missing 'response' key in JSON"))
          | Some resp =>
              if (ExpectedCode tc =? Code resp)%Z then mkTestRun lines logs Passed
              else mkTestRun lines logs
                     (Failed (EqualFailed (ExpectedCode tc) (Code resp)))
          end
      end
  end.

(** [RunAPITest]: every test case runs in a sub-test of [tc.T].  The
    assertions of [RunSingle] are made on [tc.T] itself, the test that [Run]
    was called on: when one fails, [FailNow] ends the sub-test, [Run] sees
    that its own test is finished and ends it too, so the cases after the
    first that fails do not run.  A case that panics ends the process.  The
    result lists the cases that ran. *)
Fixpoint RunAPITest (host : Host) (cfg : Config) (tests : list APITestCase)
  : list (string * testRun) :=
  match tests with
  | [] => []
  | tc :: tests' =>
      let r := RunSingle host cfg tc in
      (Name tc, r) :: match result r with
                      | Passed => RunAPITest host cfg tests'
                      | _ => []
                      end
  end.

(* ===================================================================== *)
(** * Package os on the file-system model *)
(* ===================================================================== *)

Module os.

Definition ModePerm : N := 511.   (* 0777 *)

(** [Stat], on the reversed path: every directory above must be a
    directory.  The working directory always is one. *)
Fixpoint statRev (f : gmap (list string) node) (rp : list string) : node + errno :=
  match rp with
  | [] => inl (Dir 493)
  | _ :: parent =>
      match statRev f parent with
      | inl (Dir _) =>
          match f !! rev rp with
          | Some n => inl n
          | None => inr ENOENT
          end
      | inl (File _ _) => inr ENOTDIR
      | inr e => inr e
      end
  end.

Definition Stat (f : gmap (list string) node) (p : path) : node + errno :=
  statRev f (rev p).

(** [os.IsNotExist(err)] for the error of a [Stat] *)
Definition IsNotExist (r : node + errno) : bool :=
  match r with
  | inr ENOENT => true
  | _ => false
  end.

Section WithHost.
Variable host : Host.

(** [Mkdir]: the directory above must exist, the path must not. *)
Definition mkdirRev (rp : list string) (perm : N) (w : World)
  : World * option error :=
  match rp with
  | [] => (w, Some (PathError "mkdir" EEXIST))
  | _ :: parent =>
      match statRev (fs w) parent with
      | inl (Dir _) =>
          match fs w !! rev rp with
          | Some _ => (w, Some (PathError "mkdir" EEXIST))
          | None =>
              if mkdirDenied host (rev rp)
              then (w, Some (PathError "mkdir" EACCES))
              else
                let mode := N.ldiff perm (umask host) in
                (emit (EvMkdir (rev rp) mode)
                   (setFs (<[rev rp := Dir mode]> (fs w)) w), None)
          end
      | inl (File _ _) => (w, Some (PathError "mkdir" ENOTDIR))
      | inr e => (w, Some (PathError "mkdir" e))
      end
  end.

(** [MkdirAll]: nothing to do for a directory, an error for a file;
    otherwise the directory above is made first, then the path; when
    that [Mkdir] fails and the path is a directory after all, there is
    no error. *)
Fixpoint mkdirAllRev (rp : list string) (perm : N) (w : World)
  : World * option error :=
  match statRev (fs w) rp with
  | inl (Dir _) => (w, None)
  | inl (File _ _) => (w, Some (PathError "mkdir" ENOTDIR))
  | inr _ =>
      match rp with
      | [] => (w, None)
      | _ :: parent =>
          let '(w1, err) := mkdirAllRev parent perm w in
          match err with
          | Some e => (w1, Some e)
          | None =>
              let '(w2, err2) := mkdirRev rp perm w1 in
              match err2 with
              | None => (w2, None)
              | Some e =>
                  match statRev (fs w2) rp with
                  | inl (Dir _) => (w2, None)
                  | _ => (w2, Some e)
                  end
              end
          end
      end
  end.

Definition MkdirAll (p : path) (perm : N) (w : World) : World * option error :=
  mkdirAllRev (rev p) perm w.

(** [WriteFile]: the file is opened, which creates it or truncates it, the
    bytes are written and the file is closed.  When the write stops with
    an error the bytes written so far stay in the file. *)
Definition WriteFile (p : path) (data : list ascii) (perm : N) (w : World)
  : World * option error :=
  match rev p with
  | [] => (w, Some (PathError "open" EISDIR))
  | _ :: parent =>
      match statRev (fs w) parent with
      | inl (Dir _) =>
          if writeDenied host p then (w, Some (PathError "open" EACCES))
          else
            let written := match writeFails host p data with
                           | Some n => firstn n data
                           | None => data
                           end in
            let err := match writeFails host p data with
                       | Some _ => Some (PathError "write" EIO)
                       | None => None
                       end in
            match fs w !! p with
            | Some (Dir _) => (w, Some (PathError "open" EISDIR))
            | Some (File mode _) =>
                (emit (EvWriteFile p written)
                   (setFs (<[p := File mode written]> (fs w)) w), err)
            | None =>
                (emit (EvWriteFile p written)
                   (setFs (<[p := File (N.ldiff perm (umask host)) written]> (fs w)) w),
                 err)
            end
      | inl (File _ _) => (w, Some (PathError "open" ENOTDIR))
      | inr e => (w, Some (PathError "open" e))
      end
  end.

(** The pattern of [CreateTemp], cut at its last '*'. *)
Fixpoint cutLastStar (pattern : string) : option (string * string) :=
  match pattern with
  | EmptyString => None
  | String c rest =>
      match cutLastStar rest with
      | Some (pre, suf) => Some (String c pre, suf)
      | None => if Ascii.eqb c "*"%char then Some (EmptyString, rest) else None
      end
  end.

Definition prefixAndSuffix (pattern : string) : string * string :=
  match cutLastStar pattern with
  | Some ps => ps
  | None => (pattern, EmptyString)
  end.

Fixpoint hasSeparator (s : string) : bool :=
  match s with
  | EmptyString => false
  | String c rest => Ascii.eqb c "/"%char || hasSeparator rest
  end.

(** [CreateTemp("", pattern)]: a new file in the default directory for
    temporary files. *)
Definition CreateTemp (pattern : string) (w : World) : World * (tmpfile + error) :=
  let n := tempCalls w in
  let w' := mkWorld (fs w) (temps w) (S n) (cpuProfiling w) (trace w) in
  if hasSeparator pattern then (w', inr (PathError "createtemp" EINVAL))
  else if createTempFails host n then (w', inr (PathError "open" EACCES))
  else
    let '(pre, suf) := prefixAndSuffix pattern in
    let f : tmpfile := (pre, n, suf) in
    (emit (EvCreateTemp f)
       (mkWorld (fs w) ({[n]} ∪ temps w) (S n) (cpuProfiling w) (trace w)),
     inl f).

(** [Remove(f.Name())] *)
Definition Remove (f : tmpfile) (w : World) : World :=
  emit (EvRemove f)
    (mkWorld (fs w) (temps w ∖ {[tmpRandom f]}) (tempCalls w)
             (cpuProfiling w) (trace w)).

(** [f.Close()] *)
Definition Close (f : tmpfile) (w : World) : World := emit (EvClose f) w.

End WithHost.

End os.

(* ===================================================================== *)
(** * Go control flow: return, Goexit, panic, defer *)
(* ===================================================================== *)

(** How a call ends: it returns, the goroutine exits ([t.FailNow], which is
    [runtime.Goexit] after the test is marked as failed), or it panics.  In
    all three cases the deferred calls run. *)
Inductive outcome (A : Type) : Type :=
| Normal (a : A)
| Goexit
| Panic (msg : string).

Arguments Normal {A} a.
Arguments Goexit {A}.
Arguments Panic {A} msg.

Definition Go (A : Type) : Type := World -> outcome A * World.

Definition ret {A : Type} (a : A) : Go A := fun w => (Normal a, w).

Definition bind {A B : Type} (m : Go A) (k : A -> Go B) : Go B :=
  fun w =>
    match m w with
    | (Normal a, w') => k a w'
    | (Goexit, w') => (Goexit, w')
    | (Panic msg, w') => (Panic msg, w')
    end.

Notation "'let*' x ':=' m 'in' k" := (bind m (fun x => k))
  (at level 10, x name, m at level 100, k at level 200).

(** An effect that cannot fail. *)
Definition effect (f : World -> World) : Go unit := fun w => (Normal tt, f w).

Definition log_Printf (format : string) (args : list arg) : Go unit :=
  effect (emit (EvLogPrintf format args)).

Definition panic {A : Type} (msg : string) : Go A := fun w => (Panic msg, w).

(** [defer d; body]: [d] runs when [body] is over, however it ends. *)
Definition defer {A : Type} (d : World -> World) (body : Go A) : Go A :=
  fun w => let '(r, w') := body w in (r, d w').

(** What the body of a [for ... range] loop asks for. *)
Inductive flow : Type :=
| Continue
| Return.

(** [for _, x := range l { body }]; [Return] when the body returned from the
    enclosing function. *)
Fixpoint forRange {A : Type} (l : list A) (body : A -> Go flow) : Go flow :=
  match l with
  | [] => ret Continue
  | x :: l' =>
      let* f := body x in
      match f with
      | Continue => forRange l' body
      | Return => ret Return
      end
  end.

(** [require.NoError(tc.B, err, msg)] *)
Definition require_NoError (err : option error) (msg : string) : Go unit :=
  match err with
  | None => ret tt
  | Some e => fun w => (Goexit, emit (EvFail e msg) w)
  end.

Module pprof.

(** At most one CPU profile session is active in the process. *)
Definition StartCPUProfile (f : tmpfile) : Go (option error) :=
  fun w =>
    if cpuProfiling w
    then (Normal (Some (ProfileError "cpu profiling already in use")), w)
    else (Normal None,
          emit (EvStartCPUProfile f)
            (mkWorld (fs w) (temps w) (tempCalls w) true (trace w))).

Definition StopCPUProfile : Go unit :=
  effect (fun w => emit EvStopCPUProfile
                     (mkWorld (fs w) (temps w) (tempCalls w) false (trace w))).

(** [pprof.Lookup(name).WriteTo(f, 0)]: [Lookup] gives nil for a name that
    is not registered, and [WriteTo] on the nil profile dereferences it. *)
Definition LookupWriteTo (host : Host) (name : string) (f : tmpfile)
  : Go (option error) :=
  if registered host name then
    if writeToFails host name
    then ret (Some (PathError "write" EACCES))
    else fun w => (Normal None, emit (EvWriteTo name f) w)
  else panic "runtime error: invalid memory address or nil pointer dereference".

End pprof.

(* ===================================================================== *)
(** * helper.go: profiling *)
(* ===================================================================== *)

(** [GetProfileDir] *)
Definition GetProfileDir (tc : APITestCase) : path :=
  let caseName := strings.ReplaceAll (Name tc) " " "_" in
  let functionName := filepath.Base (FunctionName tc) in
  filepath.Join ["profiles"; functionName; caseName].

Section Profiling.

Variable host : Host.
Variable cfg : Config.

(** [MakeDirIfNotExists] *)
Definition MakeDirIfNotExists (p : path) (w : World) : World :=
  if os.IsNotExist (os.Stat (fs w) p)
  then fst (os.MkdirAll host p 493 w)       (* 0755 *)
  else w.

(** The preparation of the output directory in [RunProfiling]; the error
    of [os.MkdirAll] is dropped there. *)
Definition prepareDir (p : path) (w : World) : World :=
  fst (os.MkdirAll host p os.ModePerm (MakeDirIfNotExists p w)).

(** [GenerateGraph] *)
Definition GenerateGraph (profilePath : tmpfile) (outputPath : path)
  (format : string) : Go unit :=
  let* _ := effect (emit (EvExec format profilePath)) in
  match pprofTool host format profilePath with
  | None =>
      log_Printf "Failed to generate %s for %s: %v"
        [AStr format; AFile profilePath; AErr ExitError]
  | Some output =>
      fun w =>
        match os.WriteFile host outputPath output 420 w with   (* 0644 *)
        | (w', Some err) =>
            log_Printf "Failed to write %s to %s: %v"
              [AStr format; APath outputPath; AErr err] w'
        | (w', None) =>
            log_Printf "%s saved to %s"
              [AUpper format; APath outputPath] w'
        end
  end.

(** [WriteProfileAndExport] *)
Definition WriteProfileAndExport (profileType : string) (dir : path) : Go unit :=
  if (List.length (ProfilingOutputFormats cfg) =? 0)%nat then
    log_Printf "Skipping %s profile: no output formats selected" [AStr profileType]
  else
    fun w =>
      match os.CreateTemp host (profileType +:+ ".prof") w with
      | (w1, inr err) =>
          log_Printf "Failed to create temp file for %s profile: %v"
            [AStr profileType; AErr err] w1
      | (w1, inl temporaryFile) =>
          defer (os.Remove temporaryFile)
            (defer (os.Close temporaryFile)
              (let* err := pprof.LookupWriteTo host profileType temporaryFile in
               match err with
               | Some e =>
                   log_Printf "Failed to write %s profile: %v"
                     [AStr profileType; AErr e]
               | None =>
                   let* _ := log_Printf "%s profile written to temporary file"
                               [AStr profileType] in
                   let* _ := forRange (ProfilingOutputFormats cfg)
                       (fun format =>
                          let outputPath :=
                            filepath.JoinDir dir (profileType +:+ "." +:+ format) in
                          let* _ := GenerateGraph temporaryFile outputPath format in
                          ret Continue) in
                   ret tt
               end)) w1
      end.

(** [RunProfiling]; [tc.B.Helper()] has no effect of its own.  The model
    follows the call to its end, so the workload is taken to return: a
    panic of [tc.ExecuteHandler] in a worker goroutine of [RunParallel] ends
    the process there and then, no deferred call runs, and there is no end
    of the call to speak of ([workloadReturns] tells when this cannot
    happen). *)
Definition RunProfiling (tc : APITestCase) : Go unit :=
  if (List.length (ProfilingOutputFormats cfg) =? 0)%nat then ret tt
  else
    let profileDir := GetProfileDir tc in
    let* _ := effect (prepareDir profileDir) in
    fun w =>
      match os.CreateTemp host "cpu_profile_*.prof" w with
      | (w1, inr err) =>
          require_NoError (Some err) "Failed to create temp CPU profile file" w1
      | (w1, inl cpuTempFile) =>
          defer (os.Remove cpuTempFile)
            (defer (os.Close cpuTempFile)
              (let* err := pprof.StartCPUProfile cpuTempFile in
               let* _ := require_NoError err "Failed to start CPU profile" in
               let* _ := effect (emit (EvSetBlockProfileRate 1)) in
               let* _ := effect (emit (EvSetMutexProfileFraction 1)) in
               let* _ := effect (emit EvRunParallel) in
               let* _ := pprof.StopCPUProfile in
               let* f := forRange (ProfilingOutputFormats cfg)
                   (fun format =>
                      if negb (String.eqb format "png") && negb (String.eqb format "pdf")
                      then
                        let* _ := effect (emit (EvBLogf
                          "Invalid profiling output format: %s. Only 'png' and 'pdf' are supported."
                          [AStr format])) in
                        ret Return
                      else
                        let outputPath :=
                          filepath.JoinDir profileDir ("cpu." +:+ format) in
                        let* _ := GenerateGraph cpuTempFile outputPath format in
                        ret Continue) in
               match f with
               | Return => ret tt
               | Continue =>
                   let* _ := forRange (EnabledProfilingTypes cfg)
                       (fun profile =>
                          let* _ := WriteProfileAndExport profile profileDir in
                          ret Continue) in
                   ret tt
               end)) w1
      end.

End Profiling.

(** An empty world: no file, no session, nothing done yet. *)
Definition emptyWorld : World := mkWorld ∅ ∅ 0 false [].

(** A host on which nothing fails: the profiles of the Go runtime are
    registered and the rendering tool answers every request. *)
Definition goodHost : Host :=
  mkHost 18 (fun _ => false) (fun _ => false)
    (fun name => existsb (String.eqb name)
                   ["goroutine"; "threadcreate"; "heap"; "allocs"; "block"; "mutex"])
    (fun _ => false)
    (fun _ _ => Some [])
    (fun _ => false)
    (fun _ => true)
    (fun _ _ => None).

(* ===================================================================== *)
(** * Notions the properties are stated with *)
(* ===================================================================== *)

(** A hexadecimal digit, of either case. *)
Definition isHexDigit (c : ascii) : bool :=
  let n := N_of_ascii c in
  ((48 <=? n)%N && (n <=? 57)%N)
  || ((97 <=? n)%N && (n <=? 102)%N)
  || ((65 <=? n)%N && (n <=? 70)%N).

Fixpoint hexString (s : string) : bool :=
  match s with
  | EmptyString => true
  | String c rest => isHexDigit c && hexString rest
  end.

(** A lower-case hexadecimal digit. *)
Definition isLowerHexDigit (c : ascii) : bool :=
  let n := N_of_ascii c in
  ((48 <=? n)%N && (n <=? 57)%N) || ((97 <=? n)%N && (n <=? 102)%N).

Fixpoint lowerHexString (s : string) : bool :=
  match s with
  | EmptyString => true
  | String c rest => isLowerHexDigit c && lowerHexString rest
  end.

(** The letters 'A'..'Z' replaced by 'a'..'z'. *)
Fixpoint lowerASCII (s : string) : string :=
  match s with
  | EmptyString => EmptyString
  | String c rest =>
      let n := N_of_ascii c in
      String (if (65 <=? n)%N && (n <=? 90)%N then ascii_of_N (n + 32) else c)
             (lowerASCII rest)
  end.

(** From position [i] on, the characters of a hyphenated UUID: a hyphen at
    the positions 8, 13, 18 and 23, a hexadecimal digit elsewhere. *)
Fixpoint uuidChars (i : nat) (s : string) : bool :=
  match s with
  | EmptyString => true
  | String c rest =>
      (if (i =? 8)%nat || (i =? 13)%nat || (i =? 18)%nat || (i =? 23)%nat
       then Ascii.eqb c "-"%char
       else isHexDigit c)
      && uuidChars (S i) rest
  end.

(** A 36-character hyphenated UUID string, 8-4-4-4-12. *)
Definition validUUID (u : string) : bool :=
  (String.length u =? 36)%nat && uuidChars 0 u.

(** The same with lower-case digits only. *)
Definition lowerUUID (u : string) : bool :=
  validUUID u && String.eqb (lowerASCII u) u.

(** The Base64 payload that [GetStringUUidFromBsonId] cuts out of its
    argument. *)
Definition payload (binData : string) : string :=
  strings.TrimSuffix (strings.TrimPrefix binData "BinData(0, '") "')".

(** A Go [int]: 64 bits. *)
Definition isInt (z : Z) : bool := (- 2 ^ 63 <=? z)%Z && (z <? 2 ^ 63)%Z.

(** A member of the response object of the type its field has in [Resp]:
    null or an [int] for "code" and "api_status", null or a string for
    "message", anything that decodes into an [any] for "data" and
    "meta_data"; a member that names no field is ignored by the decoder.
    The field is named by the key up to case, as [fieldOfKey] has it. *)
Definition typedMember (m : string * json.value) : bool :=
  match fieldOfKey (fst m) with
  | None => true
  | Some FCode | Some FApiStatus =>
      match snd m with
      | json.JNull => true
      | json.JNumber (json.Integer z) => isInt z
      | _ => false
      end
  | Some FMessage =>
      match snd m with
      | json.JNull | json.JString _ => true
      | _ => false
      end
  | Some FData | Some FMetaData => json.interfaceOK (snd m)
  end.

(** The member gives the code: its key names the field [Code] and its
    value is an integer that fits. *)
Definition givesCode (m : string * json.value) : option Z :=
  match fieldOfKey (fst m), snd m with
  | Some FCode, json.JNumber n => json.fitsInt n
  | _, _ => None
  end.

(** The code that the members of a response object leave in a [Resp] whose
    code was [start]: the one of the last member that gives a code. *)
Definition decodedCode (members : list (string * json.value)) (start : Z) : Z :=
  fold_left (fun c m => match givesCode m with Some z => z | None => c end)
            members start.

(** The call of the handler that makes the workload of a profiling run
    returns: [ExecuteHandler] does not panic. *)
Definition workloadReturns (host : Host) (tc : APITestCase) : bool :=
  match snd (ExecuteHandler host tc) with
  | Recorded _ => true
  | NilRequest => false
  end.

(** The body [{"response": {"code": x, ...}}], the dots being [rest]. *)
Definition responseBody (x : Z) (rest : list (string * json.value)) : ResponseBody :=
  Some (json.JObject
          [("response", json.JObject (("code", json.JNumber (json.Integer x)) :: rest))]).

(** A handler that leaves the given body, whatever the request. *)
Definition handlerOf (body : ResponseBody) : Context -> ResponseBody := fun _ => body.

(** The test case of the package's examples, with a handler of choice. *)
Definition exampleCase (h : Context -> ResponseBody) (expected : Z) : APITestCase :=
  mkAPITestCase "Example Test Case" "GET" "/example" h "" ∅ ∅ expected ∅
                "handlers.Example".

(** The temporary files a sequence of events creates, and those it
    removes, in order. *)
Fixpoint created (evs : list event) : list tmpfile :=
  match evs with
  | [] => []
  | EvCreateTemp f :: evs' => f :: created evs'
  | _ :: evs' => created evs'
  end.

Fixpoint removed (evs : list event) : list tmpfile :=
  match evs with
  | [] => []
  | EvRemove f :: evs' => f :: removed evs'
  | _ :: evs' => removed evs'
  end.

(** The temporary files that exist were all made by [os.CreateTemp]. *)
Definition tempsFresh (w : World) : Prop :=
  forall n : nat, n ∈ temps w -> (n < tempCalls w)%nat.

(** An event that leaves a file or a directory behind. *)
Definition createsFile (e : event) : bool :=
  match e with
  | EvMkdir _ _ | EvCreateTemp _ | EvWriteFile _ _ => true
  | _ => false
  end.

(** A call of the rendering tool. *)
Definition isExportCall (e : event) : bool :=
  match e with
  | EvExec _ _ => true
  | _ => false
  end.

(** The workload, a capture or an export: what a profiling run is for. *)
Definition isProfilingWork (e : event) : bool :=
  match e with
  | EvRunParallel | EvWriteTo _ _ | EvExec _ _ | EvWriteFile _ _ => true
  | _ => false
  end.

(** The format check of [RunProfiling]. *)
Definition supportedFormat (format : string) : bool :=
  String.eqb format "png" || String.eqb format "pdf".

(** An event of the export of the CPU profile [f] in one of [formats]. *)
Definition cpuExportEvent (dir : path) (f : tmpfile) (formats : list string)
  (e : event) : Prop :=
  match e with
  | EvExec format f' => f' = f /\ In format formats
  | EvWriteFile p _ =>
      exists format, In format formats /\ p = filepath.JoinDir dir ("cpu." +:+ format)
  | EvLogPrintf _ _ => True
  | _ => False
  end.

(** An event that neither creates nor removes a temporary file. *)
Definition quiet (e : event) : Prop :=
  match e with
  | EvCreateTemp _ | EvRemove _ => False
  | _ => True
  end.

Definition isMkdir (e : event) : Prop :=
  match e with
  | EvMkdir _ _ => True
  | _ => False
  end.

(** From [w] to [w'] only events in [P] were added to the trace. *)
Definition emitsOnly (P : event -> Prop) (w w' : World) : Prop :=
  exists evs, trace w' = trace w ++ evs /\ Forall P evs.

(** From [w] to [w'] the temporary files and the CPU session are left as
    they were. *)
Definition sameSession (w w' : World) : Prop :=
  temps w' = temps w /\ tempCalls w' = tempCalls w
  /\ cpuProfiling w' = cpuProfiling w.

(** From [w] to [w'] every temporary file that was created was removed,
    once: the files created are pairwise different, they are the files
    removed, and the files that exist are those that existed. *)
Definition tidyRun (w w' : World) : Prop :=
  exists evs,
    trace w' = trace w ++ evs
    /\ (tempCalls w <= tempCalls w')%nat
    /\ created evs ≡ₚ removed evs
    /\ NoDup (tmpRandom <$> created evs)
    /\ Forall (fun f => (tempCalls w <= tmpRandom f < tempCalls w')%nat) (created evs)
    /\ (tempsFresh w -> temps w' = temps w).

(** A computation that is tidy from every world, however it ends. *)
Definition tidy {A : Type} (m : Go A) : Prop :=
  forall w, tidyRun w (snd (m w)).

(** A host on which no temporary file can be created. *)
Definition noTempHost : Host :=
  mkHost 18 (fun _ => false) (fun _ => true) (registered goodHost)
    (fun _ => false) (fun _ _ => Some []) (fun _ => false) (fun _ => true)
    (fun _ _ => None).

(** A world in which a CPU profile session is already active. *)
Definition busyWorld : World := mkWorld ∅ ∅ 0 true [].

(** One byte of [lowerASCII]. *)
Definition lowerByte (c : ascii) : ascii :=
  let n := N_of_ascii c in
  if (65 <=? n)%N && (n <=? 90)%N then ascii_of_N (n + 32) else c.

(** A member of the outer object that decodes into a [Resp] without error. *)
Definition decodes (m : string * json.value) : Prop :=
  snd (decodeResp (snd m) None) = None.

(** A JSON value that is neither null nor an object. *)
Definition notAnObject (v : json.value) : bool :=
  match v with
  | json.JNull | json.JObject _ => false
  | _ => true
  end.

(** The first error stays; the value decoded does not depend on it. *)
Definition sticky (err : option error) (err' : option error) : option error :=
  match err with
  | Some e => Some e
  | None => err'
  end.

(** A name that is one path element: no separator in it, and it is not
    empty, "." or "..". *)
Definition plainName (s : string) : bool :=
  negb (os.hasSeparator s) && negb (String.eqb s "")
  && negb (String.eqb s ".") && negb (String.eqb s "..").

(** A computation that never ends in [Goexit]: it does not fail the test. *)
Definition noGoexit {A : Type} (m : Go A) : Prop :=
  forall w, fst (m w) <> Goexit.

(** A computation that takes every world to one related to it by [R]. *)
Definition respects {A : Type} (R : World -> World -> Prop) (m : Go A) : Prop :=
  forall w, R w (snd (m w)).

(** What may happen in a run of [RunProfiling] once the CPU session is
    stopped: exports in a configured format, of the CPU profile or of an
    enabled kind, into the profile directory; captures of enabled kinds in
    temporary files of their own; log lines. *)
Definition exportPhaseEvent (dir : path) (formats kinds : list string) (e : event)
  : Prop :=
  match e with
  | EvExec format _ => In format formats
  | EvWriteFile p _ =>
      exists kind format,
        In kind ("cpu" :: kinds) /\ In format formats
        /\ p = filepath.JoinDir dir (kind +:+ "." +:+ format)
  | EvWriteTo kind _ => In kind kinds
  | EvCreateTemp f =>
      exists kind, In kind kinds
                   /\ (fst (fst f), snd f) = os.prefixAndSuffix (kind +:+ ".prof")
  | EvLogPrintf _ _ | EvBLogf _ _ | EvClose _ | EvRemove _ => True
  | _ => False
  end.

(** The world relation of the export phase: the CPU session is left as it
    is and only events of the export phase are added. *)
Definition exportPhase (dir : path) (formats kinds : list string) (w w' : World)
  : Prop :=
  cpuProfiling w' = cpuProfiling w
  /\ emitsOnly (exportPhaseEvent dir formats kinds) w w'.

(** An event of the CPU profile session and of the workload it brackets. *)
Definition isSessionEvent (e : event) : bool :=
  match e with
  | EvStartCPUProfile _ | EvStopCPUProfile | EvSetBlockProfileRate _
  | EvSetMutexProfileFraction _ | EvRunParallel => true
  | _ => false
  end.

(** Where a run may call the tool, capture and write: the tool with a
    configured format, a capture of an enabled kind, an output file
    [<kind>.<format>] in the profile directory for the CPU profile or an
    enabled kind and a configured format. *)
Definition withinConfiguration (dir : path) (formats kinds : list string) (e : event)
  : Prop :=
  match e with
  | EvExec format _ => In format formats
  | EvWriteFile p _ =>
      exists kind format,
        In kind ("cpu" :: kinds) /\ In format formats
        /\ p = filepath.JoinDir dir (kind +:+ "." +:+ format)
  | EvWriteTo kind _ => In kind kinds
  | _ => True
  end.

(** What the rendering tool puts out for a profile file, nothing when it
    fails. *)
Definition toolOutput (host : Host) (format : string) (f : tmpfile) : list ascii :=
  match pprofTool host format f with
  | Some output => output
  | None => []
  end.

(** The events of one export that goes well: the tool is called, its output
    is written to [<kind>.<format>] in the directory, the line is logged. *)
Definition exportEvents (host : Host) (dir : path) (kind : string) (f : tmpfile)
  (format : string) : list event :=
  let out := dir ++ [kind +:+ "." +:+ format] in
  [EvExec format f; EvWriteFile out (toolOutput host format f);
   EvLogPrintf "%s saved to %s" [AUpper format; APath out]].

(** The temporary file that the [n]-th call of [os.CreateTemp] makes for a
    pattern. *)
Definition tempFileOf (pattern : string) (n : nat) : tmpfile :=
  (fst (os.prefixAndSuffix pattern), n, snd (os.prefixAndSuffix pattern)).

(** The events of the snapshot profiles when all goes well: for each kind,
    in order, the temporary file, the capture, the exports in every format,
    the closing and the removal of the file.  [n] counts the calls of
    [os.CreateTemp]. *)
Fixpoint snapshotEvents (host : Host) (dir : path) (formats : list string) (n : nat)
  (kinds : list string) : list event :=
  match kinds with
  | [] => []
  | kind :: kinds' =>
      let f := tempFileOf (kind +:+ ".prof") n in
      [EvCreateTemp f; EvWriteTo kind f;
       EvLogPrintf "%s profile written to temporary file" [AStr kind]]
      ++ concat (map (exportEvents host dir kind f) formats)
      ++ [EvClose f; EvRemove f]
      ++ snapshotEvents host dir formats (S n) kinds'
  end.

(** The directory is there and no directory stands where an output file
    goes. *)
Definition ready (dir : path) (w : World) : Prop :=
  (exists m, os.Stat (fs w) dir = inl (Dir m))
  /\ forall name m, fs w !! (dir ++ [name]) <> Some (Dir m).

(** From [w] to [w'] every regular file is still one. *)
Definition keepsFiles (w w' : World) : Prop :=
  forall q m d, fs w !! q = Some (File m d) -> exists m' d', fs w' !! q = Some (File m' d').

(* ===================================================================== *)
(** * The model at work *)
(* ===================================================================== *)

Example ReplaceAll_hyphens : strings.ReplaceAll "a-b--c-" "-" "" = "abc".
Proof. reflexivity. Qed.

Example ReplaceAll_spaces :
  strings.ReplaceAll "Example Test Case" " " "_" = "Example_Test_Case".
Proof. reflexivity. Qed.

Example ReplaceAll_no_overlap : strings.ReplaceAll "aaa" "aa" "b" = "ba".
Proof. reflexivity. Qed.

Example TrimSuffix_absent : strings.TrimSuffix ")" "')" = ")".
Proof. reflexivity. Qed.

Example hex_mixed_case : hex.DecodeString "0aFf" = inl ["010"%char; "255"%char].
Proof. reflexivity. Qed.

Example hex_invalid_byte : hex.DecodeString "0g" = inr (InvalidByteError "g"%char).
Proof. reflexivity. Qed.

Example hex_odd_length : hex.DecodeString "abc" = inr ErrLength.
Proof. reflexivity. Qed.

Example hex_invalid_before_length : hex.DecodeString "abz" = inr (InvalidByteError "z"%char).
Proof. reflexivity. Qed.

Example base64_encode_hello :
  base64.EncodeToString (list_ascii_of_string "hello") = "aGVsbG8=".
Proof. reflexivity. Qed.

Example base64_decode_hello :
  base64.DecodeString "aGVsbG8=" = inl (list_ascii_of_string "hello").
Proof. reflexivity. Qed.

Example base64_decode_unpadded : base64.DecodeString "aGVsbG8" = inr CorruptInputError.
Proof. reflexivity. Qed.

Example base64_decode_newline :
  base64.DecodeString (String "a" (String "G" (String "010" "VsbG8=")))
  = inl (list_ascii_of_string "hello").
Proof. reflexivity. Qed.

Example base64_decode_trailing : base64.DecodeString "aGVsbG8=x" = inr CorruptInputError.
Proof. reflexivity. Qed.

Example base64_decode_padding_only : base64.DecodeString "a===" = inr CorruptInputError.
Proof. reflexivity. Qed.

Example Base_empty : filepath.Base "" = ".".
Proof. reflexivity. Qed.

Example Base_last : filepath.Base "pkg/handlers.GetUser/" = "handlers.GetUser".
Proof. reflexivity. Qed.

Example Base_slashes : filepath.Base "///" = "/".
Proof. reflexivity. Qed.

Example Join_clean : filepath.Join ["profiles"; "."; "a/../b"; "GET_/users"]
                     = ["profiles"; "b"; "GET_"; "users"].
Proof. reflexivity. Qed.

Example fieldOfKey_folds :
  fieldOfKey "CODE" = Some FCode /\ fieldOfKey "Api_Status" = Some FApiStatus
  /\ fieldOfKey "codes" = None.
Proof. repeat split. Qed.

Example Unmarshal_wrong_type :
  snd (Unmarshal (Some (json.JObject
         [("response", json.JObject [("code", json.JString "200")])])))
  = Some (UnmarshalError "Resp.code").
Proof. reflexivity. Qed.

Example Unmarshal_fraction :
  snd (Unmarshal (Some (json.JObject
         [("response", json.JObject [("code", json.JNumber (json.Fraction true))])])))
  = Some (UnmarshalError "Resp.code").
Proof. reflexivity. Qed.

Example validMethod_examples :
  http.validMethod "GET" = true /\ http.validMethod "M-SEARCH" = true
  /\ http.validMethod "GET /" = false /\ http.validMethod "" = false.
Proof. repeat split. Qed.

Example NewRequest_default_method :
  http.NewRequest goodHost "" "/example" "" = inl (mkRequest "GET" "/example" "" ∅).
Proof. reflexivity. Qed.

Example ExecuteHandler_nil_request :
  ExecuteHandler goodHost
    (mkAPITestCase "Example Test Case" "GET /" "/example" (handlerOf None) ""
       ∅ (<["X-Test" := "1"]> ∅) 200 ∅ "handlers.Example")
  = ([ErrorWhileHitting (InvalidMethodError "GET /")], NilRequest)
  /\ ExecuteHandler goodHost
       (mkAPITestCase "Example Test Case" "GET /" "/example" (handlerOf None) ""
          ∅ ∅ 200 ∅ "handlers.Example")
     = ([ErrorWhileHitting (InvalidMethodError "GET /")], Recorded None).
Proof. split; vm_compute; reflexivity. Qed.

Example RunAPITest_first_failure :
  map fst
    (RunAPITest goodHost defaultConfig
       [mkAPITestCase "first" "GET" "/a" (handlerOf (responseBody 200 [])) ""
          ∅ ∅ 200 ∅ "handlers.A";
        mkAPITestCase "second" "GET" "/b" (handlerOf (responseBody 500 [])) ""
          ∅ ∅ 200 ∅ "handlers.B";
        mkAPITestCase "third" "GET" "/c" (handlerOf (responseBody 200 [])) ""
          ∅ ∅ 200 ∅ "handlers.C"])
  = ["first"; "second"].
Proof. vm_compute. reflexivity. Qed.

Example WriteFile_stops_early :
  let host := mkHost 18 (fun _ => false) (fun _ => false) (registered goodHost)
                (fun _ => false) (fun _ _ => Some ["a"%char; "b"%char; "c"%char])
                (fun _ => false) (fun _ => true) (fun _ _ => Some 1%nat) in
  let w := snd (GenerateGraph host ("cpu_profile_", 0%nat, ".prof") ["cpu.png"] "png"
                  emptyWorld) in
  fs w !! ["cpu.png"] = Some (File 420 ["a"%char])
  /\ trace w
     = [EvExec "png" ("cpu_profile_", 0%nat, ".prof");
        EvWriteFile ["cpu.png"] ["a"%char];
        EvLogPrintf "Failed to write %s to %s: %v"
          [AStr "png"; APath ["cpu.png"]; AErr (PathError "write" EIO)]].
Proof. split; vm_compute; reflexivity. Qed.

Example GetProfileDir_example :
  GetProfileDir (exampleCase (handlerOf None) 200)
  = ["profiles"; "handlers.Example"; "Example_Test_Case"].
Proof. reflexivity. Qed.

Example uuid_ex1 :
  GetBsonIdFromUUId "550e8400-e29b-41d4-a716-446655440000"
  = "BinData(0, 'VQ6EAOKbQdSnFkRmVUQAAA==')".
Proof. vm_compute. reflexivity. Qed.

Example uuid_ex2 :
  GetStringUUidFromBsonId "BinData(0, 'VQ6EAOKbQdSnFkRmVUQAAA==')"
  = ("550e8400-e29b-41d4-a716-446655440000", None).
Proof. vm_compute. reflexivity. Qed.

(* ===================================================================== *)
(** * Strings *)
(* ===================================================================== *)

Lemma append_nil (b : string) : "" +:+ b = b.
Proof. reflexivity. Qed.

Lemma append_cons (c : ascii) (a b : string) : String c a +:+ b = String c (a +:+ b).
Proof. reflexivity. Qed.

Lemma length_app_string (a b : string) :
  String.length (a +:+ b) = (String.length a + String.length b)%nat.
Proof.
  induction a as [|c a IH]; [reflexivity|].
  rewrite append_cons. simpl. now rewrite IH.
Qed.

Lemma app_assoc_string (a b c : string) : (a +:+ b) +:+ c = a +:+ (b +:+ c).
Proof.
  induction a as [|x a IH]; [reflexivity|].
  rewrite !append_cons. now rewrite IH.
Qed.

Lemma slice_to_app (a b : string) : strings.slice_to (String.length a) (a +:+ b) = a.
Proof.
  induction a as [|c a IH]; [reflexivity|].
  rewrite append_cons. simpl. now rewrite IH.
Qed.

Lemma slice_from_app (a b : string) : strings.slice_from (String.length a) (a +:+ b) = b.
Proof.
  induction a as [|c a IH]; [reflexivity|].
  rewrite append_cons. simpl. exact IH.
Qed.

Lemma HasPrefix_app (p x : string) : strings.HasPrefix (p +:+ x) p = true.
Proof.
  unfold strings.HasPrefix. rewrite slice_to_app, String.eqb_refl, length_app_string.
  rewrite andb_true_r. apply Nat.leb_le. lia.
Qed.

Lemma HasSuffix_app (x s : string) : strings.HasSuffix (x +:+ s) s = true.
Proof.
  unfold strings.HasSuffix. rewrite length_app_string.
  replace (String.length x + String.length s - String.length s)%nat
    with (String.length x) by lia.
  rewrite slice_from_app, String.eqb_refl, andb_true_r. apply Nat.leb_le. lia.
Qed.

Lemma TrimPrefix_app (p x : string) : strings.TrimPrefix (p +:+ x) p = x.
Proof. unfold strings.TrimPrefix. now rewrite HasPrefix_app, slice_from_app. Qed.

Lemma TrimSuffix_app (x s : string) : strings.TrimSuffix (x +:+ s) s = x.
Proof.
  unfold strings.TrimSuffix. rewrite HasSuffix_app, length_app_string.
  replace (String.length x + String.length s - String.length s)%nat
    with (String.length x) by lia.
  apply slice_to_app.
Qed.

(** Removing the hyphens, one character at a time. *)
Lemma ReplaceAll_hyphen_cons (c : ascii) (s : string) :
  strings.ReplaceAll (String c s) "-" "" =
  if Ascii.eqb c "-"%char then strings.ReplaceAll s "-" ""
  else String c (strings.ReplaceAll s "-" "").
Proof.
  unfold strings.ReplaceAll. cbn [strings.replace_from].
  unfold strings.HasPrefix. cbn [String.length strings.slice_to Nat.leb andb String.eqb].
  destruct (Ascii.eqb c "-"); reflexivity.
Qed.

Lemma ReplaceAll_hyphen_app (a b : string) :
  strings.ReplaceAll (a +:+ b) "-" "" =
  strings.ReplaceAll a "-" "" +:+ strings.ReplaceAll b "-" "".
Proof.
  induction a as [|c a IH]; [reflexivity|].
  rewrite append_cons, !ReplaceAll_hyphen_cons, IH.
  destruct (Ascii.eqb c "-"); reflexivity.
Qed.

Lemma isHexDigit_not_hyphen (c : ascii) : isHexDigit c = true -> Ascii.eqb c "-"%char = false.
Proof.
  intros H. destruct (Ascii.eqb_spec c "-"%char) as [->|]; [discriminate H | reflexivity].
Qed.

Lemma ReplaceAll_hexString (s : string) :
  hexString s = true -> strings.ReplaceAll s "-" "" = s.
Proof.
  induction s as [|c s IH]; [reflexivity|]. simpl. intros [Hc Hs]%andb_prop.
  rewrite ReplaceAll_hyphen_cons, (isHexDigit_not_hyphen c Hc), IH by assumption.
  reflexivity.
Qed.

(* ===================================================================== *)
(** * encoding/base64: decoding undoes encoding *)
(* ===================================================================== *)

Section Bits.
Local Open Scope N_scope.
Ltac Zify.zify_post_hook ::= Z.to_euclidean_division_equations.

Lemma land_mul_pow2_small (a b k : N) : (b < 2 ^ k -> N.land (a * 2 ^ k) b = 0)%N.
Proof.
intros Hb. apply N.bits_inj_0. intros n. rewrite N.land_spec.
destruct (N.lt_ge_cases n k) as [Hlt|Hge].
- rewrite N.mul_pow2_bits_low by assumption. reflexivity.
- replace (N.testbit b n) with false; [apply andb_false_r|].
  symmetry. destruct (N.eq_dec b 0) as [->|Hnz]; [apply N.bits_0|].
  apply N.bits_above_log2. apply N.log2_lt_pow2; [lia|].
  eapply N.lt_le_trans; [exact Hb|]. apply N.pow_le_mono_r; lia.
Qed.

Lemma lor_add (k a b : N) : (a mod 2 ^ k = 0 -> b < 2 ^ k -> N.lor a b = a + b)%N.
Proof.
intros Ha Hb.
assert (E : (a = a / 2 ^ k * 2 ^ k)%N).
{ pose proof (N.div_mod a (2 ^ k)%N) as D. rewrite Ha in D.
  rewrite N.add_0_r, N.mul_comm in D. apply D. apply N.pow_nonzero. discriminate. }
rewrite E.
rewrite <- N.lxor_lor by (now apply land_mul_pow2_small).
symmetry. apply N.add_nocarry_lxor. now apply land_mul_pow2_small.
Qed.

Lemma ascii_of_N_low (q : N) (b : ascii) : ascii_of_N (256 * q + N_of_ascii b) = b.
Proof.
destruct q as [|p]; [apply ascii_N_embedding|].
destruct b as [[] [] [] [] [] [] [] []]; reflexivity.
Qed.

Ltac to_arith :=
rewrite ?N.shiftl_mul_pow2, ?N.shiftr_div_pow2;
change 63%N with (N.ones 6); rewrite ?N.land_ones;
change (2 ^ 6)%N with 64%N; change (2 ^ 8)%N with 256%N;
change (2 ^ 12)%N with 4096%N; change (2 ^ 16)%N with 65536%N;
change (2 ^ 18)%N with 262144%N.

Ltac lor_at k a b :=
let v := eval vm_compute in (2 ^ k)%N in
rewrite (lor_add k a b) by (change (2 ^ k)%N with v; lia).

(* the innermost [N.lor] becomes a sum *)
Ltac lor_step :=
match goal with
| |- context [N.lor ?a ?b] =>
    lazymatch a with
    | context [N.lor _ _] => fail
    | _ => first [ lor_at 18%N a b | lor_at 16%N a b | lor_at 12%N a b
                 | lor_at 8%N a b | lor_at 6%N a b ]
    end
end.

Lemma quantum3 (b0 b1 b2 : ascii) :
let val := N.lor (N.lor (N.shiftl (N_of_ascii b0) 16) (N.shiftl (N_of_ascii b1) 8))
                 (N_of_ascii b2) in
base64.quantumBytes
  [N.land (N.shiftr val 18) 63; N.land (N.shiftr val 12) 63;
   N.land (N.shiftr val 6) 63; N.land val 63] = [b0; b1; b2].
Proof.
pose proof (N_ascii_bounded b0) as H0. pose proof (N_ascii_bounded b1) as H1.
pose proof (N_ascii_bounded b2) as H2.
intros val.
assert (Eval : val = (256 * (256 * N_of_ascii b0 + N_of_ascii b1) + N_of_ascii b2)%N).
{ subst val. to_arith. repeat lor_step. lia. }
unfold base64.quantumBytes. cbn [nth List.length Nat.sub firstn].
set (val' := N.lor _ _).
assert (E' : val' = val).
{ subst val'. rewrite Eval. to_arith.
  repeat lor_step. lia. }
rewrite E', Eval. to_arith.
replace ((256 * (256 * N_of_ascii b0 + N_of_ascii b1) + N_of_ascii b2) / 65536)%N
  with (N_of_ascii b0) by lia.
replace ((256 * (256 * N_of_ascii b0 + N_of_ascii b1) + N_of_ascii b2) / 256)%N
  with (256 * N_of_ascii b0 + N_of_ascii b1)%N by lia.
now rewrite ascii_N_embedding, !ascii_of_N_low.
Qed.

Lemma quantum2 (b0 b1 : ascii) :
let val := N.lor (N.shiftl (N_of_ascii b0) 16) (N.shiftl (N_of_ascii b1) 8) in
base64.quantumBytes
  [N.land (N.shiftr val 18) 63; N.land (N.shiftr val 12) 63;
   N.land (N.shiftr val 6) 63] = [b0; b1].
Proof.
pose proof (N_ascii_bounded b0) as H0. pose proof (N_ascii_bounded b1) as H1.
intros val.
assert (Eval : val = 256 * (256 * N_of_ascii b0 + N_of_ascii b1)).
{ subst val. to_arith. repeat lor_step. lia. }
unfold base64.quantumBytes. cbn [nth List.length Nat.sub firstn].
set (val' := N.lor _ _).
assert (E' : val' = val).
{ subst val'. rewrite Eval. to_arith. rewrite N.lor_0_r. repeat lor_step. lia. }
rewrite E', Eval. to_arith.
replace (256 * (256 * N_of_ascii b0 + N_of_ascii b1) / 65536)
  with (N_of_ascii b0) by lia.
replace (256 * (256 * N_of_ascii b0 + N_of_ascii b1) / 256)
  with (256 * N_of_ascii b0 + N_of_ascii b1) by lia.
now rewrite ascii_N_embedding, !ascii_of_N_low.
Qed.

Lemma quantum1 (b0 : ascii) :
let val := N.shiftl (N_of_ascii b0) 16 in
base64.quantumBytes [N.land (N.shiftr val 18) 63; N.land (N.shiftr val 12) 63] = [b0].
Proof.
pose proof (N_ascii_bounded b0) as H0.
intros val.
assert (Eval : val = 65536 * N_of_ascii b0).
{ subst val. to_arith. lia. }
unfold base64.quantumBytes. cbn [nth List.length Nat.sub firstn].
set (val' := N.lor _ _).
assert (E' : val' = val).
{ subst val'. rewrite Eval. to_arith. change (0 * 64) with 0.
  rewrite !N.lor_0_r. repeat lor_step. lia. }
rewrite E', Eval. to_arith.
replace (65536 * N_of_ascii b0 / 65536) with (N_of_ascii b0) by lia.
now rewrite ascii_N_embedding.
Qed.

Lemma sextet_lt (x : N) : N.land x 63 < 64.
Proof. change 63 with (N.ones 6). rewrite N.land_ones. now apply N.mod_lt. Qed.

End Bits.

(** Checking a decidable property of the numbers below a bound by
    enumeration. *)
Lemma N_forall_lt (P : N -> bool) (n : nat) :
  forallb P (map N.of_nat (seq 0 n)) = true ->
  forall x : N, (x < N.of_nat n)%N -> P x = true.
Proof.
  intros H x Hx. rewrite forallb_forall in H. apply H.
  apply in_map_iff. exists (N.to_nat x). split; [apply N2Nat.id|].
  apply in_seq. lia.
Qed.

Lemma decodeMap_encode (i : N) : (i < 64)%N -> base64.decodeMap (base64.encode i) = i.
Proof.
  intros Hi. apply N.eqb_eq.
  apply (N_forall_lt (fun i => (base64.decodeMap (base64.encode i) =? i)%N) 64);
    [vm_compute; reflexivity | exact Hi].
Qed.

(** A character of the alphabet is read into the quantum. *)
Lemma decodeFrom_encode (i : N) (rest : string) (dbuf : list N) :
  (i < 64)%N ->
  base64.decodeFrom (String (base64.encode i) rest) dbuf =
  if (List.length (dbuf ++ [i]) =? 4)%nat
  then match base64.decodeFrom rest [] with
       | inl bs => inl (base64.quantumBytes (dbuf ++ [i]) ++ bs)
       | inr e => inr e
       end
  else base64.decodeFrom rest (dbuf ++ [i]).
Proof.
  intros Hi. cbn [base64.decodeFrom]. rewrite (decodeMap_encode i Hi).
  replace (i =? 255)%N with false by (symmetry; apply N.eqb_neq; lia).
  reflexivity.
Qed.

Lemma list_ind3 (A : Type) (P : list A -> Prop) :
  P [] -> (forall a, P [a]) -> (forall a b, P [a; b]) ->
  (forall a b c l, P l -> P (a :: b :: c :: l)) ->
  forall l, P l.
Proof.
  intros H0 H1 H2 H3.
  fix IH 1. intros [|a [|b [|c l]]]; [exact H0 | apply H1 | apply H2 |].
  apply H3. apply IH.
Qed.

Lemma base64_roundtrip (bs : list ascii) :
  base64.DecodeString (base64.EncodeToString bs) = inl bs.
Proof.
  unfold base64.DecodeString, base64.EncodeToString.
  induction bs as [|b0|b0 b1|b0 b1 b2 l IH] using list_ind3.
  - reflexivity.
  - cbn [base64.Encode].
    rewrite !decodeFrom_encode by apply sextet_lt. cbn [app List.length Nat.eqb].
    rewrite <- (quantum1 b0) at 1. reflexivity.
  - cbn [base64.Encode].
    rewrite !decodeFrom_encode by apply sextet_lt. cbn [app List.length Nat.eqb].
    rewrite <- (quantum2 b0 b1) at 1. reflexivity.
  - cbn [base64.Encode].
    rewrite !decodeFrom_encode by apply sextet_lt. cbn [app List.length Nat.eqb].
    rewrite IH. rewrite quantum3. reflexivity.
Qed.

(* ===================================================================== *)
(** * encoding/hex *)
(* ===================================================================== *)

Lemma reverseHexTable_isHexDigit (c : ascii) :
  (15 <? hex.reverseHexTable c)%N = negb (isHexDigit c).
Proof. destruct c as [[] [] [] [] [] [] [] []]; reflexivity. Qed.

Lemma lowerASCII_hexdigit (c : ascii) (s : string) :
  isHexDigit c = true ->
  lowerASCII (String c s) = String (hex.hexdigit (hex.reverseHexTable c)) (lowerASCII s).
Proof.
  destruct c as [[] [] [] [] [] [] [] []]; intros H; vm_compute in H;
    try discriminate H; reflexivity.
Qed.

Lemma hex_byte_digits (a b : N) :
  (a < 16)%N -> (b < 16)%N ->
  let byte := ascii_of_N (N.lor (N.shiftl a 4) b) in
  N.shiftr (N_of_ascii byte) 4 = a /\ N.land (N_of_ascii byte) 15 = b.
Proof.
  intros Ha Hb.
  pose (P := fun a b : N =>
    let byte := ascii_of_N (N.lor (N.shiftl a 4) b) in
    (N.shiftr (N_of_ascii byte) 4 =? a)%N && (N.land (N_of_ascii byte) 15 =? b)%N).
  assert (H : P a b = true).
  { apply (N_forall_lt (P a) 16); [|exact Hb].
    apply (N_forall_lt (fun a => forallb (P a) (map N.of_nat (seq 0 16))) 16);
      [vm_compute; reflexivity | exact Ha]. }
  unfold P in H. apply andb_prop in H as [H1 H2].
  split; now apply N.eqb_eq.
Qed.

Lemma reverseHexTable_lt (c : ascii) :
  isHexDigit c = true -> (hex.reverseHexTable c < 16)%N.
Proof.
  intros H. pose proof (reverseHexTable_isHexDigit c) as E. rewrite H in E.
  apply N.ltb_ge in E. lia.
Qed.

Lemma string_ind2 (P : string -> Prop) :
  P "" -> (forall c, P (String c "")) ->
  (forall c d s, P s -> P (String c (String d s))) ->
  forall s, P s.
Proof.
  intros H0 H1 H2.
  fix IH 1. intros [|c [|d s]]; [exact H0 | apply H1 |].
  apply H2. apply IH.
Qed.

(** What [hex.Decode] answers: the bytes of a hexadecimal string of even
    length, which print as its lower-case form; an error for anything else. *)
Lemma hex_Decode_spec (s : string) :
  match hex.Decode s with
  | inl bs => hexString s = true /\ String.length s = (2 * List.length bs)%nat
              /\ fmt.Sbx bs = lowerASCII s
  | inr _ => hexString s && Nat.even (String.length s) = false
  end.
Proof.
  induction s as [|c|c d s IH] using string_ind2.
  - repeat split.
  - cbn [hex.Decode]. destruct (15 <? hex.reverseHexTable c)%N; simpl; apply andb_false_r.
  - cbn [hex.Decode]. rewrite !reverseHexTable_isHexDigit.
    cbn [hexString String.length Nat.even].
    destruct (isHexDigit c) eqn:Hc; [|reflexivity].
    destruct (isHexDigit d) eqn:Hd; [|reflexivity].
    cbn [negb andb]. destruct (hex.Decode s) as [bs|e]; [|exact IH].
    destruct IH as (Hs & Hlen & Hfmt). repeat split.
    + exact Hs.
    + cbn [List.length]. lia.
    + cbn [fmt.Sbx].
      destruct (hex_byte_digits _ _ (reverseHexTable_lt c Hc) (reverseHexTable_lt d Hd))
        as [E1 E2].
      cbv zeta in E1, E2. rewrite E1, E2, Hfmt.
      rewrite (lowerASCII_hexdigit c _ Hc), (lowerASCII_hexdigit d _ Hd). reflexivity.
Qed.

Lemma hex_Decode_app (x y : string) (bx : list ascii) :
  hex.Decode x = inl bx ->
  hex.Decode (x +:+ y) =
  match hex.Decode y with
  | inl b => inl (bx ++ b)
  | inr e => inr e
  end.
Proof.
  revert bx. induction x as [|c|c d x IH] using string_ind2; intros bx H.
  - injection H as <-. rewrite append_nil. destruct (hex.Decode y); reflexivity.
  - cbn [hex.Decode] in H. destruct (15 <? hex.reverseHexTable c)%N; discriminate H.
  - rewrite !append_cons. cbn [hex.Decode] in H |- *.
    destruct (15 <? hex.reverseHexTable c)%N; [discriminate H|].
    destruct (15 <? hex.reverseHexTable d)%N; [discriminate H|].
    destruct (hex.Decode x) as [b|e]; [|discriminate H].
    injection H as <-. rewrite (IH b eq_refl).
    destruct (hex.Decode y); reflexivity.
Qed.

Lemma hex_Decode_ok (s : string) :
  hexString s = true -> Nat.even (String.length s) = true ->
  exists bs, hex.Decode s = inl bs.
Proof.
  intros Hh He. pose proof (hex_Decode_spec s) as H.
  destruct (hex.Decode s) as [bs|e]; [now exists bs|].
  rewrite Hh, He in H. discriminate H.
Qed.

Lemma length_Sbx (bs : list ascii) : String.length (fmt.Sbx bs) = (2 * List.length bs)%nat.
Proof. induction bs as [|b bs IH]; simpl; [reflexivity | rewrite IH; lia]. Qed.

Lemma x0_exact (w : nat) (bs : list ascii) :
  (2 * List.length bs)%nat = w -> fmt.x0 w bs = fmt.Sbx bs.
Proof.
  intros <-. unfold fmt.x0. rewrite length_Sbx, Nat.sub_diag. reflexivity.
Qed.

Lemma lowerASCII_app (a b : string) : lowerASCII (a +:+ b) = lowerASCII a +:+ lowerASCII b.
Proof.
  induction a as [|c a IH]; [reflexivity|].
  rewrite append_cons. cbn [lowerASCII]. now rewrite IH, append_cons.
Qed.

(** The five groups of a hyphenated UUID string. *)
Lemma validUUID_groups (u : string) :
  validUUID u = true ->
  exists a b c d e : string,
    u = a +:+ "-" +:+ b +:+ "-" +:+ c +:+ "-" +:+ d +:+ "-" +:+ e
    /\ (hexString a = true /\ String.length a = 8%nat)
    /\ (hexString b = true /\ String.length b = 4%nat)
    /\ (hexString c = true /\ String.length c = 4%nat)
    /\ (hexString d = true /\ String.length d = 4%nat)
    /\ (hexString e = true /\ String.length e = 12%nat).
Proof.
  unfold validUUID. intros [Hlen H]%andb_prop.
  apply Nat.eqb_eq in Hlen.
  do 36 (destruct u as [|? u]; [discriminate Hlen|]).
  destruct u; [|discriminate Hlen]. clear Hlen.
  cbn [uuidChars Nat.eqb orb] in H.
  repeat match type of H with
         | (_ && _) = true => let H1 := fresh "Hc" in apply andb_prop in H as [H1 H]
         end.
  repeat match goal with
         | E : Ascii.eqb _ "-"%char = true |- _ => apply Ascii.eqb_eq in E; subst
         end.
  match goal with
  | |- context [String ?a0 (String ?a1 (String ?a2 (String ?a3 (String ?a4 (String ?a5
         (String ?a6 (String ?a7 (String "-"%char (String ?b0 (String ?b1 (String ?b2
         (String ?b3 (String "-"%char (String ?c0 (String ?c1 (String ?c2 (String ?c3
         (String "-"%char (String ?d0 (String ?d1 (String ?d2 (String ?d3
         (String "-"%char ?e)))))))))))))))))))))))] =>
      exists (String a0 (String a1 (String a2 (String a3 (String a4 (String a5
               (String a6 (String a7 "")))))))),
             (String b0 (String b1 (String b2 (String b3 "")))),
             (String c0 (String c1 (String c2 (String c3 "")))),
             (String d0 (String d1 (String d2 (String d3 "")))), e
  end.
  split; [reflexivity|].
  cbn [hexString String.length].
  repeat match goal with E : _ = true |- _ => rewrite E; clear E end.
  repeat split.
Qed.

Lemma wrapper_HasPrefix (x : string) :
  strings.HasPrefix ("BinData(0, '" +:+ x +:+ "')") "BinData(0, '" = true.
Proof. apply HasPrefix_app. Qed.

Lemma wrapper_HasSuffix (x : string) :
  strings.HasSuffix ("BinData(0, '" +:+ x +:+ "')") "')" = true.
Proof. rewrite <- app_assoc_string. apply HasSuffix_app. Qed.

Lemma wrapper_payload (x : string) : payload ("BinData(0, '" +:+ x +:+ "')") = x.
Proof. unfold payload. rewrite TrimPrefix_app. apply TrimSuffix_app. Qed.

(** Decoding what [GetBsonIdFromUUId] made of sixteen bytes. *)
Lemma GetStringUUidFromBsonId_wrapper (bs : list ascii) :
  List.length bs = 16%nat ->
  GetStringUUidFromBsonId ("BinData(0, '" +:+ base64.EncodeToString bs +:+ "')") =
  (fmt.Sbx (fmt.slice 0 4 bs) +:+ "-" +:+ fmt.Sbx (fmt.slice 4 6 bs) +:+ "-" +:+
   fmt.Sbx (fmt.slice 6 8 bs) +:+ "-" +:+ fmt.Sbx (fmt.slice 8 10 bs) +:+ "-" +:+
   fmt.Sbx (fmt.slice 10 16 bs), None).
Proof.
  intros Hlen. unfold GetStringUUidFromBsonId.
  rewrite wrapper_HasPrefix, wrapper_HasSuffix. cbn [negb orb].
  fold (payload ("BinData(0, '" +:+ base64.EncodeToString bs +:+ "')")).
  rewrite wrapper_payload, base64_roundtrip, Hlen. cbn [Nat.eqb negb].
  do 16 (destruct bs as [|? bs]; [discriminate Hlen|]).
  destruct bs; [|discriminate Hlen].
  reflexivity.
Qed.

Lemma uuid_roundtrip_lower (u : string) :
  validUUID u = true ->
  GetStringUUidFromBsonId (GetBsonIdFromUUId u) = (lowerASCII u, None).
Proof.
  intros (a & b & c & d & e & -> & [Ha La] & [Hb Lb] & [Hc Lc] & [Hd Ld] & [He Le])
    %validUUID_groups.
  assert (Hev : forall s n, String.length s = n -> Nat.even n = true ->
                            Nat.even (String.length s) = true) by (intros; subst; assumption).
  destruct (hex_Decode_ok a Ha (Hev _ _ La eq_refl)) as [ba Da].
  destruct (hex_Decode_ok b Hb (Hev _ _ Lb eq_refl)) as [bb Db].
  destruct (hex_Decode_ok c Hc (Hev _ _ Lc eq_refl)) as [bc Dc].
  destruct (hex_Decode_ok d Hd (Hev _ _ Ld eq_refl)) as [bd Dd].
  destruct (hex_Decode_ok e He (Hev _ _ Le eq_refl)) as [be De].
  pose proof (hex_Decode_spec a) as Sa. rewrite Da in Sa. destruct Sa as (_ & Na & Fa).
  pose proof (hex_Decode_spec b) as Sb. rewrite Db in Sb. destruct Sb as (_ & Nb & Fb).
  pose proof (hex_Decode_spec c) as Sc. rewrite Dc in Sc. destruct Sc as (_ & Nc & Fc).
  pose proof (hex_Decode_spec d) as Sd. rewrite Dd in Sd. destruct Sd as (_ & Nd & Fd).
  pose proof (hex_Decode_spec e) as Se. rewrite De in Se. destruct Se as (_ & Ne & Fe).
  assert (Hdec : hex.DecodeString
            (strings.ReplaceAll (a +:+ "-" +:+ b +:+ "-" +:+ c +:+ "-" +:+ d +:+ "-" +:+ e)
               "-" "") = inl (ba ++ bb ++ bc ++ bd ++ be)).
  { rewrite !ReplaceAll_hyphen_app.
    rewrite (ReplaceAll_hexString a Ha), (ReplaceAll_hexString b Hb),
      (ReplaceAll_hexString c Hc), (ReplaceAll_hexString d Hd), (ReplaceAll_hexString e He).
    change (strings.ReplaceAll "-" "-" "") with "". rewrite !append_nil.
    unfold hex.DecodeString.
    rewrite (hex_Decode_app a _ ba Da), (hex_Decode_app b _ bb Db),
      (hex_Decode_app c _ bc Dc), (hex_Decode_app d _ bd Dd), De.
    reflexivity. }
  unfold GetBsonIdFromUUId. rewrite Hdec.
  rewrite GetStringUUidFromBsonId_wrapper
    by (rewrite !length_app; lia).
  rewrite La in Na. rewrite Lb in Nb. rewrite Lc in Nc. rewrite Ld in Nd. rewrite Le in Ne.
  do 4 (destruct ba as [|? ba]; [simpl in Na; lia|]). destruct ba; [|simpl in Na; lia].
  do 2 (destruct bb as [|? bb]; [simpl in Nb; lia|]). destruct bb; [|simpl in Nb; lia].
  do 2 (destruct bc as [|? bc]; [simpl in Nc; lia|]). destruct bc; [|simpl in Nc; lia].
  do 2 (destruct bd as [|? bd]; [simpl in Nd; lia|]). destruct bd; [|simpl in Nd; lia].
  do 6 (destruct be as [|? be]; [simpl in Ne; lia|]). destruct be; [|simpl in Ne; lia].
  cbn [app fmt.slice Nat.sub skipn firstn].
  rewrite Fa, Fb, Fc, Fd, Fe, !lowerASCII_app. reflexivity.
Qed.

(** C2 (as amended): for every valid 36-character hyphenated UUID string
    [u], decoding the encoding of [u] gives the lower-case form of [u] and no
    error; so it gives [u] itself exactly when [u] has no upper-case digit. *)
Theorem uuid_roundtrip (u : string) :
  validUUID u = true ->
  GetStringUUidFromBsonId (GetBsonIdFromUUId u) = (lowerASCII u, None)
  /\ (GetStringUUidFromBsonId (GetBsonIdFromUUId u) = (u, None) <-> lowerASCII u = u).
Proof.
  intros Hv. rewrite (uuid_roundtrip_lower u Hv). split; [reflexivity|].
  split; [intros H; now injection H | intros ->; reflexivity].
Qed.

Lemma uuid_roundtrip_witness :
  validUUID "550e8400-e29b-41d4-a716-446655440000" = true
  /\ GetStringUUidFromBsonId (GetBsonIdFromUUId "550e8400-e29b-41d4-a716-446655440000")
     = ("550e8400-e29b-41d4-a716-446655440000", None).
Proof.
  split; [reflexivity|].
  apply (proj2 (uuid_roundtrip "550e8400-e29b-41d4-a716-446655440000" eq_refl)).
  reflexivity.
Defined.

(** C2 as stated fails on a valid UUID string written with upper-case
    digits: the round trip returns its lower-case form. *)
Lemma uuid_roundtrip_counterexample :
  validUUID "550E8400-E29B-41D4-A716-446655440000" = true
  /\ GetStringUUidFromBsonId (GetBsonIdFromUUId "550E8400-E29B-41D4-A716-446655440000")
     = ("550e8400-e29b-41d4-a716-446655440000", None)
  /\ GetStringUUidFromBsonId (GetBsonIdFromUUId "550E8400-E29B-41D4-A716-446655440000")
     <> ("550E8400-E29B-41D4-A716-446655440000", None).
Proof.
  split; [reflexivity|]. split; [vm_compute; reflexivity|].
  vm_compute. discriminate.
Qed.

Lemma length_uuid_format (bs : list ascii) :
  List.length bs = 16%nat ->
  String.length
    (fmt.x0 8 (fmt.slice 0 4 bs) +:+ "-" +:+ fmt.x0 4 (fmt.slice 4 6 bs) +:+ "-" +:+
     fmt.x0 4 (fmt.slice 6 8 bs) +:+ "-" +:+ fmt.x0 4 (fmt.slice 8 10 bs) +:+ "-" +:+
     fmt.x0 12 (fmt.slice 10 16 bs)) = 36%nat.
Proof.
  intros Hlen.
  do 16 (destruct bs as [|? bs]; [discriminate Hlen|]).
  destruct bs; [|discriminate Hlen].
  reflexivity.
Qed.

(** C7: [GetStringUUidFromBsonId] returns an error exactly when its argument
    lacks the prefix or the suffix of the wrapper, or the payload is not
    Base64, or the payload decodes to other than 16 bytes; with an error the
    UUID string is empty, without one it has 36 characters. *)
Theorem GetStringUUidFromBsonId_error (binData : string) :
  (snd (GetStringUUidFromBsonId binData) <> None <->
     strings.HasPrefix binData "BinData(0, '" = false
     \/ strings.HasSuffix binData "')" = false
     \/ (exists e, base64.DecodeString (payload binData) = inr e)
     \/ (exists bs, base64.DecodeString (payload binData) = inl bs
                    /\ List.length bs <> 16%nat))
  /\ (snd (GetStringUUidFromBsonId binData) <> None ->
        fst (GetStringUUidFromBsonId binData) = "")
  /\ (snd (GetStringUUidFromBsonId binData) = None ->
        String.length (fst (GetStringUUidFromBsonId binData)) = 36%nat).
Proof.
  unfold GetStringUUidFromBsonId. fold (payload binData).
  destruct (strings.HasPrefix binData "BinData(0, '") eqn:Hp; cbn [negb orb].
  2:{ cbn [fst snd]. repeat split; auto; discriminate. }
  destruct (strings.HasSuffix binData "')") eqn:Hs; cbn [negb orb].
  2:{ cbn [fst snd]. repeat split; auto; discriminate. }
  destruct (base64.DecodeString (payload binData)) as [bs|e] eqn:Hd.
  2:{ cbn [fst snd]. repeat split; eauto; discriminate. }
  destruct (List.length bs =? 16)%nat eqn:Hl; cbn [negb fst snd].
  - apply Nat.eqb_eq in Hl. repeat split.
    + intros H; now contradiction H.
    + intros [H|[H|[[e H]|(bs' & H & Hn)]]]; try discriminate H.
      injection H as <-. contradiction.
    + intros H; now contradiction H.
    + intros _. now apply length_uuid_format.
  - apply Nat.eqb_neq in Hl. repeat split.
    + intros _. right; right; right. now exists bs.
    + discriminate.
    + discriminate.
Qed.

Lemma GetStringUUidFromBsonId_error_witness :
  fst (GetStringUUidFromBsonId "BinData(0, 'AAAA')") = ""
  /\ String.length (fst (GetStringUUidFromBsonId "BinData(0, 'VQ6EAOKbQdSnFkRmVUQAAA==')"))
     = 36%nat.
Proof.
  split.
  - apply (proj1 (proj2 (GetStringUUidFromBsonId_error "BinData(0, 'AAAA')"))).
    vm_compute. discriminate.
  - apply (proj2 (proj2 (GetStringUUidFromBsonId_error
                           "BinData(0, 'VQ6EAOKbQdSnFkRmVUQAAA==')"))).
    vm_compute. reflexivity.
Defined.

(** C10: [GetBsonIdFromUUId] answers the empty string, its only result, when
    the argument without its hyphens is not a hexadecimal string of even
    length; every hexadecimal string of even length, whatever its length, is
    encoded. *)
Theorem GetBsonIdFromUUId_cases (uuidStr : string) :
  let s := strings.ReplaceAll uuidStr "-" "" in
  if hexString s && Nat.even (String.length s)
  then exists bs : list ascii,
         String.length s = (2 * List.length bs)%nat
         /\ fmt.Sbx bs = lowerASCII s
         /\ GetBsonIdFromUUId uuidStr
            = "BinData(0, '" +:+ base64.EncodeToString bs +:+ "')"
  else GetBsonIdFromUUId uuidStr = "".
Proof.
  intros s. unfold GetBsonIdFromUUId, hex.DecodeString. fold s.
  pose proof (hex_Decode_spec s) as H.
  destruct (hex.Decode s) as [bs|e].
  - destruct H as (Hh & Hl & Hf). rewrite Hh, Hl.
    replace (Nat.even (2 * List.length bs)) with true
      by (symmetry; apply Nat.even_spec; now exists (List.length bs)).
    exists bs. repeat split; assumption.
  - rewrite H. reflexivity.
Qed.

Example GetBsonIdFromUUId_short : GetBsonIdFromUUId "ab" = "BinData(0, 'qw==')".
Proof. vm_compute. reflexivity. Qed.

Example GetBsonIdFromUUId_empty : GetBsonIdFromUUId "" = "BinData(0, '')".
Proof. vm_compute. reflexivity. Qed.

Example GetBsonIdFromUUId_odd : GetBsonIdFromUUId "abc" = "".
Proof. vm_compute. reflexivity. Qed.

Example GetBsonIdFromUUId_nonhex :
  GetBsonIdFromUUId "zz0e8400-e29b-41d4-a716-446655440000" = "".
Proof. vm_compute. reflexivity. Qed.

(* ===================================================================== *)
(** * Assertion mode *)
(* ===================================================================== *)

(** A member of the type of its field decodes without error. *)
Lemma decodeField_typed (r : Resp) (m : string * json.value) :
  typedMember m = true -> snd (decodeField (r, None) m) = None.
Proof.
  destruct m as [key v]. unfold typedMember, decodeField. cbn [fst snd].
  destruct (fieldOfKey key) as [[]|]; intros H.
  - destruct v as [| |[z|]| | |]; try discriminate H; [reflexivity|].
    unfold isInt in H. unfold json.fitsInt. now rewrite H.
  - destruct v as [| |[z|]| | |]; try discriminate H; [reflexivity|].
    unfold isInt in H. unfold json.fitsInt. now rewrite H.
  - destruct v; try discriminate H; reflexivity.
  - cbn [snd]. now rewrite H.
  - cbn [snd]. now rewrite H.
  - reflexivity.
Qed.

(** The code after one member: the one the member gives, or the one
    before. *)
Lemma decodeField_Code (r : Resp) (err : option error) (m : string * json.value) :
  Code (fst (decodeField (r, err) m))
  = match givesCode m with Some z => z | None => Code r end.
Proof.
  destruct m as [key v]. unfold givesCode, decodeField. cbn [fst snd].
  destruct (fieldOfKey key) as [[]|]; try reflexivity.
  - destruct v as [| |n| | |]; try reflexivity.
    destruct (json.fitsInt n); reflexivity.
  - destruct v as [| |n| | |]; try reflexivity.
    destruct (json.fitsInt n); reflexivity.
  - destruct v; reflexivity.
Qed.

Lemma decodeFields_typed (members : list (string * json.value)) (r : Resp) :
  forallb typedMember members = true ->
  snd (fold_left decodeField members (r, None)) = None.
Proof.
  revert r. induction members as [|m members IH]; intros r H; [reflexivity|].
  cbn [forallb] in H. apply andb_prop in H as [Hm Hrest].
  cbn [fold_left]. pose proof (decodeField_typed r m Hm) as E.
  destruct (decodeField (r, None) m) as [r1 e1]. cbn [snd] in E. subst e1.
  now apply IH.
Qed.

Lemma decodeFields_Code (members : list (string * json.value)) (r : Resp)
  (err : option error) :
  Code (fst (fold_left decodeField members (r, err))) = decodedCode members (Code r).
Proof.
  unfold decodedCode. revert r err.
  induction members as [|m members IH]; intros r err; [reflexivity|].
  cbn [fold_left]. pose proof (decodeField_Code r err m) as E.
  destruct (decodeField (r, err) m) as [r1 e1]. cbn [fst] in E.
  now rewrite IH, E.
Qed.

Lemma decodedCode_none (members : list (string * json.value)) (c : Z) :
  Forall (fun m => givesCode m = None) members -> decodedCode members c = c.
Proof.
  unfold decodedCode. induction 1 as [|m members Hm _ IH]; [reflexivity|].
  cbn [fold_left]. now rewrite Hm.
Qed.

(** The body [{"response": {...}}] with members of the types of their
    fields decodes without error into a map whose "response" entry has the
    code that the members leave. *)
Lemma Unmarshal_response (members : list (string * json.value)) :
  forallb typedMember members = true ->
  exists r,
    Unmarshal (Some (json.JObject [("response", json.JObject members)]))
    = (<["response" := r]> ∅, None)
    /\ Code r = decodedCode members 0.
Proof.
  intros H. unfold Unmarshal. cbn [fold_left decodeEntry decodeResp].
  pose proof (decodeFields_typed members zeroResp H) as E.
  pose proof (decodeFields_Code members zeroResp None) as C.
  destruct (fold_left decodeField members (zeroResp, None)) as [r e].
  cbn [fst snd] in E, C. subst e. exists r. split; [reflexivity | exact C].
Qed.

(** The verdict when the handler has run. *)
Lemma RunSingle_recorded (host : Host) (cfg : Config) (tc : APITestCase)
  (lines : list printed) (body : ResponseBody) :
  ExecuteHandler host tc = (lines, Recorded body) ->
  result (RunSingle host cfg tc)
  = match Unmarshal body with
    | (_, Some e) => Failed (NoErrorFailed e "Could not unmarshal JSON response")
    | (outer, None) =>
        match outer !! "response" with
        | None => Failed (TrueFailed "Missing 'response' key in JSON")
        | Some resp =>
            if (ExpectedCode tc =? Code resp)%Z then Passed
            else Failed (EqualFailed (ExpectedCode tc) (Code resp))
        end
    end.
Proof.
  intros HE. unfold RunSingle. rewrite HE.
  destruct (Unmarshal body) as [outer [e|]]; [reflexivity|].
  destruct (outer !! "response") as [resp|]; [|reflexivity].
  destruct (ExpectedCode tc =? Code resp)%Z; reflexivity.
Qed.




(** With [LogResponse] set, the raw body is logged before the assertions,
    whatever the verdict. *)
Lemma RunSingle_logs (host : Host) (cfg : Config) (tc : APITestCase)
  (lines : list printed) (body : ResponseBody) :
  ExecuteHandler host tc = (lines, Recorded body) ->
  logged (RunSingle host cfg tc)
  = if LogResponse cfg then [RawResponseBody body] else [].
Proof.
  intros HE. unfold RunSingle. rewrite HE.
  destruct (Unmarshal body) as [outer [e|]]; [reflexivity|].
  destruct (outer !! "response") as [resp|]; [|reflexivity].
  destruct (ExpectedCode tc =? Code resp)%Z; reflexivity.
Qed.

(** [RunAPITest] stops at the first case that does not pass: the cases that
    ran are the cases that passed and the first that did not. *)
Lemma RunAPITest_stops (host : Host) (cfg : Config) (pre post : list APITestCase)
  (tc : APITestCase) :
  Forall (fun t => result (RunSingle host cfg t) = Passed) pre ->
  result (RunSingle host cfg tc) <> Passed ->
  RunAPITest host cfg (pre ++ tc :: post)
  = map (fun t => (Name t, RunSingle host cfg t)) (pre ++ [tc]).
Proof.
  intros Hpre Htc. induction Hpre as [|t pre Ht _ IH].
  - cbn [app RunAPITest map]. destruct (result (RunSingle host cfg tc));
      [now contradiction Htc | reflexivity | reflexivity].
  - cbn [app RunAPITest map]. rewrite Ht. now rewrite IH.
Qed.

(* ===================================================================== *)
(** * The output directory *)
(* ===================================================================== *)

Section Directories.

Variable host : Host.

(** A path is looked up through the directories above it only. *)
Lemma statRev_insert_longer (f : gmap (list string) node) (k : list string)
  (n : node) (rp : list string) :
  (List.length rp < List.length k)%nat ->
  os.statRev (<[k := n]> f) rp = os.statRev f rp.
Proof.
  induction rp as [|c parent IH]; intros Hlen; [reflexivity|].
  cbn [os.statRev]. cbn [List.length] in Hlen.
  rewrite IH by lia.
  rewrite lookup_insert_ne; [reflexivity|].
  intros ->. rewrite length_rev in Hlen. cbn [List.length] in Hlen. lia.
Qed.

(** A failed [Mkdir] changes nothing, and fails for every mode. *)
Lemma mkdirRev_error (rp : list string) (perm : N) (w w' : World) (e : error) :
  os.mkdirRev host rp perm w = (w', Some e) ->
  w' = w /\ forall perm', os.mkdirRev host rp perm' w = (w, Some e).
Proof.
  unfold os.mkdirRev. destruct rp as [|c parent].
  - intros [= <- <-]. split; [reflexivity | intros; reflexivity].
  - destruct (os.statRev (fs w) parent) as [[m|m d]|en].
    + destruct (fs w !! rev (c :: parent)).
      * intros [= <- <-]. split; [reflexivity | intros; reflexivity].
      * destruct (mkdirDenied host (rev (c :: parent))).
        -- intros [= <- <-]. split; [reflexivity | intros; reflexivity].
        -- discriminate.
    + intros [= <- <-]. split; [reflexivity | intros; reflexivity].
    + intros [= <- <-]. split; [reflexivity | intros; reflexivity].
Qed.

(** After a successful [Mkdir] the path is a directory. *)
Lemma mkdirRev_ok (rp : list string) (perm : N) (w w' : World) :
  os.mkdirRev host rp perm w = (w', None) ->
  os.statRev (fs w') rp = inl (Dir (N.ldiff perm (umask host))).
Proof.
  unfold os.mkdirRev. destruct rp as [|c parent]; [discriminate|].
  destruct (os.statRev (fs w) parent) as [[m|m d]|en] eqn:Hp; try discriminate.
  destruct (fs w !! rev (c :: parent)); [discriminate|].
  destruct (mkdirDenied host (rev (c :: parent))); [discriminate|].
  intros [= <-]. cbn [os.statRev fs emit setFs].
  change (rev parent ++ [c]) with (rev (c :: parent)).
  rewrite statRev_insert_longer, Hp
    by (rewrite length_rev; cbn [List.length]; lia).
  now rewrite lookup_insert_eq.
Qed.

(** [MkdirAll] succeeds only with the directory in place. *)
Lemma mkdirAllRev_ok (rp : list string) (perm : N) (w w' : World) :
  os.mkdirAllRev host rp perm w = (w', None) ->
  exists m, os.statRev (fs w') rp = inl (Dir m).
Proof.
  revert w w'. induction rp as [|c parent IH]; intros w w'.
  - intros _. exists 493%N. reflexivity.
  - cbn [os.mkdirAllRev].
    destruct (os.statRev (fs w) (c :: parent)) as [[m|m d]|en] eqn:Hs.
    + intros [= <-]. now exists m.
    + discriminate.
    + destruct (os.mkdirAllRev host parent perm w) as [w1 [e1|]] eqn:Hrec;
        [discriminate|].
      destruct (os.mkdirRev host (c :: parent) perm w1) as [w2 [e2|]] eqn:Hmk.
      * destruct (os.statRev (fs w2) (c :: parent)) as [[m|m d]|en2] eqn:Hs2;
          try discriminate.
        intros [= <-]. now exists m.
      * intros [= <-]. eexists. eapply mkdirRev_ok. exact Hmk.
Qed.

(** When [MkdirAll] fails, the path is not a directory afterwards. *)
Lemma mkdirAllRev_error (rp : list string) (perm : N) (w w' : World) (e : error) :
  os.mkdirAllRev host rp perm w = (w', Some e) ->
  forall m, os.statRev (fs w') rp <> inl (Dir m).
Proof.
  revert w w' e. induction rp as [|c parent IH]; intros w w' e.
  - discriminate.
  - cbn [os.mkdirAllRev].
    destruct (os.statRev (fs w) (c :: parent)) as [[m|m d]|en] eqn:Hs.
    + discriminate.
    + intros [= <- <-] m'. rewrite Hs. discriminate.
    + destruct (os.mkdirAllRev host parent perm w) as [w1 [e1|]] eqn:Hrec.
      * intros [= <- <-] m'. cbn [os.statRev].
        specialize (IH _ _ _ Hrec).
        destruct (os.statRev (fs w1) parent) as [[mp|mp dp]|ep]; try discriminate.
        now contradiction (IH mp).
      * destruct (os.mkdirRev host (c :: parent) perm w1) as [w2 [e2|]] eqn:Hmk;
          [|discriminate].
        destruct (os.statRev (fs w2) (c :: parent)) as [[m|m d]|en2] eqn:Hs2.
        -- discriminate.
        -- intros [= <- <-] m'. rewrite Hs2. discriminate.
        -- intros [= <- <-] m'. rewrite Hs2. discriminate.
Qed.

(** A second [MkdirAll] of the same path, of whatever mode, changes
    nothing and ends as the first did. *)
Lemma mkdirAllRev_again (rp : list string) (perm perm' : N) (w w' : World)
  (err : option error) :
  os.mkdirAllRev host rp perm w = (w', err) ->
  exists err', os.mkdirAllRev host rp perm' w' = (w', err')
               /\ (err = None <-> err' = None).
Proof.
  revert w w' err. induction rp as [|c parent IH]; intros w w' err H.
  - cbn in H. injection H as <- <-. exists None. split; [reflexivity | tauto].
  - destruct err as [e|].
    2:{ destruct (mkdirAllRev_ok _ _ _ _ H) as [m Hm]. exists None.
        cbn [os.mkdirAllRev]. rewrite Hm. split; [reflexivity | tauto]. }
    pose proof (mkdirAllRev_error _ _ _ _ _ H) as Hnd.
    cbn [os.mkdirAllRev] in H |- *.
    destruct (os.statRev (fs w') (c :: parent)) as [[m|m d]|en'] eqn:Hs'.
    + now contradiction (Hnd m).
    + eexists. split; [reflexivity|]. split; discriminate.
    + destruct (os.statRev (fs w) (c :: parent)) as [[m|m d]|en] eqn:Hs.
      * discriminate.
      * injection H as <- <-. rewrite Hs in Hs'. discriminate.
      * destruct (os.mkdirAllRev host parent perm w) as [w1 [e1|]] eqn:Hrec.
        -- injection H as <- <-.
           destruct (IH _ _ _ Hrec) as (err1' & -> & Hiff).
           destruct err1' as [e1'|]; [|now destruct Hiff as [_ Hiff]; discriminate Hiff].
           eexists. split; [reflexivity|]. split; discriminate.
        -- destruct (os.mkdirRev host (c :: parent) perm w1) as [w2 [e2|]] eqn:Hmk;
             [|discriminate].
           destruct (mkdirRev_error _ _ _ _ _ Hmk) as [-> Hany].
           assert (w' = w1 /\ e = e2) as [-> ->].
           { destruct (os.statRev (fs w1) (c :: parent)) as [[m|m d]|en2];
               try discriminate; injection H as <- <-; split; reflexivity. }
           destruct (mkdirAllRev_ok _ _ _ _ Hrec) as [mp Hmp].
           assert (Hp : os.mkdirAllRev host parent perm' w1 = (w1, None)).
           { destruct parent; cbn [os.mkdirAllRev]; [reflexivity|]. now rewrite Hmp. }
           rewrite Hp, (Hany perm'), Hs'.
           eexists. split; [reflexivity|]. split; discriminate.
Qed.

Lemma MkdirAll_again (p : path) (perm perm' : N) (w : World) :
  fst (os.MkdirAll host p perm' (fst (os.MkdirAll host p perm w)))
  = fst (os.MkdirAll host p perm w).
Proof.
  unfold os.MkdirAll.
  destruct (os.mkdirAllRev host (rev p) perm w) as [w' err] eqn:H.
  cbn [fst].
  destruct (mkdirAllRev_again _ _ perm' _ _ _ H) as (err' & -> & _). reflexivity.
Qed.

(** [MkdirAll] of a directory that exists: nothing happens, no error. *)
Lemma MkdirAll_exists (p : path) (perm m : N) (w : World) :
  os.Stat (fs w) p = inl (Dir m) -> os.MkdirAll host p perm w = (w, None).
Proof.
  unfold os.Stat, os.MkdirAll. intros H.
  destruct (rev p); cbn [os.mkdirAllRev]; [reflexivity|]. now rewrite H.
Qed.

(** [Mkdir] and [MkdirAll] of a path leave the longer paths alone. *)
Lemma mkdirRev_fs_longer (rp : list string) (perm : N) (w : World) (q : list string) :
  (List.length rp < List.length q)%nat ->
  fs (fst (os.mkdirRev host rp perm w)) !! q = fs w !! q.
Proof.
  intros Hlen. unfold os.mkdirRev. destruct rp as [|c parent]; [reflexivity|].
  destruct (os.statRev (fs w) parent) as [[m|m d]|en]; try reflexivity.
  destruct (fs w !! rev (c :: parent)); [reflexivity|].
  destruct (mkdirDenied host (rev (c :: parent))); [reflexivity|].
  cbn [fst emit setFs fs]. apply lookup_insert_ne.
  intros E. rewrite <- E, length_rev in Hlen. lia.
Qed.

Lemma mkdirAllRev_fs_longer (rp : list string) (perm : N) (w : World) (q : list string) :
  (List.length rp < List.length q)%nat ->
  fs (fst (os.mkdirAllRev host rp perm w)) !! q = fs w !! q.
Proof.
  revert w. induction rp as [|c parent IH]; intros w Hlen; [reflexivity|].
  cbn [os.mkdirAllRev].
  destruct (os.statRev (fs w) (c :: parent)) as [[m|m d]|en]; try reflexivity.
  specialize (IH w ltac:(cbn [List.length] in Hlen; lia)).
  destruct (os.mkdirAllRev host parent perm w) as [w1 [e1|]]; [exact IH|].
  cbn [fst] in IH.
  pose proof (mkdirRev_fs_longer (c :: parent) perm w1 q Hlen) as H2.
  destruct (os.mkdirRev host (c :: parent) perm w1) as [w2 [e2|]]; cbn [fst] in *.
  - destruct (os.statRev (fs w2) (c :: parent)) as [[m|m d]|en2]; cbn [fst]; congruence.
  - congruence.
Qed.

(** [MkdirAll] succeeds when no [mkdir] is refused and no file stands where
    a directory of the path has to be. *)
Lemma mkdirAllRev_succeeds (rp : list string) (perm : N) (w : World) :
  (forall q, mkdirDenied host q = false) ->
  (forall pre k, rp = pre ++ k -> forall m d, fs w !! rev k <> Some (File m d)) ->
  snd (os.mkdirAllRev host rp perm w) = None.
Proof.
  intros Hallow. revert w. induction rp as [|c parent IH]; intros w Hfree; [reflexivity|].
  cbn [os.mkdirAllRev].
  destruct (os.statRev (fs w) (c :: parent)) as [[m|m d]|en] eqn:Hs; [reflexivity| |].
  - exfalso. cbn [os.statRev] in Hs.
    destruct (os.statRev (fs w) parent) as [[mp|mp dp]|ep]; try discriminate Hs.
    destruct (fs w !! rev (c :: parent)) as [n|] eqn:Hl; [|discriminate Hs].
    injection Hs as ->. exact (Hfree [] (c :: parent) eq_refl m d Hl).
  - assert (Hfree' : forall pre k, parent = pre ++ k ->
                       forall m d, fs w !! rev k <> Some (File m d)).
    { intros pre k -> m d. exact (Hfree (c :: pre) k eq_refl m d). }
    specialize (IH w Hfree').
    pose proof (mkdirAllRev_fs_longer parent perm w (rev (c :: parent))
                  ltac:(rewrite length_rev; cbn [List.length]; lia)) as Hfs.
    destruct (os.mkdirAllRev host parent perm w) as [w1 [e1|]] eqn:Hrec;
      [discriminate IH|]. cbn [fst] in Hfs.
    destruct (mkdirAllRev_ok _ _ _ _ Hrec) as [mp Hmp].
    unfold os.mkdirRev. rewrite Hmp.
    destruct (fs w1 !! rev (c :: parent)) as [n|] eqn:Hl.
    + cbn [os.statRev]. rewrite Hmp, Hl. destruct n as [m|m d]; [reflexivity|].
      exfalso. apply (Hfree [] (c :: parent) eq_refl m d). congruence.
    + rewrite Hallow. reflexivity.
Qed.

End Directories.

(** C9: the preparation of the output directory is idempotent.  A second
    preparation of the same path leaves the world as the first left it;
    and when the first left a directory at the path, the second
    [MakeDirIfNotExists] does nothing, the second [os.MkdirAll] reports no
    error, and the directory is there with the permissions it had.  The
    first preparation does leave a directory at the path when no [mkdir] is
    refused and no file stands where the path goes. *)
Theorem prepareDir_idempotent (host : Host) (p : path) (w : World) :
  let w1 := prepareDir host p w in
  prepareDir host p w1 = w1
  /\ (forall m : N,
        os.Stat (fs w1) p = inl (Dir m) ->
        MakeDirIfNotExists host p w1 = w1
        /\ os.MkdirAll host p os.ModePerm w1 = (w1, None)
        /\ os.Stat (fs (prepareDir host p w1)) p = inl (Dir m))
  /\ ((forall q, mkdirDenied host q = false) ->
      (forall q t, p = q ++ t -> forall m d, fs w !! q <> Some (File m d)) ->
      exists m, os.Stat (fs w1) p = inl (Dir m)).
Proof.
  intros w1.
  assert (Hmk : MakeDirIfNotExists host p w1 = w1).
  { unfold MakeDirIfNotExists.
    destruct (os.IsNotExist (os.Stat (fs w1) p)); [|reflexivity].
    subst w1. unfold prepareDir. apply MkdirAll_again. }
  assert (Hidem : prepareDir host p w1 = w1).
  { unfold prepareDir at 1. rewrite Hmk. subst w1. unfold prepareDir.
    apply MkdirAll_again. }
  split; [exact Hidem|]. split.
  - intros m Hm. split; [exact Hmk|]. split.
    + now apply (MkdirAll_exists host p os.ModePerm m).
    + rewrite Hidem. exact Hm.
  - intros Hallow Hfree.
    assert (Hfree' : forall pre k, rev p = pre ++ k ->
                       forall m d, fs w !! rev k <> Some (File m d)).
    { intros pre k E m d. apply (Hfree (rev k) (rev pre)).
      rewrite <- rev_app_distr, <- E. symmetry. apply rev_involutive. }
    assert (Hall : forall perm, exists w' m,
               os.mkdirAllRev host (rev p) perm w = (w', None)
               /\ os.statRev (fs w') (rev p) = inl (Dir m)).
    { intros perm.
      pose proof (mkdirAllRev_succeeds host (rev p) perm w Hallow Hfree') as Hok.
      destruct (os.mkdirAllRev host (rev p) perm w) as [w' err] eqn:Hrun.
      cbn [snd] in Hok. subst err.
      destruct (mkdirAllRev_ok host _ _ _ _ Hrun) as [m Hm]. now exists w', m. }
    subst w1. unfold prepareDir, MakeDirIfNotExists.
    destruct (os.IsNotExist (os.Stat (fs w) p)).
    + destruct (Hall 493%N) as (w' & m & Hrun & Hm).
      unfold os.MkdirAll at 2. rewrite Hrun. cbn [fst].
      rewrite (MkdirAll_exists host p os.ModePerm m w' Hm). now exists m.
    + destruct (Hall os.ModePerm) as (w' & m & Hrun & Hm).
      unfold os.MkdirAll. rewrite Hrun. now exists m.
Qed.

Lemma prepareDir_idempotent_witness :
  (exists m, os.Stat (fs (prepareDir goodHost
                            ["profiles"; "handlers.Example"; "Example_Test_Case"]
                            emptyWorld))
               ["profiles"; "handlers.Example"; "Example_Test_Case"] = inl (Dir m))
  /\ os.Stat (fs (prepareDir goodHost ["profiles"; "handlers.Example"; "Example_Test_Case"]
                    (prepareDir goodHost
                       ["profiles"; "handlers.Example"; "Example_Test_Case"] emptyWorld)))
             ["profiles"; "handlers.Example"; "Example_Test_Case"] = inl (Dir 493).
Proof.
  assert (H : os.Stat (fs (prepareDir goodHost
                             ["profiles"; "handlers.Example"; "Example_Test_Case"]
                             emptyWorld))
                ["profiles"; "handlers.Example"; "Example_Test_Case"] = inl (Dir 493))
    by (vm_compute; reflexivity).
  split.
  - apply (proj2 (proj2 (prepareDir_idempotent goodHost
             ["profiles"; "handlers.Example"; "Example_Test_Case"] emptyWorld))).
    + reflexivity.
    + intros q t _ m d. cbn [fs emptyWorld]. rewrite lookup_empty. discriminate.
  - exact (proj2 (proj2 (proj1 (proj2 (prepareDir_idempotent goodHost
             ["profiles"; "handlers.Example"; "Example_Test_Case"] emptyWorld))
             493%N H))).
Defined.

(* ===================================================================== *)
(** * Traces *)
(* ===================================================================== *)

Lemma emitsOnly_refl (P : event -> Prop) (w : World) : emitsOnly P w w.
Proof. exists []. split; [now rewrite app_nil_r | constructor]. Qed.

Lemma emitsOnly_trans (P : event -> Prop) (w1 w2 w3 : World) :
  emitsOnly P w1 w2 -> emitsOnly P w2 w3 -> emitsOnly P w1 w3.
Proof.
  intros (e1 & T1 & F1) (e2 & T2 & F2). exists (e1 ++ e2). split.
  - now rewrite T2, T1, app_assoc.
  - apply Forall_app. now split.
Qed.

Lemma emitsOnly_emit (P : event -> Prop) (e : event) (w : World) :
  P e -> emitsOnly P w (emit e w).
Proof. intros H. exists [e]. split; [reflexivity | now repeat constructor]. Qed.

Lemma emitsOnly_weaken (P Q : event -> Prop) (w w' : World) :
  (forall e, P e -> Q e) -> emitsOnly P w w' -> emitsOnly Q w w'.
Proof.
  intros HPQ (evs & T & F). exists evs. split; [exact T|].
  eapply Forall_impl; eassumption.
Qed.

Lemma sameSession_refl (w : World) : sameSession w w.
Proof. repeat split. Qed.

Lemma sameSession_trans (w1 w2 w3 : World) :
  sameSession w1 w2 -> sameSession w2 w3 -> sameSession w1 w3.
Proof. unfold sameSession. intros (?&?&?) (?&?&?). repeat split; congruence. Qed.

Lemma sameSession_emit (e : event) (w : World) : sameSession w (emit e w).
Proof. repeat split. Qed.

Section DirectoryEvents.

Variable host : Host.

Lemma mkdirRev_frame (rp : list string) (perm : N) (w : World) :
  sameSession w (fst (os.mkdirRev host rp perm w))
  /\ emitsOnly isMkdir w (fst (os.mkdirRev host rp perm w)).
Proof.
  unfold os.mkdirRev.
  destruct rp as [|c parent]; [split; [apply sameSession_refl | apply emitsOnly_refl]|].
  destruct (os.statRev (fs w) parent) as [[m|m d]|en];
    try (split; [apply sameSession_refl | apply emitsOnly_refl]).
  destruct (fs w !! rev (c :: parent));
    [split; [apply sameSession_refl | apply emitsOnly_refl]|].
  destruct (mkdirDenied host (rev (c :: parent)));
    [split; [apply sameSession_refl | apply emitsOnly_refl]|].
  cbn [fst]. split; [repeat split|].
  eexists [_]. split; [reflexivity|]. repeat constructor.
Qed.

Lemma mkdirAllRev_frame (rp : list string) (perm : N) (w : World) :
  sameSession w (fst (os.mkdirAllRev host rp perm w))
  /\ emitsOnly isMkdir w (fst (os.mkdirAllRev host rp perm w)).
Proof.
  revert w. induction rp as [|c parent IH]; intros w.
  - split; [apply sameSession_refl | apply emitsOnly_refl].
  - cbn [os.mkdirAllRev].
    destruct (os.statRev (fs w) (c :: parent)) as [[m|m d]|en];
      try (split; [apply sameSession_refl | apply emitsOnly_refl]).
    specialize (IH w).
    destruct (os.mkdirAllRev host parent perm w) as [w1 [e1|]]; [exact IH|].
    cbn [fst] in IH. destruct IH as [S1 E1].
    pose proof (mkdirRev_frame (c :: parent) perm w1) as [S2 E2].
    destruct (os.mkdirRev host (c :: parent) perm w1) as [w2 [e2|]]; cbn [fst] in *.
    + destruct (os.statRev (fs w2) (c :: parent)) as [[m|m d]|en2]; cbn [fst];
        (split; [eapply sameSession_trans | eapply emitsOnly_trans]; eassumption).
    + split; [eapply sameSession_trans | eapply emitsOnly_trans]; eassumption.
Qed.

Lemma prepareDir_frame (p : path) (w : World) :
  sameSession w (prepareDir host p w) /\ emitsOnly isMkdir w (prepareDir host p w).
Proof.
  unfold prepareDir, os.MkdirAll.
  assert (H0 : sameSession w (MakeDirIfNotExists host p w)
               /\ emitsOnly isMkdir w (MakeDirIfNotExists host p w)).
  { unfold MakeDirIfNotExists, os.MkdirAll.
    destruct (os.IsNotExist (os.Stat (fs w) p));
      [apply mkdirAllRev_frame | split; [apply sameSession_refl | apply emitsOnly_refl]]. }
  destruct H0 as [S0 E0].
  destruct (mkdirAllRev_frame (rev p) os.ModePerm (MakeDirIfNotExists host p w))
    as [S1 E1].
  split; [eapply sameSession_trans | eapply emitsOnly_trans]; eassumption.
Qed.

(** [GenerateGraph], the tool run having ended, returns; it calls the tool
    once and writes at most the output file. *)
Lemma GenerateGraph_spec (f : tmpfile) (out : path) (format : string) (w : World) :
  exists w',
    GenerateGraph host f out format w = (Normal tt, w')
    /\ sameSession w w'
    /\ emitsOnly (fun e => e = EvExec format f
                           \/ (exists d, e = EvWriteFile out d)
                           \/ (exists s a, e = EvLogPrintf s a)) w w'.
Proof.
  unfold GenerateGraph, bind, effect, log_Printf.
  destruct (pprofTool host format f) as [output|].
  - unfold os.WriteFile.
    set (w0 := emit (EvExec format f) w).
    assert (S0 : sameSession w w0) by apply sameSession_emit.
    assert (E0 : emitsOnly (fun e => e = EvExec format f
                           \/ (exists d, e = EvWriteFile out d)
                           \/ (exists s a, e = EvLogPrintf s a)) w w0)
      by (apply emitsOnly_emit; now left).
    assert (Hlog : forall s a w1, sameSession w w1 ->
               emitsOnly (fun e => e = EvExec format f
                           \/ (exists d, e = EvWriteFile out d)
                           \/ (exists s a, e = EvLogPrintf s a)) w w1 ->
               exists w', (Normal tt, emit (EvLogPrintf s a) w1) = (Normal tt, w')
                /\ sameSession w w'
                /\ emitsOnly (fun e => e = EvExec format f
                           \/ (exists d, e = EvWriteFile out d)
                           \/ (exists s a, e = EvLogPrintf s a)) w w').
    { intros s a w1 S1 E1. eexists. split; [reflexivity|]. split.
      - eapply sameSession_trans; [exact S1 | apply sameSession_emit].
      - eapply emitsOnly_trans; [exact E1|]. apply emitsOnly_emit. right; right; eauto. }
    destruct (rev out) as [|c parent]; [now apply Hlog|].
    destruct (os.statRev (fs w0) parent) as [[m|m d]|en]; try now apply Hlog.
    destruct (writeDenied host out); [now apply Hlog|].
    cbv zeta.
    destruct (fs w0 !! out) as [[m'|m' d']|]; [now apply Hlog| |];
      destruct (writeFails host out output) as [n|];
      (apply Hlog;
       [eapply sameSession_trans; [exact S0|]; repeat split
       |eapply emitsOnly_trans; [exact E0|];
        eexists [_]; split; [reflexivity|]; constructor; [|constructor];
        right; left; eauto]).
  - eexists. split; [reflexivity|]. split; [repeat split|].
    eexists [_; _]. split; [cbn; now rewrite <- app_assoc|].
    constructor; [now left|]. constructor; [|constructor]. right; right; eauto.
Qed.

End DirectoryEvents.

(* ===================================================================== *)
(** * Temporary files *)
(* ===================================================================== *)

Lemma created_app (a b : list event) : created (a ++ b) = created a ++ created b.
Proof.
  induction a as [|e a IH]; [reflexivity|].
  destruct e; cbn [app created]; rewrite IH; reflexivity.
Qed.

Lemma removed_app (a b : list event) : removed (a ++ b) = removed a ++ removed b.
Proof.
  induction a as [|e a IH]; [reflexivity|].
  destruct e; cbn [app removed]; rewrite IH; reflexivity.
Qed.

Lemma quiet_created (evs : list event) :
  Forall quiet evs -> created evs = [] /\ removed evs = [].
Proof.
  induction 1 as [|e evs He _ [IHc IHr]]; [split; reflexivity|].
  destruct e; cbn [created removed]; try contradiction; split; assumption.
Qed.

Lemma tidyRun_quiet (w w' : World) :
  sameSession w w' -> emitsOnly quiet w w' -> tidyRun w w'.
Proof.
  intros (Ht & Hc & _) (evs & T & F).
  destruct (quiet_created evs F) as [Cr Rm].
  exists evs. rewrite Cr, Rm, Hc. repeat split; try constructor; auto.
Qed.

Lemma tidyRun_refl (w : World) : tidyRun w w.
Proof. apply tidyRun_quiet; [apply sameSession_refl | apply emitsOnly_refl]. Qed.

Lemma tidyRun_fresh (w w' : World) : tidyRun w w' -> tempsFresh w -> tempsFresh w'.
Proof.
  intros (evs & _ & Hle & _ & _ & _ & Ht) Hf n Hn.
  rewrite (Ht Hf) in Hn. specialize (Hf n Hn). lia.
Qed.

Lemma tidyRun_trans (w1 w2 w3 : World) : tidyRun w1 w2 -> tidyRun w2 w3 -> tidyRun w1 w3.
Proof.
  intros H12 H23. pose proof (tidyRun_fresh _ _ H12) as Hfresh.
  destruct H12 as (e1 & T1 & L1 & P1 & N1 & R1 & S1).
  destruct H23 as (e2 & T2 & L2 & P2 & N2 & R2 & S2).
  exists (e1 ++ e2). rewrite created_app, removed_app, fmap_app.
  split; [now rewrite T2, T1, app_assoc|].
  split; [lia|].
  split; [now apply Permutation_app|].
  split; [|split].
  - apply NoDup_app. split; [exact N1|]. split; [|exact N2].
    intros n (f1 & -> & Hf1)%list_elem_of_fmap (f2 & E & Hf2)%list_elem_of_fmap.
    rewrite Forall_forall in R1, R2.
    specialize (R1 f1 Hf1). specialize (R2 f2 Hf2). lia.
  - apply Forall_app. split.
    + eapply Forall_impl; [exact R1|]. cbn. intros f Hf. lia.
    + eapply Forall_impl; [exact R2|]. cbn. intros f Hf. lia.
  - intros Hf. rewrite (S2 (Hfresh Hf)). exact (S1 Hf).
Qed.

Lemma tidyRun_emit (e : event) (w : World) : quiet e -> tidyRun w (emit e w).
Proof.
  intros H. apply tidyRun_quiet; [apply sameSession_emit | now apply emitsOnly_emit].
Qed.

Section TemporaryFiles.

Variable host : Host.

(** A temporary file that is created, used tidily, closed and removed. *)
Lemma tidyRun_bracket (pattern : string) (w w1 w2 : World) (f : tmpfile) :
  os.CreateTemp host pattern w = (w1, inl f) ->
  tidyRun w1 w2 ->
  tidyRun w (os.Remove f (os.Close f w2)).
Proof.
  unfold os.CreateTemp.
  destruct (os.hasSeparator pattern); [discriminate|].
  destruct (createTempFails host (tempCalls w)); [discriminate|].
  destruct (os.prefixAndSuffix pattern) as [pre suf].
  intros [= <- <-] (evs & T & L & P & N & R & S).
  cbn [emit trace tempCalls temps fs cpuProfiling] in T, L, R, S.
  exists (EvCreateTemp (pre, tempCalls w, suf) :: evs
            ++ [EvClose (pre, tempCalls w, suf); EvRemove (pre, tempCalls w, suf)]).
  cbn [created removed]. rewrite created_app, removed_app. cbn [created removed].
  rewrite app_nil_r.
  split; [|split; [|split; [|split; [|split]]]].
  - unfold os.Remove, os.Close. cbn [emit trace]. rewrite T.
    rewrite <- !app_assoc. reflexivity.
  - unfold os.Remove, os.Close. cbn [emit tempCalls]. lia.
  - rewrite <- P. apply Permutation_cons_append.
  - rewrite fmap_cons. apply NoDup_cons. split; [|exact N].
    intros (f' & E & Hf')%list_elem_of_fmap.
    rewrite Forall_forall in R. specialize (R f' Hf').
    unfold tmpRandom in E at 1. cbn in E. lia.
  - unfold os.Remove, os.Close. cbn [emit tempCalls].
    constructor; [unfold tmpRandom; cbn; lia|].
    eapply Forall_impl; [exact R|]. cbn. intros f' Hf'. lia.
  - intros Hf. unfold os.Remove, os.Close. cbn [emit temps tmpRandom fst snd].
    rewrite S.
    + assert (Hnot : tempCalls w ∉ temps w)
        by (intros Hin; specialize (Hf _ Hin); lia).
      apply set_eq. intros x.
      rewrite elem_of_difference, elem_of_union, !elem_of_singleton.
      split; [intros [[->|Hx] Hne]; [contradiction | exact Hx]|].
      intros Hx. split; [now right | intros ->; contradiction].
    + unfold tempsFresh. cbn [emit tempCalls temps].
      intros n [->%elem_of_singleton|Hn]%elem_of_union; [lia|].
      specialize (Hf _ Hn). lia.
Qed.

(** A temporary file that could not be created. *)
Lemma tidyRun_no_temp (pattern : string) (w w1 : World) (e : error) :
  os.CreateTemp host pattern w = (w1, inr e) -> tidyRun w w1.
Proof.
  unfold os.CreateTemp. intros H.
  assert (E : w1 = mkWorld (fs w) (temps w) (S (tempCalls w)) (cpuProfiling w) (trace w)).
  { destruct (os.hasSeparator pattern); [now injection H|].
    destruct (createTempFails host (tempCalls w)); [now injection H|].
    destruct (os.prefixAndSuffix pattern). discriminate H. }
  subst w1. exists []. cbn [trace tempCalls temps created removed fmap list_fmap].
  rewrite app_nil_r. repeat split; try constructor; auto.
Qed.

Lemma tidy_ret (A : Type) (a : A) : tidy (ret a).
Proof. intros w. apply tidyRun_refl. Qed.

Lemma tidy_bind (A B : Type) (m : Go A) (k : A -> Go B) :
  tidy m -> (forall a, tidy (k a)) -> tidy (bind m k).
Proof.
  intros Hm Hk w. unfold bind. specialize (Hm w).
  destruct (m w) as [[a| |msg] w']; cbn [snd] in *; [|exact Hm|exact Hm].
  eapply tidyRun_trans; [exact Hm | apply Hk].
Qed.

Lemma tidy_emit (e : event) : quiet e -> tidy (effect (emit e)).
Proof. intros H w. now apply tidyRun_emit. Qed.

Lemma tidy_log (s : string) (a : list arg) : tidy (log_Printf s a).
Proof. now apply tidy_emit. Qed.

Lemma tidy_forRange (A : Type) (l : list A) (body : A -> Go flow) :
  (forall x, tidy (body x)) -> tidy (forRange l body).
Proof.
  intros Hb. induction l as [|x l IH]; [apply tidy_ret|].
  cbn [forRange]. apply tidy_bind; [apply Hb|].
  intros [|]; [exact IH | apply tidy_ret].
Qed.

Lemma tidy_GenerateGraph (f : tmpfile) (out : path) (format : string) :
  tidy (GenerateGraph host f out format).
Proof.
  intros w. destruct (GenerateGraph_spec host f out format w) as (w' & -> & S & E).
  apply tidyRun_quiet; [exact S|].
  eapply emitsOnly_weaken; [|exact E].
  intros e [->|[[d ->]|(s & a & ->)]]; exact I.
Qed.

Lemma tidy_LookupWriteTo (name : string) (f : tmpfile) :
  tidy (pprof.LookupWriteTo host name f).
Proof.
  unfold pprof.LookupWriteTo.
  destruct (registered host name); [|intros w; apply tidyRun_refl].
  destruct (writeToFails host name); [apply tidy_ret|].
  intros w. now apply tidyRun_emit.
Qed.

Lemma tidy_StartCPUProfile (f : tmpfile) : tidy (pprof.StartCPUProfile f).
Proof.
  intros w. unfold pprof.StartCPUProfile.
  destruct (cpuProfiling w); [apply tidyRun_refl|].
  exists [EvStartCPUProfile f]. cbn. repeat split; try constructor; auto.
Qed.

Lemma tidy_StopCPUProfile : tidy pprof.StopCPUProfile.
Proof.
  intros w. exists [EvStopCPUProfile]. cbn. repeat split; try constructor; auto.
Qed.

Lemma tidy_require_NoError (err : option error) (msg : string) :
  tidy (require_NoError err msg).
Proof.
  destruct err as [e|]; [|apply tidy_ret]. intros w. now apply tidyRun_emit.
Qed.

Variable cfg : Config.

Lemma tidy_WriteProfileAndExport (profileType : string) (dir : path) :
  tidy (WriteProfileAndExport host cfg profileType dir).
Proof.
  unfold WriteProfileAndExport.
  destruct (List.length (ProfilingOutputFormats cfg) =? 0)%nat; [apply tidy_log|].
  intros w.
  destruct (os.CreateTemp host (profileType +:+ ".prof") w) as [w1 [f|e]] eqn:HC.
  - unfold defer.
    match goal with
    | |- context [bind ?m ?k w1] => pose proof (fun H => tidy_bind _ _ m k H) as HB
    end.
    match goal with
    | |- tidyRun w (snd (let '(r, w') := (let '(r0, w'0) := ?body w1 in _) in _)) =>
        assert (Hbody : tidy body)
    end.
    { apply tidy_bind; [apply tidy_LookupWriteTo|].
      intros [e|]; [apply tidy_log|].
      apply tidy_bind; [apply tidy_log|]. intros _.
      apply tidy_bind; [|intros; apply tidy_ret].
      apply tidy_forRange. intros format.
      apply tidy_bind; [apply tidy_GenerateGraph | intros; apply tidy_ret]. }
    clear HB. specialize (Hbody w1).
    match goal with
    | Hb : tidyRun w1 (snd (?body w1)) |- _ => destruct (body w1) as [r w2]
    end.
    cbn [snd] in *. eapply tidyRun_bracket; eassumption.
  - eapply tidyRun_trans; [eapply tidyRun_no_temp; exact HC|]. apply tidy_log.
Qed.

Lemma tidy_RunProfiling (tc : APITestCase) : tidy (RunProfiling host cfg tc).
Proof.
  unfold RunProfiling.
  destruct (List.length (ProfilingOutputFormats cfg) =? 0)%nat; [apply tidy_ret|].
  apply tidy_bind.
  { intros w. cbn [effect snd].
    destruct (prepareDir_frame host (GetProfileDir tc) w) as [S E].
    apply tidyRun_quiet; [exact S|].
    eapply emitsOnly_weaken; [|exact E]. intros []; cbn; tauto. }
  intros _ w.
  destruct (os.CreateTemp host "cpu_profile_*.prof" w) as [w1 [f|e]] eqn:HC.
  - unfold defer.
    match goal with
    | |- tidyRun w (snd (let '(r, w') := (let '(r0, w'0) := ?body w1 in _) in _)) =>
        assert (Hbody : tidy body)
    end.
    { apply tidy_bind; [apply tidy_StartCPUProfile|]. intros err.
      apply tidy_bind; [apply tidy_require_NoError|]. intros _.
      apply tidy_bind; [now apply tidy_emit|]. intros _.
      apply tidy_bind; [now apply tidy_emit|]. intros _.
      apply tidy_bind; [now apply tidy_emit|]. intros _.
      apply tidy_bind; [apply tidy_StopCPUProfile|]. intros _.
      apply tidy_bind.
      { apply tidy_forRange. intros format.
        destruct (negb (format =? "png")%string && negb (format =? "pdf")%string).
        - apply tidy_bind; [now apply tidy_emit | intros; apply tidy_ret].
        - apply tidy_bind; [apply tidy_GenerateGraph | intros; apply tidy_ret]. }
      intros [|]; [|apply tidy_ret].
      apply tidy_bind; [|intros; apply tidy_ret].
      apply tidy_forRange. intros profile.
      apply tidy_bind; [apply tidy_WriteProfileAndExport | intros; apply tidy_ret]. }
    specialize (Hbody w1).
    match goal with
    | Hb : tidyRun w1 (snd (?body w1)) |- _ => destruct (body w1) as [r w2]
    end.
    cbn [snd] in *. eapply tidyRun_bracket; eassumption.
  - eapply tidyRun_trans; [eapply tidyRun_no_temp; exact HC|].
    apply tidy_require_NoError.
Qed.

End TemporaryFiles.

(* ===================================================================== *)
(** * The profiling run *)
(* ===================================================================== *)

(** C5: every temporary profile file is removed exactly once by the call
    that created it, however that call ends.  In the events of a call of
    [RunProfiling], and of a call of [WriteProfileAndExport], the files
    created are pairwise different and are, up to order, the files removed;
    and the temporary files that exist after the call are those that existed
    before it. *)
Theorem temp_files_removed_once (host : Host) (cfg : Config) (tc : APITestCase)
  (profileType : string) (dir : path) (w : World) :
  (exists evs,
      trace (snd (RunProfiling host cfg tc w)) = trace w ++ evs
      /\ NoDup (created evs) /\ created evs ≡ₚ removed evs
      /\ (tempsFresh w -> temps (snd (RunProfiling host cfg tc w)) = temps w))
  /\ (exists evs,
      trace (snd (WriteProfileAndExport host cfg profileType dir w)) = trace w ++ evs
      /\ NoDup (created evs) /\ created evs ≡ₚ removed evs
      /\ (tempsFresh w ->
          temps (snd (WriteProfileAndExport host cfg profileType dir w)) = temps w)).
Proof.
  split.
  - destruct (tidy_RunProfiling host cfg tc w) as (evs & T & _ & P & N & _ & S).
    exists evs. repeat split; try assumption. eapply NoDup_fmap_1; exact N.
  - destruct (tidy_WriteProfileAndExport host cfg profileType dir w)
      as (evs & T & _ & P & N & _ & S).
    exists evs. repeat split; try assumption. eapply NoDup_fmap_1; exact N.
Qed.

Lemma emptyWorld_fresh : tempsFresh emptyWorld.
Proof. intros n Hn. cbn in Hn. now apply not_elem_of_empty in Hn. Qed.

Lemma temp_files_removed_once_witness :
  temps (snd (RunProfiling goodHost defaultConfig (exampleCase (handlerOf None) 200)
                emptyWorld)) = temps emptyWorld
  /\ temps (snd (WriteProfileAndExport goodHost defaultConfig "heap" ["profiles"]
                   emptyWorld)) = temps emptyWorld.
Proof.
  destruct (temp_files_removed_once goodHost defaultConfig
              (exampleCase (handlerOf None) 200) "heap" ["profiles"] emptyWorld)
    as [(evs1 & _ & _ & _ & H1) (evs2 & _ & _ & _ & H2)].
  split; [apply H1 | apply H2]; exact emptyWorld_fresh.
Defined.

(** The files of a run on which nothing fails: one for the CPU profile and
    one per snapshot kind, each removed. *)
Example default_run_temps :
  let evs := trace (snd (RunProfiling goodHost defaultConfig
                           (exampleCase (handlerOf None) 200) emptyWorld)) in
  created evs = [("cpu_profile_", 0%nat, ".prof"); ("heap.prof", 1%nat, "");
                 ("goroutine.prof", 2%nat, ""); ("block.prof", 3%nat, "");
                 ("mutex.prof", 4%nat, ""); ("threadcreate.prof", 5%nat, "")]
  /\ removed evs = [("heap.prof", 1%nat, ""); ("goroutine.prof", 2%nat, "");
                    ("block.prof", 3%nat, ""); ("mutex.prof", 4%nat, "");
                    ("threadcreate.prof", 5%nat, ""); ("cpu_profile_", 0%nat, ".prof")].
Proof. vm_compute. split; reflexivity. Qed.

(** C4: with no output format configured, [RunProfiling] does nothing at
    all, and [WriteProfileAndExport] only logs that it skips the profile: no
    file or directory is created and the rendering tool is not called,
    whatever profile kinds are enabled. *)
Theorem no_formats_no_files (host : Host) (cfg : Config) (tc : APITestCase)
  (profileType : string) (dir : path) (w : World) :
  ProfilingOutputFormats cfg = [] ->
  RunProfiling host cfg tc w = (Normal tt, w)
  /\ WriteProfileAndExport host cfg profileType dir w
     = (Normal tt,
        emit (EvLogPrintf "Skipping %s profile: no output formats selected"
                [AStr profileType]) w)
  /\ (forall w', w' = snd (RunProfiling host cfg tc w)
                 \/ w' = snd (WriteProfileAndExport host cfg profileType dir w) ->
        fs w' = fs w /\ temps w' = temps w
        /\ emitsOnly (fun e => createsFile e = false /\ isExportCall e = false) w w').
Proof.
  intros Hf.
  assert (H1 : RunProfiling host cfg tc w = (Normal tt, w))
    by (unfold RunProfiling; rewrite Hf; reflexivity).
  assert (H2 : WriteProfileAndExport host cfg profileType dir w
     = (Normal tt,
        emit (EvLogPrintf "Skipping %s profile: no output formats selected"
                [AStr profileType]) w))
    by (unfold WriteProfileAndExport; rewrite Hf; reflexivity).
  split; [exact H1|]. split; [exact H2|].
  rewrite H1, H2. cbn [snd]. intros w' [->| ->].
  - repeat split. apply emitsOnly_refl.
  - repeat split. apply emitsOnly_emit. split; reflexivity.
Qed.

Lemma no_formats_no_files_witness :
  RunProfiling goodHost (mkConfig false [] ["heap"; "goroutine"])
    (exampleCase (handlerOf None) 200) emptyWorld = (Normal tt, emptyWorld).
Proof.
  exact (proj1 (no_formats_no_files goodHost (mkConfig false [] ["heap"; "goroutine"])
                  (exampleCase (handlerOf None) 200) "heap" ["profiles"] emptyWorld
                  eq_refl)).
Defined.

Lemma isMkdir_not_work (e : event) : isMkdir e -> isProfilingWork e = false.
Proof. destruct e; cbn; tauto. Qed.

(** A snapshot profile whose temporary file cannot be created: the failure
    is logged and the call returns. *)
Lemma WriteProfileAndExport_create_fails (host : Host) (cfg : Config)
  (profileType : string) (dir : path) (w : World) :
  ProfilingOutputFormats cfg <> [] ->
  createTempFails host (tempCalls w) = true ->
  exists w' err,
    WriteProfileAndExport host cfg profileType dir w = (Normal tt, w')
    /\ trace w' = trace w ++ [EvLogPrintf "Failed to create temp file for %s profile: %v"
                                [AStr profileType; AErr err]].
Proof.
  intros Hf Hc. unfold WriteProfileAndExport.
  destruct (ProfilingOutputFormats cfg) as [|fmt0 fmts]; [contradiction|].
  cbn [List.length Nat.eqb]. unfold os.CreateTemp. rewrite Hc.
  destruct (os.hasSeparator (profileType +:+ ".prof"));
    eexists; eexists; split; reflexivity.
Qed.



(** C6, at a profile kind the runtime does not know: [pprof.Lookup] gives
    nil, [WriteTo] on it panics, and the panic leaves [WriteProfileAndExport]
    and [RunProfiling]; the kinds after it are never captured.  (The
    temporary files are still closed and removed.) *)
Theorem unknown_kind_panics :
  let cfg := mkConfig false ["png"] ["bogus"; "heap"] in
  let run := RunProfiling goodHost cfg (exampleCase (handlerOf None) 200) emptyWorld in
  registered goodHost "bogus" = false
  /\ fst (WriteProfileAndExport goodHost cfg "bogus" ["profiles"] emptyWorld)
     = Panic "runtime error: invalid memory address or nil pointer dereference"
  /\ fst run = Panic "runtime error: invalid memory address or nil pointer dereference"
  /\ created (trace (snd run)) = [("cpu_profile_", 0%nat, ".prof"); ("bogus.prof", 1%nat, "")]
  /\ removed (trace (snd run)) = [("bogus.prof", 1%nat, ""); ("cpu_profile_", 0%nat, ".prof")]
  /\ List.filter (fun e => match e with EvWriteTo _ _ => true | _ => false end)
            (trace (snd run)) = [].
Proof. vm_compute. repeat split; reflexivity. Qed.

(** The other failure of C6 is handled as the claim says: when the temporary
    file of a kind cannot be created, the failure is logged and the loop of
    [RunProfiling] goes on with the next kind. *)
Example snapshot_temp_failure_continues :
  let host := mkHost 18 (fun _ => false) (fun n => (n =? 1)%nat) (registered goodHost)
                (fun _ => false) (fun _ _ => Some []) (fun _ => false) (fun _ => true)
                (fun _ _ => None) in
  let run := RunProfiling host (mkConfig false ["png"] ["heap"; "goroutine"])
               (exampleCase (handlerOf None) 200) emptyWorld in
  fst run = Normal tt
  /\ created (trace (snd run))
     = [("cpu_profile_", 0%nat, ".prof"); ("goroutine.prof", 2%nat, "")]
  /\ In (EvLogPrintf "Failed to create temp file for %s profile: %v"
           [AStr "heap"; AErr (PathError "open" EACCES)]) (trace (snd run))
  /\ In (EvWriteTo "goroutine" ("goroutine.prof", 2%nat, "")) (trace (snd run)).
Proof. vm_compute. repeat split; auto 20. Qed.

(* ===================================================================== *)
(** * More on the BinData helpers *)
(* ===================================================================== *)

Lemma lowerASCII_cons (c : ascii) (s : string) :
  lowerASCII (String c s) = String (lowerByte c) (lowerASCII s).
Proof. reflexivity. Qed.

Lemma lowerByte_hyphen (c : ascii) :
  Ascii.eqb (lowerByte c) "-"%char = Ascii.eqb c "-"%char.
Proof. destruct c as [[] [] [] [] [] [] [] []]; reflexivity. Qed.

Lemma reverseHexTable_lowerByte (c : ascii) :
  hex.reverseHexTable (lowerByte c) = hex.reverseHexTable c.
Proof. destruct c as [[] [] [] [] [] [] [] []]; reflexivity. Qed.

Lemma ReplaceAll_lowerASCII (s : string) :
  strings.ReplaceAll (lowerASCII s) "-" "" = lowerASCII (strings.ReplaceAll s "-" "").
Proof.
  induction s as [|c s IH]; [reflexivity|].
  rewrite lowerASCII_cons, !ReplaceAll_hyphen_cons, lowerByte_hyphen, IH.
  destruct (Ascii.eqb c "-"); [reflexivity | now rewrite lowerASCII_cons].
Qed.

(** Lower-casing the digits changes neither the bytes decoded nor whether
    the decoding fails. *)
Lemma hex_Decode_lowerASCII (s : string) :
  match hex.Decode s with
  | inl bs => hex.Decode (lowerASCII s) = inl bs
  | inr _ => exists e, hex.Decode (lowerASCII s) = inr e
  end.
Proof.
  induction s as [|c|c d s IH] using string_ind2.
  - reflexivity.
  - rewrite lowerASCII_cons. cbn [lowerASCII hex.Decode].
    rewrite reverseHexTable_lowerByte.
    destruct (15 <? hex.reverseHexTable c)%N; eauto.
  - rewrite !lowerASCII_cons. cbn [hex.Decode]. rewrite !reverseHexTable_lowerByte.
    destruct (15 <? hex.reverseHexTable c)%N; [eauto|].
    destruct (15 <? hex.reverseHexTable d)%N; [eauto|].
    destruct (hex.Decode s) as [bs|e].
    + now rewrite IH.
    + destruct IH as [e' ->]. eauto.
Qed.

Lemma GetBsonIdFromUUId_lower (u : string) :
  GetBsonIdFromUUId (lowerASCII u) = GetBsonIdFromUUId u.
Proof.
  unfold GetBsonIdFromUUId, hex.DecodeString. rewrite ReplaceAll_lowerASCII.
  pose proof (hex_Decode_lowerASCII (strings.ReplaceAll u "-" "")) as H.
  destruct (hex.Decode (strings.ReplaceAll u "-" "")) as [bs|e].
  - now rewrite H.
  - destruct H as [e' ->]. reflexivity.
Qed.

(** X1: [GetBsonIdFromUUId] does not distinguish the case of the
    hexadecimal digits: a string and its lower-case form are encoded alike
    (and both give the empty string when the one does). *)
Theorem GetBsonIdFromUUId_case_insensitive (u : string) :
  GetBsonIdFromUUId (lowerASCII u) = GetBsonIdFromUUId u.
Proof. apply GetBsonIdFromUUId_lower. Qed.

Lemma ReplaceAll_hyphen_idem (s : string) :
  strings.ReplaceAll (strings.ReplaceAll s "-" "") "-" "" = strings.ReplaceAll s "-" "".
Proof.
  induction s as [|c s IH]; [reflexivity|].
  rewrite ReplaceAll_hyphen_cons.
  destruct (Ascii.eqb c "-") eqn:E; [exact IH|].
  now rewrite ReplaceAll_hyphen_cons, E, IH.
Qed.

(** X2: hyphens count for nothing in [GetBsonIdFromUUId]: a hyphen put
    anywhere into the argument, and the removal of all of them, leave the
    result as it is. *)
Theorem GetBsonIdFromUUId_hyphens (a b : string) :
  GetBsonIdFromUUId (a +:+ "-" +:+ b) = GetBsonIdFromUUId (a +:+ b)
  /\ GetBsonIdFromUUId (strings.ReplaceAll a "-" "") = GetBsonIdFromUUId a.
Proof.
  unfold GetBsonIdFromUUId. split.
  - rewrite !ReplaceAll_hyphen_app. change (strings.ReplaceAll "-" "-" "") with "".
    now rewrite append_nil.
  - now rewrite ReplaceAll_hyphen_idem.
Qed.

Lemma hexdigit_lower (b : ascii) :
  isLowerHexDigit (hex.hexdigit (N.shiftr (N_of_ascii b) 4)) = true
  /\ isLowerHexDigit (hex.hexdigit (N.land (N_of_ascii b) 15)) = true.
Proof. destruct b as [[] [] [] [] [] [] [] []]; split; reflexivity. Qed.

Lemma lowerHexString_Sbx (bs : list ascii) : lowerHexString (fmt.Sbx bs) = true.
Proof.
  induction bs as [|b bs IH]; [reflexivity|].
  cbn [fmt.Sbx lowerHexString]. destruct (hexdigit_lower b) as [-> ->]. exact IH.
Qed.

Lemma isLowerHexDigit_spec (c : ascii) :
  isLowerHexDigit c = true -> isHexDigit c = true /\ lowerByte c = c.
Proof.
  destruct c as [[] [] [] [] [] [] [] []]; intros H; vm_compute in H;
    try discriminate H; split; reflexivity.
Qed.

Lemma lowerHexString_spec (s : string) :
  lowerHexString s = true -> hexString s = true /\ lowerASCII s = s.
Proof.
  induction s as [|c s IH]; [split; reflexivity|].
  cbn [lowerHexString]. intros [Hc Hs]%andb_prop.
  destruct (isLowerHexDigit_spec c Hc) as [Hh Hl]. destruct (IH Hs) as [IH1 IH2].
  split; [cbn [hexString]; now rewrite Hh, IH1|].
  now rewrite lowerASCII_cons, Hl, IH2.
Qed.

(** Five groups of hexadecimal digits of the lengths 8, 4, 4, 4 and 12,
    joined by hyphens, are a UUID string. *)
Lemma validUUID_of_groups (a b c d e : string) :
  hexString a = true -> String.length a = 8%nat ->
  hexString b = true -> String.length b = 4%nat ->
  hexString c = true -> String.length c = 4%nat ->
  hexString d = true -> String.length d = 4%nat ->
  hexString e = true -> String.length e = 12%nat ->
  validUUID (a +:+ "-" +:+ b +:+ "-" +:+ c +:+ "-" +:+ d +:+ "-" +:+ e) = true.
Proof.
  intros Ha La Hb Lb Hc Lc Hd Ld He Le.
  do 8 (destruct a as [|? a]; [discriminate La|]). destruct a; [|discriminate La].
  do 4 (destruct b as [|? b]; [discriminate Lb|]). destruct b; [|discriminate Lb].
  do 4 (destruct c as [|? c]; [discriminate Lc|]). destruct c; [|discriminate Lc].
  do 4 (destruct d as [|? d]; [discriminate Ld|]). destruct d; [|discriminate Ld].
  do 12 (destruct e as [|? e]; [discriminate Le|]). destruct e; [|discriminate Le].
  cbn [hexString] in Ha, Hb, Hc, Hd, He.
  repeat match goal with
         | H : (_ && _) = true |- _ =>
             let H1 := fresh "Hx" in apply andb_prop in H as [H1 H]
         end.
  unfold validUUID. rewrite !append_cons, !append_nil.
  cbn [String.length Nat.eqb andb uuidChars orb Ascii.eqb Bool.eqb].
  repeat match goal with H : isHexDigit _ = true |- _ => rewrite H; clear H end.
  reflexivity.
Qed.

(** What a successful [GetStringUUidFromBsonId] returns. *)
Lemma GetStringUUidFromBsonId_ok (binData u : string) :
  GetStringUUidFromBsonId binData = (u, None) ->
  exists bs,
    base64.DecodeString (payload binData) = inl bs
    /\ List.length bs = 16%nat
    /\ u = fmt.Sbx (fmt.slice 0 4 bs) +:+ "-" +:+ fmt.Sbx (fmt.slice 4 6 bs) +:+ "-" +:+
           fmt.Sbx (fmt.slice 6 8 bs) +:+ "-" +:+ fmt.Sbx (fmt.slice 8 10 bs) +:+ "-" +:+
           fmt.Sbx (fmt.slice 10 16 bs).
Proof.
  unfold GetStringUUidFromBsonId. fold (payload binData).
  destruct (negb (strings.HasPrefix binData "BinData(0, '")
            || negb (strings.HasSuffix binData "')")); [discriminate|].
  destruct (base64.DecodeString (payload binData)) as [bs|e]; [|discriminate].
  destruct (List.length bs =? 16)%nat eqn:Hl; cbn [negb]; [|discriminate].
  apply Nat.eqb_eq in Hl. intros [= <-]. exists bs. split; [reflexivity|].
  split; [exact Hl|].
  do 16 (destruct bs as [|? bs]; [discriminate Hl|]). destruct bs; [|discriminate Hl].
  reflexivity.
Qed.

Lemma length_slice (lo hi : nat) (bs : list ascii) :
  (lo <= hi <= List.length bs)%nat -> List.length (fmt.slice lo hi bs) = (hi - lo)%nat.
Proof.
  intros H. unfold fmt.slice. rewrite length_firstn, length_skipn. lia.
Qed.

(** X3: a UUID string returned by [GetStringUUidFromBsonId] without error
    is in the canonical form: 36 characters, hyphens at the positions 8, 13,
    18 and 23, lower-case hexadecimal digits elsewhere. *)
Theorem GetStringUUidFromBsonId_canonical (binData u : string) :
  GetStringUUidFromBsonId binData = (u, None) -> lowerUUID u = true.
Proof.
  intros (bs & _ & Hlen & ->)%GetStringUUidFromBsonId_ok.
  assert (Hg : forall lo hi, (lo <= hi <= 16)%nat ->
             hexString (fmt.Sbx (fmt.slice lo hi bs)) = true
             /\ String.length (fmt.Sbx (fmt.slice lo hi bs)) = (2 * (hi - lo))%nat
             /\ lowerASCII (fmt.Sbx (fmt.slice lo hi bs)) = fmt.Sbx (fmt.slice lo hi bs)).
  { intros lo hi H.
    destruct (lowerHexString_spec _ (lowerHexString_Sbx (fmt.slice lo hi bs))) as [H1 H2].
    split; [exact H1|]. split; [|exact H2].
    rewrite length_Sbx, length_slice by lia. reflexivity. }
  destruct (Hg 0 4)%nat as (H1 & L1 & E1); [lia|].
  destruct (Hg 4 6)%nat as (H2 & L2 & E2); [lia|].
  destruct (Hg 6 8)%nat as (H3 & L3 & E3); [lia|].
  destruct (Hg 8 10)%nat as (H4 & L4 & E4); [lia|].
  destruct (Hg 10 16)%nat as (H5 & L5 & E5); [lia|].
  unfold lowerUUID.
  rewrite (validUUID_of_groups _ _ _ _ _ H1 L1 H2 L2 H3 L3 H4 L4 H5 L5).
  rewrite !lowerASCII_app, E1, E2, E3, E4, E5. cbn [andb].
  change (lowerASCII "-") with "-". apply String.eqb_refl.
Qed.

Lemma GetStringUUidFromBsonId_canonical_witness :
  lowerUUID "550e8400-e29b-41d4-a716-446655440000" = true.
Proof.
  exact (GetStringUUidFromBsonId_canonical "BinData(0, 'VQ6EAOKbQdSnFkRmVUQAAA==')"
           "550e8400-e29b-41d4-a716-446655440000" eq_refl).
Defined.

Lemma hex_Decode_Sbx_cons (b : ascii) (s : string) :
  hex.Decode (String (hex.hexdigit (N.shiftr (N_of_ascii b) 4))
                (String (hex.hexdigit (N.land (N_of_ascii b) 15)) s))
  = match hex.Decode s with
    | inl bs => inl (b :: bs)
    | inr e => inr e
    end.
Proof. destruct b as [[] [] [] [] [] [] [] []]; reflexivity. Qed.

(** Reading back the digits that [%x] printed gives the bytes printed. *)
Lemma hex_Decode_Sbx (bs : list ascii) : hex.Decode (fmt.Sbx bs) = inl bs.
Proof.
  induction bs as [|b bs IH]; [reflexivity|].
  cbn [fmt.Sbx]. now rewrite hex_Decode_Sbx_cons, IH.
Qed.

Lemma Sbx_app (a b : list ascii) : fmt.Sbx (a ++ b) = fmt.Sbx a +:+ fmt.Sbx b.
Proof.
  induction a as [|x a IH]; [reflexivity|].
  cbn [app fmt.Sbx]. now rewrite IH, !append_cons.
Qed.

(** The string of a successful decoding, without its hyphens, is the [%x]
    form of the sixteen bytes. *)
Lemma uuid_format_digits (bs : list ascii) :
  List.length bs = 16%nat ->
  strings.ReplaceAll
    (fmt.Sbx (fmt.slice 0 4 bs) +:+ "-" +:+ fmt.Sbx (fmt.slice 4 6 bs) +:+ "-" +:+
     fmt.Sbx (fmt.slice 6 8 bs) +:+ "-" +:+ fmt.Sbx (fmt.slice 8 10 bs) +:+ "-" +:+
     fmt.Sbx (fmt.slice 10 16 bs)) "-" "" = fmt.Sbx bs.
Proof.
  intros Hlen.
  assert (Hr : forall x, strings.ReplaceAll (fmt.Sbx x) "-" "" = fmt.Sbx x).
  { intros x. apply ReplaceAll_hexString.
    exact (proj1 (lowerHexString_spec _ (lowerHexString_Sbx x))). }
  rewrite !ReplaceAll_hyphen_app, !Hr.
  change (strings.ReplaceAll "-" "-" "") with "". rewrite !append_nil, <- !Sbx_app.
  f_equal.
  do 16 (destruct bs as [|? bs]; [discriminate Hlen|]). destruct bs; [|discriminate Hlen].
  reflexivity.
Qed.

(** X4: encoding again what [GetStringUUidFromBsonId] decoded.  When
    [binData] decodes to [u] without error, [GetBsonIdFromUUId u] is the
    wrapper around the standard Base64 encoding of the sixteen bytes that
    the payload of [binData] holds, and it decodes to [u] again. *)
Theorem decode_then_encode (binData u : string) :
  GetStringUUidFromBsonId binData = (u, None) ->
  exists bs,
    base64.DecodeString (payload binData) = inl bs
    /\ List.length bs = 16%nat
    /\ GetBsonIdFromUUId u = "BinData(0, '" +:+ base64.EncodeToString bs +:+ "')"
    /\ GetStringUUidFromBsonId (GetBsonIdFromUUId u) = (u, None).
Proof.
  intros (bs & Hdec & Hlen & ->)%GetStringUUidFromBsonId_ok.
  exists bs. split; [exact Hdec|]. split; [exact Hlen|].
  assert (HG : GetBsonIdFromUUId
            (fmt.Sbx (fmt.slice 0 4 bs) +:+ "-" +:+ fmt.Sbx (fmt.slice 4 6 bs) +:+ "-" +:+
             fmt.Sbx (fmt.slice 6 8 bs) +:+ "-" +:+ fmt.Sbx (fmt.slice 8 10 bs) +:+ "-" +:+
             fmt.Sbx (fmt.slice 10 16 bs))
          = "BinData(0, '" +:+ base64.EncodeToString bs +:+ "')").
  { unfold GetBsonIdFromUUId, hex.DecodeString.
    now rewrite (uuid_format_digits bs Hlen), hex_Decode_Sbx. }
  split; [exact HG|]. rewrite HG. now apply GetStringUUidFromBsonId_wrapper.
Qed.

Lemma decode_then_encode_witness :
  exists bs,
    base64.DecodeString (payload "BinData(0, 'VQ6EAOKbQdSnFkRmVUQAAB==')") = inl bs
    /\ List.length bs = 16%nat
    /\ GetBsonIdFromUUId "550e8400-e29b-41d4-a716-446655440000"
       = "BinData(0, '" +:+ base64.EncodeToString bs +:+ "')"
    /\ GetStringUUidFromBsonId (GetBsonIdFromUUId "550e8400-e29b-41d4-a716-446655440000")
       = ("550e8400-e29b-41d4-a716-446655440000", None).
Proof.
  exact (decode_then_encode "BinData(0, 'VQ6EAOKbQdSnFkRmVUQAAB==')"
           "550e8400-e29b-41d4-a716-446655440000" eq_refl).
Defined.

(** The payload need not come back: Base64 text with unused bits set, or
    with line breaks, decodes like the standard text. *)
Example decode_then_encode_normalises :
  GetStringUUidFromBsonId "BinData(0, 'VQ6EAOKbQdSnFkRmVUQAAB==')"
    = ("550e8400-e29b-41d4-a716-446655440000", None)
  /\ GetBsonIdFromUUId "550e8400-e29b-41d4-a716-446655440000"
     = "BinData(0, 'VQ6EAOKbQdSnFkRmVUQAAA==')".
Proof. split; reflexivity. Qed.

(** The sixteen bytes of a UUID string. *)
Lemma validUUID_bytes (u : string) :
  validUUID u = true ->
  exists bs, List.length bs = 16%nat
             /\ GetBsonIdFromUUId u = "BinData(0, '" +:+ base64.EncodeToString bs +:+ "')".
Proof.
  intros Hv. pose proof (uuid_roundtrip_lower u Hv) as H.
  unfold GetBsonIdFromUUId in *.
  destruct (hex.DecodeString (strings.ReplaceAll u "-" "")) as [bs|e];
    [|discriminate H].
  exists bs. split; [|reflexivity].
  unfold GetStringUUidFromBsonId in H.
  rewrite wrapper_HasPrefix, wrapper_HasSuffix in H. cbn [negb orb] in H.
  fold (payload ("BinData(0, '" +:+ base64.EncodeToString bs +:+ "')")) in H.
  rewrite wrapper_payload, base64_roundtrip in H.
  destruct (List.length bs =? 16)%nat eqn:Hl; [now apply Nat.eqb_eq|discriminate H].
Qed.

(** X5: on UUID strings [GetBsonIdFromUUId] is injective up to the case of
    the digits: two valid UUID strings have the same BinData exactly when
    their lower-case forms are equal. *)
Theorem GetBsonIdFromUUId_injective (u v : string) :
  validUUID u = true -> validUUID v = true ->
  (GetBsonIdFromUUId u = GetBsonIdFromUUId v <-> lowerASCII u = lowerASCII v).
Proof.
  intros Hu Hv. split.
  - intros E. pose proof (uuid_roundtrip_lower u Hu) as Ru.
    pose proof (uuid_roundtrip_lower v Hv) as Rv. rewrite E, Rv in Ru.
    now injection Ru.
  - intros E. rewrite <- (GetBsonIdFromUUId_lower u), <- (GetBsonIdFromUUId_lower v).
    now rewrite E.
Qed.

Lemma GetBsonIdFromUUId_injective_witness :
  GetBsonIdFromUUId "550E8400-E29B-41D4-A716-446655440000"
  = GetBsonIdFromUUId "550e8400-e29b-41d4-a716-446655440000".
Proof.
  apply (GetBsonIdFromUUId_injective "550E8400-E29B-41D4-A716-446655440000"
           "550e8400-e29b-41d4-a716-446655440000" eq_refl eq_refl).
  reflexivity.
Defined.

(** X6: the BinData of a UUID string: 38 characters, the wrapper around 24
    characters of Base64 that end in the padding "==". *)
Theorem GetBsonIdFromUUId_shape (u : string) :
  validUUID u = true ->
  String.length (GetBsonIdFromUUId u) = 38%nat
  /\ strings.HasPrefix (GetBsonIdFromUUId u) "BinData(0, '" = true
  /\ strings.HasSuffix (GetBsonIdFromUUId u) "==')" = true
  /\ String.length (payload (GetBsonIdFromUUId u)) = 24%nat.
Proof.
  intros (bs & Hlen & ->)%validUUID_bytes.
  rewrite wrapper_HasPrefix, wrapper_payload.
  do 16 (destruct bs as [|? bs]; [discriminate Hlen|]). destruct bs; [|discriminate Hlen].
  repeat split; reflexivity.
Qed.

Lemma GetBsonIdFromUUId_shape_witness :
  String.length (GetBsonIdFromUUId "550e8400-e29b-41d4-a716-446655440000") = 38%nat.
Proof.
  exact (proj1 (GetBsonIdFromUUId_shape "550e8400-e29b-41d4-a716-446655440000" eq_refl)).
Defined.

(* ===================================================================== *)
(** * More on assertion mode *)
(* ===================================================================== *)

Lemma saveError_sticky (err : option error) (e : error) :
  saveError err e = sticky err (Some e).
Proof. destruct err; reflexivity. Qed.

Lemma decodeField_sticky (r : Resp) (err : option error) (m : string * json.value) :
  decodeField (r, err) m
  = (fst (decodeField (r, None) m), sticky err (snd (decodeField (r, None) m))).
Proof.
  destruct m as [key v]. unfold decodeField.
  destruct (fieldOfKey key) as [[]|]; cbn [fst snd].
  - destruct v as [| |n| | |]; cbn [fst snd]; rewrite ?saveError_sticky;
      try (destruct err; reflexivity).
    destruct (json.fitsInt n); cbn [fst snd]; rewrite ?saveError_sticky;
      destruct err; reflexivity.
  - destruct v as [| |n| | |]; cbn [fst snd]; rewrite ?saveError_sticky;
      try (destruct err; reflexivity).
    destruct (json.fitsInt n); cbn [fst snd]; rewrite ?saveError_sticky;
      destruct err; reflexivity.
  - destruct v; cbn [fst snd]; rewrite ?saveError_sticky; destruct err; reflexivity.
  - destruct (json.interfaceOK v); rewrite ?saveError_sticky; destruct err; reflexivity.
  - destruct (json.interfaceOK v); rewrite ?saveError_sticky; destruct err; reflexivity.
  - destruct err; reflexivity.
Qed.

Lemma sticky_assoc (a b c : option error) : sticky (sticky a b) c = sticky a (sticky b c).
Proof. destruct a; reflexivity. Qed.

Lemma decodeFields_sticky (ms : list (string * json.value)) (r : Resp)
  (err : option error) :
  fold_left decodeField ms (r, err)
  = (fst (fold_left decodeField ms (r, None)),
     sticky err (snd (fold_left decodeField ms (r, None)))).
Proof.
  revert r err. induction ms as [|m ms IH]; intros r err.
  - destruct err; reflexivity.
  - cbn [fold_left]. rewrite (decodeField_sticky r err m).
    destruct (decodeField (r, None) m) as [r1 e1]. cbn [fst snd].
    rewrite (IH r1 (sticky err e1)), (IH r1 e1). cbn [fst snd].
    now rewrite sticky_assoc.
Qed.

Lemma decodeResp_sticky (v : json.value) (err : option error) :
  decodeResp v err = (fst (decodeResp v None), sticky err (snd (decodeResp v None))).
Proof.
  destruct v; cbn [decodeResp fst snd]; rewrite ?saveError_sticky;
    try (destruct err; reflexivity).
  apply decodeFields_sticky.
Qed.

Lemma decodeEntry_step (outer : gmap string Resp) (err : option error)
  (key : string) (v : json.value) :
  decodeEntry (outer, err) (key, v)
  = (<[key := fst (decodeResp v None)]> outer, sticky err (snd (decodeResp v None))).
Proof.
  unfold decodeEntry. now rewrite (decodeResp_sticky v err).
Qed.

(** The error of the decoding of an object: none when every member decodes. *)
Lemma decodeEntries_error (ms : list (string * json.value)) (outer : gmap string Resp)
  (err : option error) :
  snd (fold_left decodeEntry ms (outer, err)) = None
  <-> err = None /\ Forall decodes ms.
Proof.
  revert outer err. induction ms as [|[key v] ms IH]; intros outer err.
  - cbn. split; [intros H; split; [exact H | constructor] | tauto].
  - cbn [fold_left]. rewrite decodeEntry_step, IH. split.
    + intros [Hs Hms]. destruct err; [discriminate Hs|]. cbn in Hs.
      split; [reflexivity|]. constructor; [exact Hs | exact Hms].
    + intros [-> Hms]. inversion Hms as [|m ms' Hm Hms']; subst.
      split; [exact Hm | exact Hms'].
Qed.

(** The element stored under a key: the one of the last member with that
    key. *)
Lemma decodeEntries_lookup_none (ms : list (string * json.value))
  (outer : gmap string Resp) (err : option error) (key : string) :
  Forall (fun m => fst m <> key) ms ->
  fst (fold_left decodeEntry ms (outer, err)) !! key = outer !! key.
Proof.
  revert outer err. induction ms as [|[k v] ms IH]; intros outer err H; [reflexivity|].
  inversion H as [|m ms' Hk Hms]; subst. cbn [fst] in Hk.
  cbn [fold_left]. rewrite decodeEntry_step, IH by exact Hms.
  now apply lookup_insert_ne.
Qed.

Lemma decodeEntries_lookup_last (pre post : list (string * json.value))
  (outer : gmap string Resp) (err : option error) (key : string) (v : json.value) :
  Forall (fun m => fst m <> key) post ->
  fst (fold_left decodeEntry (pre ++ (key, v) :: post) (outer, err)) !! key
  = Some (fst (decodeResp v None)).
Proof.
  intros H. rewrite fold_left_app. cbn [fold_left].
  destruct (fold_left decodeEntry pre (outer, err)) as [outer1 err1].
  rewrite decodeEntry_step, decodeEntries_lookup_none by exact H.
  apply lookup_insert_eq.
Qed.

(** A list of members either has none with the key or splits at the last
    one. *)
Lemma last_member (key : string) (ms : list (string * json.value)) :
  Forall (fun m => fst m <> key) ms
  \/ exists pre v post,
      ms = pre ++ (key, v) :: post /\ Forall (fun m => fst m <> key) post.
Proof.
  induction ms as [|[k v] ms IH]; [left; constructor|].
  destruct IH as [IH|(pre & v' & post & -> & Hpost)].
  - destruct (String.eqb_spec k key) as [->|Hne].
    + right. exists [], v, ms. split; [reflexivity | exact IH].
    + left. constructor; [exact Hne | exact IH].
  - right. exists ((k, v) :: pre), v', post. split; [reflexivity | exact Hpost].
Qed.

(** The last member with a key is unique. *)
Lemma last_member_unique (key : string) (pre pre' post post' : list (string * json.value))
  (v v' : json.value) :
  pre ++ (key, v) :: post = pre' ++ (key, v') :: post' ->
  Forall (fun m => fst m <> key) post -> Forall (fun m => fst m <> key) post' ->
  v = v'.
Proof.
  revert pre'. induction pre as [|m pre IH]; intros pre' E Hp Hp'.
  - destruct pre' as [|m' pre'].
    + now injection E.
    + injection E as E1 E2. subst post m'.
      apply Forall_app in Hp as [_ Hp]. inversion Hp as [|x l Hx _]; subst.
      now contradiction Hx.
  - destruct pre' as [|m' pre'].
    + injection E as E1 E2. subst post' m.
      apply Forall_app in Hp' as [_ Hp']. inversion Hp' as [|x l Hx _]; subst.
      now contradiction Hx.
    + injection E as _ E2. now apply (IH pre').
Qed.

Lemma RunSingle_Passed (host : Host) (cfg : Config) (tc : APITestCase) :
  result (RunSingle host cfg tc) = Passed
  <-> exists lines body outer resp,
        ExecuteHandler host tc = (lines, Recorded body)
        /\ Unmarshal body = (outer, None)
        /\ outer !! "response" = Some resp /\ Code resp = ExpectedCode tc.
Proof.
  destruct (ExecuteHandler host tc) as [lines [body|]] eqn:HE.
  2:{ unfold RunSingle. rewrite HE. cbn [result].
      split; [discriminate | intros (l & b & o & r & H & _); discriminate H]. }
  rewrite (RunSingle_recorded host cfg tc lines body HE).
  destruct (Unmarshal body) as [outer [e|]] eqn:HU.
  - split; [discriminate|].
    intros (l & b & o & r & H & HU' & _). injection H as _ <-.
    rewrite HU in HU'. discriminate HU'.
  - destruct (outer !! "response") as [resp|] eqn:Hl.
    + destruct (Z.eqb_spec (ExpectedCode tc) (Code resp)) as [E|N].
      * split; [intros _; exists lines, body, outer, resp; auto | reflexivity].
      * split; [discriminate|].
        intros (l & b & o & r & H & HU' & Hr & Hc). injection H as _ <-.
        rewrite HU in HU'. injection HU' as <-.
        rewrite Hl in Hr. injection Hr as <-. now symmetry in Hc.
    + split; [discriminate|].
      intros (l & b & o & r & H & HU' & Hr & _). injection H as _ <-.
      rewrite HU in HU'. injection HU' as <-. rewrite Hl in Hr. discriminate Hr.
Qed.

(** X7: when a test passes.  [RunSingle] passes exactly when
    [ExecuteHandler] returns (it does not panic on a request that could not
    be built), the body in the recorder is a JSON object, every member of
    it, not only "response", decodes into a [Resp] without error, and the
    code decoded from the last "response" member equals [ExpectedCode]. *)
Theorem RunSingle_passes_iff (host : Host) (cfg : Config) (tc : APITestCase) :
  result (RunSingle host cfg tc) = Passed
  <-> exists lines members,
        ExecuteHandler host tc = (lines, Recorded (Some (json.JObject members)))
        /\ Forall decodes members
        /\ exists pre v post,
            members = pre ++ ("response", v) :: post
            /\ Forall (fun m => fst m <> "response") post
            /\ Code (fst (decodeResp v None)) = ExpectedCode tc.
Proof.
  rewrite RunSingle_Passed. split.
  - intros (lines & body & outer & resp & HE & HU & Hl & Hc).
    destruct body as [[| |n|s|l|members]|]; cbn [Unmarshal] in HU;
      try discriminate HU.
    + injection HU as <-. rewrite lookup_empty in Hl. discriminate Hl.
    + exists lines, members. split; [exact HE|].
      pose proof (proj1 (decodeEntries_error members ∅ None)) as He.
      rewrite HU in He. destruct (He eq_refl) as [_ Hall]. split; [exact Hall|].
      destruct (last_member "response" members) as [Hno|(pre & v & post & -> & Hpost)].
      * pose proof (decodeEntries_lookup_none members ∅ None "response" Hno) as Hx.
        rewrite HU in Hx. cbn [fst] in Hx. rewrite Hl, lookup_empty in Hx.
        discriminate Hx.
      * exists pre, v, post. split; [reflexivity|]. split; [exact Hpost|].
        pose proof (decodeEntries_lookup_last pre post ∅ None "response" v Hpost) as Hx.
        rewrite HU in Hx. cbn [fst] in Hx. rewrite Hl in Hx. injection Hx as <-.
        exact Hc.
  - intros (lines & members & HE & Hall & pre & v & post & -> & Hpost & Hc).
    exists lines, (Some (json.JObject (pre ++ ("response", v) :: post))).
    cbn [Unmarshal].
    pose proof (proj2 (decodeEntries_error (pre ++ ("response", v) :: post) ∅ None)
                  (conj eq_refl Hall)) as He.
    pose proof (decodeEntries_lookup_last pre post ∅ None "response" v Hpost) as Hx.
    destruct (fold_left decodeEntry (pre ++ ("response", v) :: post) (∅, None))
      as [outer err]. cbn [fst snd] in He, Hx. subst err.
    exists outer, (fst (decodeResp v None)). auto.
Qed.

(** X8: a member beside "response" can fail the test.  When
    [ExecuteHandler] returns and the body is an object with a member, of
    whatever key, whose value is neither null nor an object, [RunSingle]
    fails with the unmarshal message, also when the "response" member holds
    the expected code. *)
Theorem RunSingle_untyped_member (host : Host) (cfg : Config) (tc : APITestCase)
  (lines : list printed) (members : list (string * json.value)) (key : string)
  (v : json.value) :
  ExecuteHandler host tc = (lines, Recorded (Some (json.JObject members))) ->
  In (key, v) members ->
  notAnObject v = true ->
  exists e,
    result (RunSingle host cfg tc)
    = Failed (NoErrorFailed e "Could not unmarshal JSON response").
Proof.
  intros HB Hin Hv. rewrite (RunSingle_recorded host cfg tc _ _ HB). cbn [Unmarshal].
  pose proof (proj1 (decodeEntries_error members ∅ None)) as He.
  destruct (fold_left decodeEntry members (∅, None)) as [outer [e|]]; cbn [snd] in *.
  - exists e. reflexivity.
  - destruct (He eq_refl) as [_ Hall].
    rewrite List.Forall_forall in Hall. specialize (Hall _ Hin).
    unfold decodes in Hall. cbn [snd] in Hall.
    destruct v; try discriminate Hv; discriminate Hall.
Qed.

Lemma RunSingle_untyped_member_witness :
  exists e,
    result (RunSingle goodHost defaultConfig
              (exampleCase
                 (handlerOf (Some (json.JObject
                    [("response", json.JObject [("code", json.JNumber (json.Integer 200))]);
                     ("status", json.JString "ok")])))
                 200))
    = Failed (NoErrorFailed e "Could not unmarshal JSON response").
Proof.
  apply (RunSingle_untyped_member goodHost defaultConfig _ []
           [("response", json.JObject [("code", json.JNumber (json.Integer 200))]);
            ("status", json.JString "ok")] "status" (json.JString "ok")).
  - reflexivity.
  - right. left. reflexivity.
  - reflexivity.
Defined.

(* ===================================================================== *)
(** * Where the output goes *)
(* ===================================================================== *)

Lemma append_empty (a : string) : a +:+ "" = a.
Proof.
  induction a as [|c a IH]; [reflexivity|]. now rewrite append_cons, IH.
Qed.

Lemma elements_plain (s cur : string) :
  os.hasSeparator s = false -> filepath.elements s cur = [cur +:+ s].
Proof.
  revert cur. induction s as [|c s IH]; intros cur H.
  - cbn [filepath.elements]. now rewrite append_empty.
  - cbn [os.hasSeparator] in H. apply orb_false_elim in H as [Hc Hs].
    cbn [filepath.elements]. rewrite Hc, (IH _ Hs).
    now rewrite app_assoc_string.
Qed.

Lemma elements_app_sep (a b cur : string) :
  filepath.elements (a +:+ "/" +:+ b) cur
  = filepath.elements a cur ++ filepath.elements b "".
Proof.
  revert cur. induction a as [|c a IH]; intros cur.
  - reflexivity.
  - rewrite append_cons. cbn [filepath.elements].
    destruct (Ascii.eqb c "/"); now rewrite IH.
Qed.

Lemma plainName_spec (s : string) :
  plainName s = true
  <-> os.hasSeparator s = false /\ s <> "" /\ s <> "." /\ s <> "..".
Proof.
  unfold plainName. rewrite !andb_true_iff, !negb_true_iff, !String.eqb_neq. tauto.
Qed.

Lemma Base_plain (fn : string) : plainName fn = true -> filepath.Base fn = fn.
Proof.
  intros H. apply plainName_spec in H as (Hs & Hne & _).
  unfold filepath.Base. apply String.eqb_neq in Hne. rewrite Hne.
  rewrite (elements_plain _ _ Hs), append_nil. cbn [List.filter]. now rewrite Hne.
Qed.

Lemma Base_qualified (pkg fn : string) :
  plainName fn = true -> filepath.Base (pkg +:+ "/" +:+ fn) = fn.
Proof.
  intros H. apply plainName_spec in H as (Hs & Hne & _).
  unfold filepath.Base.
  assert (Hn : String.eqb (pkg +:+ "/" +:+ fn) "" = false).
  { destruct pkg; reflexivity. }
  rewrite Hn, elements_app_sep, (elements_plain _ _ Hs), append_nil, List.filter_app.
  apply String.eqb_neq in Hne. cbn [List.filter]. rewrite Hne. cbn [negb].
  destruct (List.filter _ (filepath.elements pkg "")) as [|e es]; [reflexivity|].
  cbn [app]. apply List.last_last.
Qed.

(** Replacing the spaces, one character at a time. *)
Lemma ReplaceAll_space_cons (c : ascii) (s : string) :
  strings.ReplaceAll (String c s) " " "_"
  = String (if Ascii.eqb c " "%char then "_"%char else c)
           (strings.ReplaceAll s " " "_").
Proof.
  unfold strings.ReplaceAll. cbn [strings.replace_from].
  unfold strings.HasPrefix. cbn [String.length strings.slice_to Nat.leb andb String.eqb].
  destruct (Ascii.eqb c " "); reflexivity.
Qed.

Lemma underscore_for_space (c d : ascii) :
  d <> "_"%char -> (if Ascii.eqb c " "%char then "_"%char else c) = d -> c = d.
Proof.
  destruct (Ascii.eqb c " "); [intros H E; now contradiction H | auto].
Qed.

Lemma plainName_ReplaceAll (s : string) :
  plainName s = true -> plainName (strings.ReplaceAll s " " "_") = true.
Proof.
  rewrite !plainName_spec. intros (Hs & Hne & Hd & Hdd).
  split; [|split; [|split]].
  - clear Hne Hd Hdd. induction s as [|c s IH]; [reflexivity|].
    cbn [os.hasSeparator] in Hs. apply orb_false_elim in Hs as [Hc Hs].
    rewrite ReplaceAll_space_cons. cbn [os.hasSeparator]. rewrite (IH Hs).
    destruct (Ascii.eqb_spec c " "%char) as [->|_]; [reflexivity|]. now rewrite Hc.
  - destruct s; [now contradiction Hne|]. rewrite ReplaceAll_space_cons. discriminate.
  - destruct s as [|c1 [|c2 s]]; [now contradiction Hne| |].
    + rewrite ReplaceAll_space_cons. intros E. injection E as E.
      apply underscore_for_space in E; [|discriminate]. subst c1. now contradiction Hd.
    + rewrite !ReplaceAll_space_cons. discriminate.
  - destruct s as [|c1 [|c2 [|c3 s]]]; [now contradiction Hne| |..].
    + rewrite ReplaceAll_space_cons. discriminate.
    + rewrite !ReplaceAll_space_cons. intros E. injection E as E1 E2.
      apply underscore_for_space in E1; [|discriminate].
      apply underscore_for_space in E2; [|discriminate].
      subst c1 c2. now contradiction Hdd.
    + rewrite !ReplaceAll_space_cons. discriminate.
Qed.

(** A plain name put after a cleaned path. *)
Lemma clean_cons_plain (name : string) (elems done : list string) :
  plainName name = true ->
  filepath.clean (name :: elems) done = filepath.clean elems (name :: done).
Proof.
  intros H. apply plainName_spec in H as (_ & H1 & H2 & H3).
  apply String.eqb_neq in H1, H2, H3. cbn [filepath.clean]. now rewrite H1, H2, H3.
Qed.

Lemma clean_plain (name : string) (done : list string) :
  plainName name = true -> filepath.clean [name] done = rev done ++ [name].
Proof.
  intros H. now rewrite (clean_cons_plain _ _ _ H).
Qed.

Lemma hasSeparator_app (a b : string) :
  os.hasSeparator (a +:+ b) = os.hasSeparator a || os.hasSeparator b.
Proof.
  induction a as [|c a IH]; [reflexivity|].
  rewrite append_cons. cbn [os.hasSeparator]. rewrite IH. now rewrite orb_assoc.
Qed.

Lemma plainName_file (kind format : string) :
  os.hasSeparator kind = false -> os.hasSeparator format = false ->
  kind <> "" -> format <> "" ->
  plainName (kind +:+ "." +:+ format) = true.
Proof.
  intros Hk Hf Hkn Hfn. apply plainName_spec.
  split; [|split; [|split]].
  - rewrite !hasSeparator_app, Hk, Hf. reflexivity.
  - destruct kind; [now contradiction Hkn | discriminate].
  - destruct kind as [|c [|c' k]]; [now contradiction Hkn| |].
    + destruct format; [now contradiction Hfn | discriminate].
    + discriminate.
  - destruct kind as [|c [|c' k]]; [now contradiction Hkn| |].
    + destruct format; [now contradiction Hfn | discriminate].
    + destruct k; discriminate.
Qed.

Lemma GetProfileDir_plain (tc : APITestCase) (pkg fn : string) :
  plainName (Name tc) = true ->
  plainName fn = true ->
  FunctionName tc = fn \/ FunctionName tc = pkg +:+ "/" +:+ fn ->
  GetProfileDir tc = ["profiles"; fn; strings.ReplaceAll (Name tc) " " "_"].
Proof.
  intros Hn Hf HF. unfold GetProfileDir.
  assert (HB : filepath.Base (FunctionName tc) = fn).
  { destruct HF as [-> | ->]; [now apply Base_plain | now apply Base_qualified]. }
  rewrite HB. apply plainName_ReplaceAll in Hn.
  pose proof (proj1 (plainName_spec _) Hn) as (Hns & _).
  pose proof (proj1 (plainName_spec _) Hf) as (Hfs & _).
  unfold filepath.Join. cbn [map concat].
  rewrite (elements_plain _ _ Hns), (elements_plain _ _ Hfs), !append_nil.
  change (filepath.elements "profiles" "") with ["profiles"].
  cbn [app].
  change (filepath.clean ["profiles"; fn; strings.ReplaceAll (Name tc) " " "_"] [])
    with (filepath.clean [fn; strings.ReplaceAll (Name tc) " " "_"] ["profiles"]).
  now rewrite (clean_cons_plain _ _ _ Hf), (clean_plain _ _ Hn).
Qed.

(** X9: the layout of the output.  For a test case whose name is one path
    element and whose function name is a plain name, alone or after a
    package path, the profile directory is
    [profiles/<function>/<name with _ for every space>], and the output of
    a kind in a format is the file [<kind>.<format>] directly in it. *)
Theorem profile_layout (tc : APITestCase) (pkg fn kind format : string) :
  plainName (Name tc) = true ->
  plainName fn = true ->
  FunctionName tc = fn \/ FunctionName tc = pkg +:+ "/" +:+ fn ->
  os.hasSeparator kind = false -> os.hasSeparator format = false ->
  kind <> "" -> format <> "" ->
  GetProfileDir tc = ["profiles"; fn; strings.ReplaceAll (Name tc) " " "_"]
  /\ filepath.JoinDir (GetProfileDir tc) (kind +:+ "." +:+ format)
     = ["profiles"; fn; strings.ReplaceAll (Name tc) " " "_"; kind +:+ "." +:+ format].
Proof.
  intros Hn Hf HF Hk Hfo Hkn Hfn.
  rewrite (GetProfileDir_plain tc pkg fn Hn Hf HF). split; [reflexivity|].
  unfold filepath.JoinDir.
  pose proof (plainName_file kind format Hk Hfo Hkn Hfn) as Hp.
  pose proof (proj1 (plainName_spec _) Hp) as (Hs & _).
  rewrite (elements_plain _ _ Hs), append_nil.
  rewrite (clean_plain _ _ Hp). now rewrite rev_involutive.
Qed.

Lemma profile_layout_witness :
  GetProfileDir (mkAPITestCase "Example Test Case" "GET" "/example" (handlerOf None)
                   "" ∅ ∅ 200 ∅ "github.com/acme/api/handlers.Example")
  = ["profiles"; "handlers.Example"; "Example_Test_Case"]
  /\ filepath.JoinDir
       (GetProfileDir (mkAPITestCase "Example Test Case" "GET" "/example" (handlerOf None)
                         "" ∅ ∅ 200 ∅ "github.com/acme/api/handlers.Example"))
       ("heap" +:+ "." +:+ "png")
     = ["profiles"; "handlers.Example"; "Example_Test_Case"; "heap" +:+ "." +:+ "png"].
Proof.
  apply (profile_layout
           (mkAPITestCase "Example Test Case" "GET" "/example" (handlerOf None)
              "" ∅ ∅ 200 ∅ "github.com/acme/api/handlers.Example")
           "github.com/acme/api" "handlers.Example" "heap" "png").
  - reflexivity.
  - reflexivity.
  - right. reflexivity.
  - reflexivity.
  - reflexivity.
  - discriminate.
  - discriminate.
Defined.

(* ===================================================================== *)
(** * More on the output directory *)
(* ===================================================================== *)

Section DirectoryFootprint.

Variable host : Host.

(** Below a file nothing is made. *)
Lemma mkdirAllRev_ENOTDIR (rp : list string) (perm : N) (w : World) :
  os.statRev (fs w) rp = inr ENOTDIR ->
  exists e, os.mkdirAllRev host rp perm w = (w, Some e).
Proof.
  induction rp as [|c parent IH]; intros H; [discriminate H|].
  cbn [os.mkdirAllRev]. rewrite H.
  cbn [os.statRev] in H.
  destruct (os.statRev (fs w) parent) as [[m|m d]|en] eqn:Hp.
  - destruct (fs w !! rev (c :: parent)); discriminate H.
  - destruct parent as [|c' parent']; [discriminate Hp|].
    cbn [os.mkdirAllRev]. rewrite Hp. eexists. reflexivity.
  - injection H as ->. destruct (IH eq_refl) as [e ->]. eexists. reflexivity.
Qed.

(** [Stat] fails with ENOENT or ENOTDIR only. *)
Lemma statRev_errors (f : gmap (list string) node) (rp : list string) (en : errno) :
  os.statRev f rp = inr en -> en = ENOENT \/ en = ENOTDIR.
Proof.
  revert en. induction rp as [|c parent IH]; intros en H; [discriminate H|].
  cbn [os.statRev] in H.
  destruct (os.statRev f parent) as [[m|m d]|en'].
  - destruct (f !! rev (c :: parent)); [discriminate H|]. injection H as <-. now left.
  - injection H as <-. now right.
  - injection H as <-. now apply IH.
Qed.

Lemma prepareDir_MakeDirIfNotExists (p : path) (w : World) :
  prepareDir host p w = MakeDirIfNotExists host p w.
Proof.
  unfold prepareDir, MakeDirIfNotExists.
  destruct (os.Stat (fs w) p) as [[m|m d]|en] eqn:Hs; cbn [os.IsNotExist].
  - now rewrite (MkdirAll_exists host p _ m w Hs).
  - unfold os.MkdirAll. unfold os.Stat in Hs.
    destruct (rev p) as [|c parent]; cbn [os.mkdirAllRev]; now rewrite Hs.
  - destruct (statRev_errors _ _ _ Hs) as [-> | ->]; cbn [os.IsNotExist].
    + apply MkdirAll_again.
    + unfold os.MkdirAll. unfold os.Stat in Hs.
      destruct (mkdirAllRev_ENOTDIR (rev p) os.ModePerm w Hs) as [e ->]. reflexivity.
Qed.

(** What one [Mkdir] does to the file system. *)
Lemma mkdirRev_footprint (rp : list string) (perm : N) (w : World) (q : path) :
  fs (fst (os.mkdirRev host rp perm w)) !! q = fs w !! q
  \/ (q = rev rp /\ fs w !! q = None
      /\ fs (fst (os.mkdirRev host rp perm w)) !! q
         = Some (Dir (N.ldiff perm (umask host)))).
Proof.
  unfold os.mkdirRev. destruct rp as [|c parent]; [now left|].
  destruct (os.statRev (fs w) parent) as [[m|m d]|en]; try now left.
  destruct (fs w !! rev (c :: parent)) eqn:Hl; [now left|].
  destruct (mkdirDenied host (rev (c :: parent))); [now left|].
  cbn [fst fs emit setFs].
  destruct (decide (q = rev (c :: parent))) as [->|Hne].
  - right. rewrite lookup_insert_eq. auto.
  - left. now rewrite lookup_insert_ne.
Qed.

(** What [MkdirAll] does to the file system: an entry that exists stays as
    it is; a new entry is a directory of the mode asked for, less the
    umask, on the way to the path. *)
Lemma mkdirAllRev_footprint (rp : list string) (perm : N) (w : World) (q : path) :
  fs (fst (os.mkdirAllRev host rp perm w)) !! q = fs w !! q
  \/ ((exists t, rev rp = q ++ t) /\ fs w !! q = None
      /\ fs (fst (os.mkdirAllRev host rp perm w)) !! q
         = Some (Dir (N.ldiff perm (umask host)))).
Proof.
  revert w. induction rp as [|c parent IH]; intros w.
  - left. cbn. reflexivity.
  - cbn [os.mkdirAllRev].
    destruct (os.statRev (fs w) (c :: parent)) as [[m|m d]|en]; try now left.
    specialize (IH w).
    destruct (os.mkdirAllRev host parent perm w) as [w1 [e1|]] eqn:Hrec;
      cbn [fst] in IH |- *.
    + destruct IH as [IH|([t Ht] & Hn & Hs)]; [now left|].
      right. split; [|now split]. exists (t ++ [c]). cbn [rev]. rewrite Ht.
      now rewrite <- app_assoc.
    + pose proof (mkdirRev_footprint (c :: parent) perm w1 q) as Hmk.
      assert (Hfst : fs (fst (let '(w2, err2) := os.mkdirRev host (c :: parent) perm w1 in
                              match err2 with
                              | None => (w2, None)
                              | Some e => match os.statRev (fs w2) (c :: parent) with
                                          | inl (Dir _) => (w2, None)
                                          | _ => (w2, Some e)
                                          end
                              end)) !! q
                     = fs (fst (os.mkdirRev host (c :: parent) perm w1)) !! q).
      { destruct (os.mkdirRev host (c :: parent) perm w1) as [w2 [e2|]]; [|reflexivity].
        destruct (os.statRev (fs w2) (c :: parent)) as [[m|m d]|en2]; reflexivity. }
      rewrite Hfst.
      destruct Hmk as [Hmk|(-> & Hn & Hs)].
      * rewrite Hmk.
        destruct IH as [IH|([t Ht] & Hn & Hs)]; [now left|].
        right. split; [|now split]. exists (t ++ [c]). cbn [rev]. rewrite Ht.
        now rewrite <- app_assoc.
      * destruct IH as [IH|(_ & Hn' & Hs')].
        -- right. split; [exists []; now rewrite app_nil_r|].
           split; [congruence | exact Hs].
        -- rewrite Hs' in Hn. discriminate Hn.
Qed.

End DirectoryFootprint.


(** What the preparation of the output directory does to one path. *)
Lemma prepareDir_lookup (host : Host) (p : path) (w : World) (q : path) :
  fs (prepareDir host p w) !! q = fs w !! q
  \/ ((exists t, p = q ++ t) /\ fs w !! q = None
      /\ fs (prepareDir host p w) !! q = Some (Dir (N.ldiff 493 (umask host)))).
Proof.
  rewrite prepareDir_MakeDirIfNotExists. unfold MakeDirIfNotExists, os.MkdirAll.
  destruct (os.IsNotExist (os.Stat (fs w) p)); [|now left].
  destruct (mkdirAllRev_footprint host (rev p) 493 w q) as [H|(Ht & Hn & H)];
    [now left|].
  right. rewrite rev_involutive in Ht. split; [exact Ht|]. split; [exact Hn | exact H].
Qed.


(* ===================================================================== *)
(** * More on the profiling run *)
(* ===================================================================== *)

Section ControlFlow.

Lemma noGoexit_ret (A : Type) (a : A) : noGoexit (ret a).
Proof. intros w. discriminate. Qed.

Lemma noGoexit_bind (A B : Type) (m : Go A) (k : A -> Go B) :
  noGoexit m -> (forall a, noGoexit (k a)) -> noGoexit (bind m k).
Proof.
  intros Hm Hk w. unfold bind. specialize (Hm w).
  destruct (m w) as [[a| |msg] w']; cbn [fst] in *;
    [apply Hk | contradiction | discriminate].
Qed.

Lemma noGoexit_effect (f : World -> World) : noGoexit (effect f).
Proof. intros w. discriminate. Qed.

Lemma noGoexit_forRange (A : Type) (l : list A) (body : A -> Go flow) :
  (forall x, noGoexit (body x)) -> noGoexit (forRange l body).
Proof.
  intros Hb. induction l as [|x l IH]; [apply noGoexit_ret|].
  cbn [forRange]. apply noGoexit_bind; [apply Hb|].
  intros [|]; [exact IH | apply noGoexit_ret].
Qed.

Lemma noGoexit_defer (A : Type) (d : World -> World) (m : Go A) :
  noGoexit m -> noGoexit (defer d m).
Proof. intros Hm w. unfold defer. specialize (Hm w). now destruct (m w). Qed.

Variable R : World -> World -> Prop.
Hypothesis R_refl : forall w, R w w.
Hypothesis R_trans : forall w1 w2 w3, R w1 w2 -> R w2 w3 -> R w1 w3.

Lemma respects_ret (A : Type) (a : A) : respects R (ret a).
Proof. intros w. apply R_refl. Qed.

Lemma respects_bind (A B : Type) (m : Go A) (k : A -> Go B) :
  respects R m -> (forall a, respects R (k a)) -> respects R (bind m k).
Proof.
  intros Hm Hk w. unfold bind. specialize (Hm w).
  destruct (m w) as [[a| |msg] w']; cbn [snd] in *; [|exact Hm|exact Hm].
  eapply R_trans; [exact Hm | apply Hk].
Qed.

Lemma respects_forRange (A : Type) (l : list A) (body : A -> Go flow) :
  (forall x, In x l -> respects R (body x)) -> respects R (forRange l body).
Proof.
  induction l as [|x l IH]; intros Hb; [apply respects_ret|].
  cbn [forRange]. apply respects_bind; [apply Hb; now left|].
  intros [|]; [apply IH; intros y Hy; apply Hb; now right | apply respects_ret].
Qed.

Lemma respects_defer (A : Type) (d : World -> World) (m : Go A) :
  respects R m -> (forall w, R w (d w)) -> respects R (defer d m).
Proof.
  intros Hm Hd w. unfold defer. specialize (Hm w).
  destruct (m w) as [r w']. cbn [snd] in *. eapply R_trans; [exact Hm | apply Hd].
Qed.

End ControlFlow.

Section Exports.

Variable host : Host.

(** [GenerateGraph], event by event: the tool is called once; when it
    fails, or the output file cannot be opened, nothing is written; when the
    file is opened it holds what was written of the output of the tool, all
    of it exactly when the success line is logged; one line is logged in
    each case. *)
Lemma GenerateGraph_events (f : tmpfile) (out : path) (format : string) (w : World) :
  exists w',
    GenerateGraph host f out format w = (Normal tt, w')
    /\ sameSession w w'
    /\ ((exists s a,
            trace w' = trace w ++ [EvExec format f; EvLogPrintf s a]
            /\ fs w' = fs w
            /\ s <> "%s saved to %s")
        \/ (exists output mode written s a,
            pprofTool host format f = Some output
            /\ trace w' = trace w ++ [EvExec format f; EvWriteFile out written;
                                      EvLogPrintf s a]
            /\ fs w' = <[out := File mode written]> (fs w)
            /\ os.Stat (fs w') out = inl (File mode written)
            /\ ((written = output /\ s = "%s saved to %s")
                \/ (exists n, writeFails host out output = Some n
                              /\ written = firstn n output
                              /\ s <> "%s saved to %s")))).
Proof.
  unfold GenerateGraph, bind, effect, log_Printf.
  destruct (pprofTool host format f) as [output|] eqn:Etool.
  2:{ eexists. split; [reflexivity|]. split; [repeat split|]. left.
      eexists. eexists. cbn [emit trace fs]. rewrite <- app_assoc.
      split; [reflexivity|]. split; [reflexivity | discriminate]. }
  assert (Hfail : forall e w',
    w' = emit (EvLogPrintf "Failed to write %s to %s: %v"
                 [AStr format; APath out; AErr e]) (emit (EvExec format f) w) ->
    sameSession w w'
    /\ ((exists s a,
          trace w' = trace w ++ [EvExec format f; EvLogPrintf s a]
          /\ fs w' = fs w /\ s <> "%s saved to %s")
      \/ (exists output0 mode written s a,
          Some output = Some output0
          /\ trace w' = trace w ++ [EvExec format f; EvWriteFile out written;
                                    EvLogPrintf s a]
          /\ fs w' = <[out := File mode written]> (fs w)
          /\ os.Stat (fs w') out = inl (File mode written)
          /\ ((written = output0 /\ s = "%s saved to %s")
              \/ (exists n, writeFails host out output0 = Some n
                            /\ written = firstn n output0
                            /\ s <> "%s saved to %s"))))).
  { intros e w' ->. split; [repeat split|]. left.
    eexists. eexists. cbn [emit trace fs]. rewrite <- app_assoc.
    split; [reflexivity|]. split; [reflexivity | discriminate]. }
  unfold os.WriteFile.
  destruct (rev out) as [|c parent] eqn:Hrev;
    [eexists; split; [reflexivity | now apply (Hfail (PathError "open" EISDIR))]|].
  cbn [emit fs].
  destruct (os.statRev (fs w) parent) as [[m|m d]|en] eqn:Hp;
    try (eexists; split; [reflexivity | now eapply Hfail]).
  destruct (writeDenied host out);
    [eexists; split; [reflexivity | now eapply Hfail]|].
  assert (Hstat : forall mode written,
             os.Stat (<[out := File mode written]> (fs w)) out = inl (File mode written)).
  { intros mode written. unfold os.Stat. rewrite Hrev. cbn [os.statRev].
    rewrite statRev_insert_longer, Hp.
    - rewrite <- Hrev, rev_involutive. now rewrite lookup_insert_eq.
    - rewrite <- (length_rev out), Hrev. cbn [List.length]. lia. }
  cbv zeta.
  match goal with
  | |- context [match ?x with Some _ => _ | None => _ end] =>
      match x with
      | context [fs w] => destruct x as [[m'|m' d']|]
      end
  end.
  - eexists. split; [reflexivity | now eapply Hfail].
  - destruct (writeFails host out output) as [n|] eqn:Ew.
    + eexists. split; [reflexivity|]. split; [repeat split|]. right.
      exists output, m', (firstn n output). eexists. eexists.
      cbn [emit trace fs setFs]. rewrite <- !app_assoc.
      split; [reflexivity|]. split; [reflexivity|]. split; [reflexivity|].
      split; [apply Hstat|]. right. exists n.
      split; [exact Ew|]. split; [reflexivity | discriminate].
    + eexists. split; [reflexivity|]. split; [repeat split|]. right.
      exists output, m', output. eexists. eexists.
      cbn [emit trace fs setFs]. rewrite <- !app_assoc.
      split; [reflexivity|]. split; [reflexivity|]. split; [reflexivity|].
      split; [apply Hstat|]. left. split; reflexivity.
  - destruct (writeFails host out output) as [n|] eqn:Ew.
    + eexists. split; [reflexivity|]. split; [repeat split|]. right.
      exists output, (N.ldiff 420 (umask host)), (firstn n output). eexists. eexists.
      cbn [emit trace fs setFs]. rewrite <- !app_assoc.
      split; [reflexivity|]. split; [reflexivity|]. split; [reflexivity|].
      split; [apply Hstat|]. right. exists n.
      split; [exact Ew|]. split; [reflexivity | discriminate].
    + eexists. split; [reflexivity|]. split; [repeat split|]. right.
      exists output, (N.ldiff 420 (umask host)), output. eexists. eexists.
      cbn [emit trace fs setFs]. rewrite <- !app_assoc.
      split; [reflexivity|]. split; [reflexivity|]. split; [reflexivity|].
      split; [apply Hstat|]. left. split; reflexivity.
Qed.

(** X12: what one call of [GenerateGraph] can do, the tool run having
    ended.  It calls the tool once and logs one line; it leaves every path
    but the output path alone; the output path keeps its content or holds,
    as a regular file, the first bytes of the output of the tool, and all of
    it whenever the line logged is the success line; when the tool fails,
    nothing is written. *)
Theorem GenerateGraph_footprint (f : tmpfile) (out : path) (format : string) (w : World) :
  let w' := snd (GenerateGraph host f out format w) in
  (forall q, q <> out -> fs w' !! q = fs w !! q)
  /\ (fs w' = fs w
      \/ exists output mode n,
          pprofTool host format f = Some output
          /\ os.Stat (fs w') out = inl (File mode (firstn n output)))
  /\ (pprofTool host format f = None -> fs w' = fs w)
  /\ (exists evs, trace w' = trace w ++ evs
                  /\ List.filter isExportCall evs = [EvExec format f]
                  /\ List.length (List.filter
                       (fun e => match e with EvLogPrintf _ _ => true | _ => false end)
                       evs) = 1%nat
                  /\ forall a, In (EvLogPrintf "%s saved to %s" a) evs ->
                       exists output mode,
                         pprofTool host format f = Some output
                         /\ os.Stat (fs w') out = inl (File mode output)).
Proof.
  destruct (GenerateGraph_events f out format w)
    as (w' & -> & _ & [(s & a & T & F & Hs)
                      |(output & mode & written & s & a & Htool & T & F & St & Hw)]);
    cbn [fst snd].
  - split; [intros q _; now rewrite F|].
    split; [now left|]. split; [intros _; exact F|].
    eexists. split; [exact T|]. split; [reflexivity|]. split; [reflexivity|].
    intros a' [H|[H|[]]]; [discriminate H|]. injection H as H _. now contradiction Hs.
  - split; [intros q Hq; rewrite F; now apply lookup_insert_ne|].
    split.
    { right. destruct Hw as [[-> _]|(n & _ & -> & _)].
      - exists output, mode, (List.length output). split; [exact Htool|].
        now rewrite firstn_all.
      - now exists output, mode, n. }
    split; [intros Hn; rewrite Hn in Htool; discriminate Htool|].
    eexists. split; [exact T|]. split; [reflexivity|]. split; [reflexivity|].
    intros a' [H|[H|[H|[]]]]; try discriminate H. injection H as H _.
    destruct Hw as [[-> _]|(n & _ & _ & Hs)]; [|now contradiction Hs].
    now exists output, mode.
Qed.

(** The export loop of a profile file: every format is passed to the tool,
    in order. *)
Lemma export_loop (f : tmpfile) (outOf : string -> path) (body : string -> Go flow)
  (formats : list string) :
  (forall format w, In format formats ->
     body format w
     = (Normal Continue, snd (GenerateGraph host f (outOf format) format w))) ->
  forall w, exists w' evs,
    forRange formats body w = (Normal Continue, w')
    /\ sameSession w w'
    /\ trace w' = trace w ++ evs
    /\ List.filter isExportCall evs = map (fun format => EvExec format f) formats
    /\ Forall (fun e => (exists format, In format formats /\ e = EvExec format f)
                        \/ (exists format d, In format formats
                                             /\ e = EvWriteFile (outOf format) d)
                        \/ (exists s a, e = EvLogPrintf s a)) evs.
Proof.
  induction formats as [|format formats IH]; intros Hbody w.
  - exists w, []. cbn. rewrite app_nil_r. repeat split. constructor.
  - cbn [forRange]. unfold bind at 1. rewrite Hbody by now left.
    destruct (GenerateGraph_events f (outOf format) format w)
      as (w1 & E1 & S1 & Hev). rewrite E1. cbn [snd].
    destruct (IH (fun x w0 Hx => Hbody x w0 (or_intror Hx)) w1)
      as (w' & evs & -> & S2 & T2 & F2 & A2).
    assert (A2' : Forall (fun e =>
               (exists format0, In format0 (format :: formats) /\ e = EvExec format0 f)
               \/ (exists format0 d, In format0 (format :: formats)
                                     /\ e = EvWriteFile (outOf format0) d)
               \/ (exists s a, e = EvLogPrintf s a)) evs).
    { eapply Forall_impl; [exact A2|].
      intros e [(x & Hx & ->)|[(x & d & Hx & ->)|(s & a & ->)]].
      - left. exists x. split; [now right | reflexivity].
      - right; left. exists x, d. split; [now right | reflexivity].
      - right; right. eauto. }
    destruct Hev as [(s & a & T & _ & _)
                    |(output & mode & written & s & a & _ & T & _ & _ & _)].
    + exists w', ([EvExec format f; EvLogPrintf s a] ++ evs).
      split; [reflexivity|]. split; [eapply sameSession_trans; eassumption|].
      split; [now rewrite T2, T, <- app_assoc|].
      split; [cbn [app List.filter isExportCall map]; now rewrite F2|].
      cbn [app]. constructor; [left; exists format; split; [now left | reflexivity]|].
      constructor; [right; right; eauto | exact A2'].
    + exists w', ([EvExec format f; EvWriteFile (outOf format) written;
                   EvLogPrintf s a] ++ evs).
      split; [reflexivity|]. split; [eapply sameSession_trans; eassumption|].
      split; [now rewrite T2, T, <- app_assoc|].
      split; [cbn [app List.filter isExportCall map]; now rewrite F2|].
      cbn [app]. constructor; [left; exists format; split; [now left | reflexivity]|].
      constructor.
      { right; left. exists format, written. split; [now left | reflexivity]. }
      constructor; [right; right; eauto | exact A2'].
Qed.

Lemma GenerateGraph_body (f : tmpfile) (out : path) (format : string) (w : World) :
  bind (GenerateGraph host f out format) (fun _ => ret Continue) w
  = (Normal Continue, snd (GenerateGraph host f out format w)).
Proof.
  unfold bind. destruct (GenerateGraph_events f out format w) as (w' & -> & _).
  reflexivity.
Qed.

End Exports.

Section Snapshots.

Variable host : Host.
Variable cfg : Config.

Lemma WriteProfileAndExport_ends (profileType : string) (dir : path) (w : World) :
  fst (WriteProfileAndExport host cfg profileType dir w)
  = if (List.length (ProfilingOutputFormats cfg) =? 0)%nat
       || os.hasSeparator (profileType +:+ ".prof")
       || createTempFails host (tempCalls w)
       || registered host profileType
    then Normal tt
    else Panic "runtime error: invalid memory address or nil pointer dereference".
Proof.
  unfold WriteProfileAndExport.
  destruct (List.length (ProfilingOutputFormats cfg) =? 0)%nat; [reflexivity|].
  cbn [orb]. unfold os.CreateTemp.
  destruct (os.hasSeparator (profileType +:+ ".prof")); [reflexivity|].
  cbn [orb]. destruct (createTempFails host (tempCalls w)); [reflexivity|].
  cbn [orb]. destruct (os.prefixAndSuffix (profileType +:+ ".prof")) as [pre suf].
  unfold defer, pprof.LookupWriteTo.
  destruct (registered host profileType); [|reflexivity].
  unfold bind at 1.
  destruct (writeToFails host profileType); [reflexivity|].
  unfold bind at 1. cbn [log_Printf effect]. unfold bind at 1.
  match goal with
  | |- context [forRange ?l ?body ?w5] =>
      destruct (export_loop host (pre, tempCalls w, suf)
                  (fun format => filepath.JoinDir dir (profileType +:+ "." +:+ format))
                  body l) with (w := w5) as (w' & evs & -> & _)
  end.
  - intros format w0 _. apply GenerateGraph_body.
  - reflexivity.
Qed.



End Snapshots.


Section ExportPhase.

Variable host : Host.
Variable cfg : Config.
Variable dir : path.

Lemma exportPhase_refl (w : World) : (exportPhase dir (ProfilingOutputFormats cfg) (EnabledProfilingTypes cfg)) w w.
Proof. split; [reflexivity | apply emitsOnly_refl]. Qed.

Lemma exportPhase_trans (w1 w2 w3 : World) : (exportPhase dir (ProfilingOutputFormats cfg) (EnabledProfilingTypes cfg)) w1 w2 -> (exportPhase dir (ProfilingOutputFormats cfg) (EnabledProfilingTypes cfg)) w2 w3 -> (exportPhase dir (ProfilingOutputFormats cfg) (EnabledProfilingTypes cfg)) w1 w3.
Proof.
  intros [C1 E1] [C2 E2]. split; [congruence | eapply emitsOnly_trans; eassumption].
Qed.

Lemma exportPhase_emit (e : event) (w : World) : (exportPhaseEvent dir (ProfilingOutputFormats cfg) (EnabledProfilingTypes cfg)) e -> (exportPhase dir (ProfilingOutputFormats cfg) (EnabledProfilingTypes cfg)) w (emit e w).
Proof. intros H. split; [reflexivity | now apply emitsOnly_emit]. Qed.

Lemma respects_GenerateGraph (f : tmpfile) (kind format : string) :
  In kind ("cpu" :: EnabledProfilingTypes cfg) ->
  In format (ProfilingOutputFormats cfg) ->
  respects (exportPhase dir (ProfilingOutputFormats cfg) (EnabledProfilingTypes cfg))
    (GenerateGraph host f (filepath.JoinDir dir (kind +:+ "." +:+ format)) format).
Proof.
  intros Hk Hf w.
  destruct (GenerateGraph_spec host f (filepath.JoinDir dir (kind +:+ "." +:+ format))
              format w) as (w' & -> & (_ & _ & Hc) & E).
  split; [exact Hc|]. eapply emitsOnly_weaken; [|exact E].
  intros e [->|[[d ->]|(s & a & ->)]]; cbn; auto.
  exists kind, format. auto.
Qed.

Lemma respects_WriteProfileAndExport (kind : string) :
  In kind (EnabledProfilingTypes cfg) ->
  respects (exportPhase dir (ProfilingOutputFormats cfg) (EnabledProfilingTypes cfg)) (WriteProfileAndExport host cfg kind dir).
Proof.
  intros Hk. unfold WriteProfileAndExport.
  destruct (List.length (ProfilingOutputFormats cfg) =? 0)%nat.
  { intros w. now apply exportPhase_emit. }
  intros w. unfold os.CreateTemp.
  set (w0 := mkWorld (fs w) (temps w) (S (tempCalls w)) (cpuProfiling w) (trace w)).
  assert (H0 : (exportPhase dir (ProfilingOutputFormats cfg) (EnabledProfilingTypes cfg)) w w0)
    by (split; [reflexivity | exists []; cbn; now rewrite app_nil_r]).
  assert (Hlog : forall s a, (exportPhase dir (ProfilingOutputFormats cfg) (EnabledProfilingTypes cfg)) w (snd (log_Printf s a w0))).
  { intros s a. eapply exportPhase_trans; [exact H0|]. now apply exportPhase_emit. }
  destruct (os.hasSeparator (kind +:+ ".prof")); [apply Hlog|].
  destruct (createTempFails host (tempCalls w)); [apply Hlog|].
  destruct (os.prefixAndSuffix (kind +:+ ".prof")) as [pre suf] eqn:Eps.
  set (f := (pre, tempCalls w, suf)).
  set (w1 := emit (EvCreateTemp f) _).
  assert (H1 : (exportPhase dir (ProfilingOutputFormats cfg) (EnabledProfilingTypes cfg)) w w1).
  { split; [reflexivity|]. exists [EvCreateTemp f]. split; [reflexivity|].
    constructor; [|constructor]. exists kind. split; [exact Hk|]. now rewrite Eps. }
  eapply exportPhase_trans; [exact H1|].
  apply (respects_defer (exportPhase dir (ProfilingOutputFormats cfg) (EnabledProfilingTypes cfg)) exportPhase_trans).
  2:{ intros w'. unfold os.Remove. split; [reflexivity|].
      exists [EvRemove f]. split; [reflexivity | now repeat constructor]. }
  apply (respects_defer (exportPhase dir (ProfilingOutputFormats cfg) (EnabledProfilingTypes cfg)) exportPhase_trans).
  2:{ intros w'. now apply exportPhase_emit. }
  apply (respects_bind (exportPhase dir (ProfilingOutputFormats cfg) (EnabledProfilingTypes cfg)) exportPhase_trans).
  { unfold pprof.LookupWriteTo. destruct (registered host kind).
    - destruct (writeToFails host kind); [apply (respects_ret (exportPhase dir (ProfilingOutputFormats cfg) (EnabledProfilingTypes cfg)) exportPhase_refl)|].
      intros w'. now apply exportPhase_emit.
    - intros w'. apply exportPhase_refl. }
  intros [e|].
  { intros w'. now apply exportPhase_emit. }
  apply (respects_bind (exportPhase dir (ProfilingOutputFormats cfg) (EnabledProfilingTypes cfg)) exportPhase_trans).
  { intros w'. now apply exportPhase_emit. }
  intros _. apply (respects_bind (exportPhase dir (ProfilingOutputFormats cfg) (EnabledProfilingTypes cfg)) exportPhase_trans);
    [|intros; apply (respects_ret (exportPhase dir (ProfilingOutputFormats cfg) (EnabledProfilingTypes cfg)) exportPhase_refl)].
  apply (respects_forRange (exportPhase dir (ProfilingOutputFormats cfg) (EnabledProfilingTypes cfg)) exportPhase_refl exportPhase_trans).
  intros format Hformat.
  apply (respects_bind (exportPhase dir (ProfilingOutputFormats cfg) (EnabledProfilingTypes cfg)) exportPhase_trans);
    [|intros; apply (respects_ret (exportPhase dir (ProfilingOutputFormats cfg) (EnabledProfilingTypes cfg)) exportPhase_refl)].
  apply respects_GenerateGraph; [now right | exact Hformat].
Qed.

Lemma noGoexit_GenerateGraph (f : tmpfile) (out : path) (format : string) :
  noGoexit (GenerateGraph host f out format).
Proof.
  intros w. destruct (GenerateGraph_spec host f out format w) as (w' & -> & _).
  discriminate.
Qed.

Lemma noGoexit_WriteProfileAndExport (kind : string) :
  noGoexit (WriteProfileAndExport host cfg kind dir).
Proof.
  intros w. rewrite WriteProfileAndExport_ends.
  destruct (_ || _); discriminate.
Qed.

End ExportPhase.

Section Run.

Variable host : Host.
Variable cfg : Config.
Variable tc : APITestCase.

(** The run from the stop of the CPU session on: it does not fail the test,
    leaves the CPU session stopped and adds events of the export phase only.
    [rest] stands for the two loops of [RunProfiling]. *)
Lemma export_phase_of_run (f : tmpfile) :
  let rest : Go unit :=
    bind (forRange (ProfilingOutputFormats cfg)
            (fun format =>
               if negb (String.eqb format "png") && negb (String.eqb format "pdf")
               then
                 bind (effect (emit (EvBLogf
                   "Invalid profiling output format: %s. Only 'png' and 'pdf' are supported."
                   [AStr format]))) (fun _ => ret Return)
               else
                 bind (GenerateGraph host f
                         (filepath.JoinDir (GetProfileDir tc) ("cpu." +:+ format)) format)
                      (fun _ => ret Continue)))
         (fun fl =>
            match fl with
            | Return => ret tt
            | Continue =>
                bind (forRange (EnabledProfilingTypes cfg)
                        (fun profile =>
                           bind (WriteProfileAndExport host cfg profile (GetProfileDir tc))
                                (fun _ => ret Continue)))
                     (fun _ => ret tt)
            end) in
  noGoexit rest
  /\ respects (exportPhase (GetProfileDir tc) (ProfilingOutputFormats cfg)
                 (EnabledProfilingTypes cfg)) rest.
Proof.
  intros rest. subst rest. split.
  - apply noGoexit_bind.
    + apply noGoexit_forRange. intros format.
      destruct (negb (format =? "png")%string && negb (format =? "pdf")%string).
      * apply noGoexit_bind; [apply noGoexit_effect | intros; apply noGoexit_ret].
      * apply noGoexit_bind; [apply noGoexit_GenerateGraph | intros; apply noGoexit_ret].
    + intros [|]; [|apply noGoexit_ret].
      apply noGoexit_bind; [|intros; apply noGoexit_ret].
      apply noGoexit_forRange. intros profile.
      apply noGoexit_bind;
        [apply noGoexit_WriteProfileAndExport | intros; apply noGoexit_ret].
  - pose proof (exportPhase_refl cfg (GetProfileDir tc)) as Rr.
    pose proof (exportPhase_trans cfg (GetProfileDir tc)) as Rt.
    apply (respects_bind _ Rt).
    + apply (respects_forRange _ Rr Rt). intros format Hformat.
      destruct (negb (format =? "png")%string && negb (format =? "pdf")%string).
      * apply (respects_bind _ Rt); [|intros; apply (respects_ret _ Rr)].
        intros w. now apply exportPhase_emit.
      * apply (respects_bind _ Rt); [|intros; apply (respects_ret _ Rr)].
        apply (respects_GenerateGraph host cfg (GetProfileDir tc) f "cpu" format);
          [now left | exact Hformat].
    + intros [|]; [|apply (respects_ret _ Rr)].
      apply (respects_bind _ Rt); [|intros; apply (respects_ret _ Rr)].
      apply (respects_forRange _ Rr Rt). intros profile Hprofile.
      apply (respects_bind _ Rt); [|intros; apply (respects_ret _ Rr)].
      now apply respects_WriteProfileAndExport.
Qed.

(** The four ways of a run of [RunProfiling]. *)
Lemma RunProfiling_shape (w : World) :
  let f : tmpfile := ("cpu_profile_", tempCalls w, ".prof") in
  let run := RunProfiling host cfg tc w in
  exists mk,
    Forall isMkdir mk
    /\ ((ProfilingOutputFormats cfg = [] /\ run = (Normal tt, w))
        \/ (ProfilingOutputFormats cfg <> []
            /\ createTempFails host (tempCalls w) = true
            /\ fst run = Goexit
            /\ cpuProfiling (snd run) = cpuProfiling w
            /\ trace (snd run)
               = trace w ++ mk ++ [EvFail (PathError "open" EACCES)
                                     "Failed to create temp CPU profile file"])
        \/ (ProfilingOutputFormats cfg <> []
            /\ createTempFails host (tempCalls w) = false
            /\ cpuProfiling w = true
            /\ fst run = Goexit
            /\ cpuProfiling (snd run) = true
            /\ trace (snd run)
               = trace w ++ mk
                   ++ [EvCreateTemp f;
                       EvFail (ProfileError "cpu profiling already in use")
                         "Failed to start CPU profile";
                       EvClose f; EvRemove f])
        \/ (ProfilingOutputFormats cfg <> []
            /\ createTempFails host (tempCalls w) = false
            /\ cpuProfiling w = false
            /\ fst run <> Goexit
            /\ cpuProfiling (snd run) = false
            /\ exists post,
                trace (snd run)
                = trace w ++ mk
                    ++ [EvCreateTemp f; EvStartCPUProfile f; EvSetBlockProfileRate 1;
                        EvSetMutexProfileFraction 1; EvRunParallel; EvStopCPUProfile]
                    ++ post ++ [EvClose f; EvRemove f]
                /\ Forall (exportPhaseEvent (GetProfileDir tc)
                             (ProfilingOutputFormats cfg) (EnabledProfilingTypes cfg))
                          post)).
Proof.
  intros f run.
  destruct (prepareDir_frame host (GetProfileDir tc) w)
    as [(Ht & Hc & Hp) (mk & Tmk & Fmk)].
  exists mk. split; [exact Fmk|].
  assert (Hrun : run = RunProfiling host cfg tc w) by reflexivity.
  clearbody run. unfold RunProfiling in Hrun.
  destruct (ProfilingOutputFormats cfg) as [|fmt0 fmts] eqn:Efmt;
    [left; split; [reflexivity | exact Hrun]|].
  right. cbn [List.length Nat.eqb] in Hrun. unfold bind at 1 in Hrun.
  cbn [effect] in Hrun.
  set (w0 := prepareDir host (GetProfileDir tc) w) in *.
  unfold os.CreateTemp in Hrun. cbn [os.hasSeparator Ascii.eqb Bool.eqb orb] in Hrun.
  rewrite Hc in Hrun.
  destruct (createTempFails host (tempCalls w)) eqn:Ecreate.
  { left. split; [discriminate|]. split; [reflexivity|]. subst run.
    cbn [require_NoError fst snd emit cpuProfiling trace].
    split; [reflexivity|]. split; [exact Hp|]. now rewrite Tmk, app_assoc. }
  right.
  change (os.prefixAndSuffix "cpu_profile_*.prof") with ("cpu_profile_", ".prof") in Hrun.
  fold f in Hrun. unfold defer in Hrun. unfold bind at 1 in Hrun.
  unfold pprof.StartCPUProfile in Hrun.
  cbn [emit cpuProfiling] in Hrun. rewrite Hp in Hrun.
  destruct (cpuProfiling w) eqn:Ecpu.
  { left. split; [discriminate|]. split; [reflexivity|]. split; [reflexivity|].
    unfold bind at 1 in Hrun. cbn [require_NoError fst snd] in Hrun. subst run.
    unfold os.Remove, os.Close. cbn [fst snd emit cpuProfiling trace].
    split; [reflexivity|]. split; [first [exact Hp | reflexivity]|].
    rewrite Tmk, <- !app_assoc. reflexivity. }
  right. split; [discriminate|]. split; [reflexivity|]. split; [reflexivity|].
  unfold bind at 1 in Hrun. cbn [require_NoError ret] in Hrun.
  unfold bind at 1 in Hrun. cbn [effect] in Hrun.
  unfold bind at 1 in Hrun. cbn [effect] in Hrun.
  unfold bind at 1 in Hrun. cbn [effect] in Hrun.
  unfold bind at 1 in Hrun. unfold pprof.StopCPUProfile in Hrun. cbn [effect] in Hrun.
  rewrite <- Efmt in *.
  destruct (export_phase_of_run f) as [Hno Hre].
  cbv zeta in Hno, Hre.
  match type of Hrun with
  | context [bind (forRange (ProfilingOutputFormats cfg) ?b) ?k ?w5] =>
      set (res := bind (forRange (ProfilingOutputFormats cfg) b) k w5) in Hrun;
      assert (Hno5 : fst res <> Goexit) by exact (Hno w5);
      assert (Hre5 : exportPhase (GetProfileDir tc) (ProfilingOutputFormats cfg)
                       (EnabledProfilingTypes cfg) w5 (snd res)) by exact (Hre w5);
      clearbody res; clear Hno Hre;
      destruct Hre5 as [Hcpu5 (post & Tpost & Fpost)];
      destruct res as [r w6]
  end.
  subst run. cbn [fst snd] in *. split; [exact Hno5|].
  unfold os.Remove, os.Close. cbn [emit cpuProfiling trace].
  split; [exact Hcpu5|].
  exists post. split; [|exact Fpost].
  rewrite Tpost. cbn [emit trace]. rewrite Tmk, <- !app_assoc. reflexivity.
Qed.

End Run.

(** X15: [RunProfiling] fails the benchmark exactly for the two failures of
    the CPU profile: an output format is configured and the temporary file
    cannot be created or a CPU profile session is already active.  No other
    failure (directory, tool, output file, snapshot profile) ends in
    [FailNow]. *)
Theorem RunProfiling_fails_benchmark_iff (host : Host) (cfg : Config) (tc : APITestCase)
  (w : World) :
  fst (RunProfiling host cfg tc w) = Goexit
  <-> ProfilingOutputFormats cfg <> []
      /\ (createTempFails host (tempCalls w) = true \/ cpuProfiling w = true).
Proof.
  destruct (RunProfiling_shape host cfg tc w) as (mk & _ & H). cbv zeta in H.
  destruct H as [[Hf Hr]|[(Hf & Hc & Hg & _)|[(Hf & Hc & Hp & Hg & _)|
                 (Hf & Hc & Hp & Hg & _)]]].
  - rewrite Hr. cbn [fst]. split; [discriminate | intros [Hn _]; contradiction].
  - split; [intros _; split; [exact Hf | now left] | intros _; exact Hg].
  - split; [intros _; split; [exact Hf | now right] | intros _; exact Hg].
  - split; [intros Hx; contradiction|].
    intros [_ [Hx|Hx]]; congruence.
Qed.


(** X17: a run stays within its configuration.  Whatever the host does,
    [RunProfiling] calls the rendering tool with configured formats only,
    captures enabled kinds only, and writes no file but
    [<kind>.<format>] in the profile directory of the test case, for the
    CPU profile or an enabled kind and a configured format. *)
Theorem RunProfiling_within_configuration (host : Host) (cfg : Config)
  (tc : APITestCase) (w : World) :
  exists evs,
    trace (snd (RunProfiling host cfg tc w)) = trace w ++ evs
    /\ Forall (withinConfiguration (GetProfileDir tc) (ProfilingOutputFormats cfg)
                 (EnabledProfilingTypes cfg)) evs.
Proof.
  destruct (RunProfiling_shape host cfg tc w) as (mk & Fmk & H). cbv zeta in H.
  assert (Hmk : Forall (withinConfiguration (GetProfileDir tc)
                          (ProfilingOutputFormats cfg) (EnabledProfilingTypes cfg)) mk).
  { eapply Forall_impl; [exact Fmk|]. intros []; cbn; tauto. }
  destruct H as [[Hf Hr]|[(Hf & Hc & Hg & Hcpu & T)|[(Hf & Hc & Hp & Hg & Hcpu & T)|
                 (Hf & Hc & Hp & Hg & Hcpu & post & T & Fpost)]]].
  - rewrite Hr. exists []. rewrite app_nil_r. split; [reflexivity | constructor].
  - eexists. split; [exact T|]. apply Forall_app. split; [exact Hmk|].
    now repeat constructor.
  - eexists. split; [exact T|]. apply Forall_app. split; [exact Hmk|].
    now repeat constructor.
  - eexists. split; [exact T|]. apply Forall_app. split; [exact Hmk|].
    apply Forall_app. split; [now repeat constructor|].
    apply Forall_app. split; [|now repeat constructor].
    eapply Forall_impl; [exact Fpost|]. intros []; cbn; tauto.
Qed.

(* ===================================================================== *)
(** * The run on which nothing fails *)
(* ===================================================================== *)

Lemma JoinDir_plain (dir : path) (name : string) :
  plainName name = true -> filepath.JoinDir dir name = dir ++ [name].
Proof.
  intros H. unfold filepath.JoinDir.
  pose proof (proj1 (plainName_spec _) H) as (Hs & _).
  rewrite (elements_plain _ _ Hs), append_nil, (clean_plain _ _ H).
  now rewrite rev_involutive.
Qed.

Lemma keepsFiles_refl (w : World) : keepsFiles w w.
Proof. intros q m d H. eauto. Qed.

Lemma keepsFiles_trans (w1 w2 w3 : World) :
  keepsFiles w1 w2 -> keepsFiles w2 w3 -> keepsFiles w1 w3.
Proof.
  intros H12 H23 q m d H. destruct (H12 q m d H) as (m' & d' & H'). eauto.
Qed.

Lemma keepsFiles_same_fs (w w' : World) : fs w' = fs w -> keepsFiles w w'.
Proof. intros E q m d H. rewrite E. eauto. Qed.

Lemma ready_same_fs (dir : path) (w w' : World) : fs w' = fs w -> ready dir w -> ready dir w'.
Proof. unfold ready. now intros ->. Qed.

(** A regular file written into the directory. *)
Lemma ready_write (dir : path) (name : string) (m : N) (d : list ascii) (w w' : World) :
  fs w' = <[dir ++ [name] := File m d]> (fs w) ->
  ready dir w ->
  (forall m0, fs w !! (dir ++ [name]) <> Some (Dir m0)) ->
  ready dir w' /\ keepsFiles w w'
  /\ fs w' !! (dir ++ [name]) = Some (File m d).
Proof.
  intros E [[md Hd] Hnd] Hfree. split; [split|split].
  - exists md. rewrite E. unfold os.Stat in *.
    rewrite statRev_insert_longer; [exact Hd|].
    rewrite length_rev, length_app. cbn [List.length]. lia.
  - intros name' m' Hl. rewrite E in Hl.
    destruct (decide (dir ++ [name'] = dir ++ [name])) as [Eq|Ne].
    + rewrite Eq, lookup_insert_eq in Hl. discriminate Hl.
    + rewrite lookup_insert_ne in Hl by (intros X; now apply Ne).
      now apply (Hnd name' m').
  - intros q m' d' Hq. rewrite E.
    destruct (decide (q = dir ++ [name])) as [->|Ne].
    + rewrite lookup_insert_eq. eauto.
    + rewrite lookup_insert_ne by (intros X; now apply Ne). eauto.
  - rewrite E. apply lookup_insert_eq.
Qed.

Section Complete.

Variable host : Host.
Variable cfg : Config.
Variable dir : path.

Hypothesis Hwrite : forall p, writeDenied host p = false.
Hypothesis Hwfail : forall p d, writeFails host p d = None.

(** An export that goes well. *)
Lemma GenerateGraph_succeeds (f : tmpfile) (kind format : string) (w : World) :
  ready dir w ->
  pprofTool host format f <> None ->
  exists w',
    GenerateGraph host f (dir ++ [kind +:+ "." +:+ format]) format w = (Normal tt, w')
    /\ trace w' = trace w ++ exportEvents host dir kind f format
    /\ sameSession w w'
    /\ ready dir w' /\ keepsFiles w w'
    /\ exists m d, fs w' !! (dir ++ [kind +:+ "." +:+ format]) = Some (File m d).
Proof.
  intros Hready Htool. unfold exportEvents, toolOutput.
  destruct (pprofTool host format f) as [output|] eqn:E; [|now contradiction Htool].
  cbv zeta. set (out := dir ++ [kind +:+ "." +:+ format]).
  unfold GenerateGraph, bind, effect. rewrite E. unfold os.WriteFile.
  assert (Hrev : rev out = (kind +:+ "." +:+ format) :: rev dir).
  { unfold out. now rewrite rev_app_distr. }
  rewrite Hrev. cbn [emit fs].
  destruct Hready as [[md Hd] Hnd]. unfold os.Stat in Hd. rewrite Hd, Hwrite.
  cbv zeta. rewrite !Hwfail.
  match goal with
  | |- context [match ?x with Some _ => _ | None => _ end] =>
      destruct x as [[m'|m' d']|] eqn:Hl
  end.
  - now contradiction (Hnd (kind +:+ "." +:+ format) m').
  - eexists. split; [reflexivity|]. cbn [log_Printf effect emit trace setFs].
    split; [now rewrite <- !app_assoc|]. split; [repeat split|].
    match goal with
    | |- ready dir ?w' /\ _ =>
        destruct (ready_write dir (kind +:+ "." +:+ format) m' output w w' eq_refl
                    (conj (ex_intro _ md Hd) Hnd) (Hnd _)) as (R & K & L)
    end.
    split; [exact R|]. split; [exact K|]. eauto.
  - eexists. split; [reflexivity|]. cbn [log_Printf effect emit trace setFs].
    split; [now rewrite <- !app_assoc|]. split; [repeat split|].
    match goal with
    | |- ready dir ?w' /\ _ =>
        destruct (ready_write dir (kind +:+ "." +:+ format)
                    (N.ldiff 420 (umask host)) output w w' eq_refl
                    (conj (ex_intro _ md Hd) Hnd) (Hnd _)) as (R & K & L)
    end.
    split; [exact R|]. split; [exact K|]. eauto.
Qed.

(** An export loop that goes well. *)
Lemma export_loop_succeeds (f : tmpfile) (kind : string) (body : string -> Go flow)
  (l : list string) :
  (forall format, In format l ->
     plainName (kind +:+ "." +:+ format) = true
     /\ pprofTool host format f <> None
     /\ forall w, body format w
                  = (Normal Continue,
                     snd (GenerateGraph host f
                            (filepath.JoinDir dir (kind +:+ "." +:+ format)) format w))) ->
  forall w, ready dir w ->
  exists w',
    forRange l body w = (Normal Continue, w')
    /\ trace w' = trace w ++ concat (map (exportEvents host dir kind f) l)
    /\ sameSession w w'
    /\ ready dir w' /\ keepsFiles w w'
    /\ forall format, In format l ->
         exists m d, fs w' !! (dir ++ [kind +:+ "." +:+ format]) = Some (File m d).
Proof.
  induction l as [|format l IH]; intros Hbody w Hready.
  - exists w. cbn. rewrite app_nil_r.
    repeat split; try exact (proj1 Hready) || exact (proj2 Hready) || reflexivity.
    + apply keepsFiles_refl.
    + intros format [].
  - destruct (Hbody format (or_introl eq_refl)) as (Hplain & Htool & Hb).
    cbn [forRange]. unfold bind at 1. rewrite Hb, (JoinDir_plain _ _ Hplain).
    destruct (GenerateGraph_succeeds f kind format w Hready Htool)
      as (w1 & -> & T1 & S1 & R1 & K1 & F1). cbn [snd].
    destruct (IH (fun x Hx => Hbody x (or_intror Hx)) w1 R1)
      as (w' & -> & T2 & S2 & R2 & K2 & F2).
    exists w'. split; [reflexivity|].
    split; [cbn [map concat]; now rewrite T2, T1, <- app_assoc|].
    split; [eapply sameSession_trans; eassumption|].
    split; [exact R2|]. split; [eapply keepsFiles_trans; eassumption|].
    intros x [<-|Hx]; [|now apply F2].
    destruct F1 as (m & d & Hl). exact (K2 _ _ _ Hl).
Qed.

Hypothesis Hformats : ProfilingOutputFormats cfg <> [].
Hypothesis Htool : forall format f,
  In format (ProfilingOutputFormats cfg) -> pprofTool host format f <> None.
Hypothesis Hplain : forall format,
  In format (ProfilingOutputFormats cfg) ->
  os.hasSeparator format = false /\ format <> "".
Hypothesis Htemp : forall n, createTempFails host n = false.

(** A snapshot profile that goes well. *)
Lemma WriteProfileAndExport_succeeds (kind : string) (w : World) :
  registered host kind = true -> writeToFails host kind = false ->
  os.hasSeparator kind = false -> kind <> "" ->
  ready dir w ->
  exists w',
    WriteProfileAndExport host cfg kind dir w = (Normal tt, w')
    /\ trace w' = trace w
         ++ snapshotEvents host dir (ProfilingOutputFormats cfg) (tempCalls w) [kind]
    /\ tempCalls w' = S (tempCalls w)
    /\ cpuProfiling w' = cpuProfiling w
    /\ ready dir w' /\ keepsFiles w w'
    /\ forall format, In format (ProfilingOutputFormats cfg) ->
         exists m d, fs w' !! (dir ++ [kind +:+ "." +:+ format]) = Some (File m d).
Proof.
  intros Hreg Hwt Hsep Hne Hready.
  unfold WriteProfileAndExport.
  destruct (ProfilingOutputFormats cfg) as [|fmt0 fmts] eqn:Efmt;
    [now contradiction Hformats|].
  cbn [List.length Nat.eqb]. rewrite <- Efmt in *. clear Efmt fmt0 fmts.
  unfold os.CreateTemp.
  assert (Hsep' : os.hasSeparator (kind +:+ ".prof") = false).
  { rewrite hasSeparator_app, Hsep. reflexivity. }
  rewrite Hsep', Htemp.
  cbn [snapshotEvents]. unfold tempFileOf.
  destruct (os.prefixAndSuffix (kind +:+ ".prof")) as [pre suf]. cbn [fst snd].
  set (f := (pre, tempCalls w, suf)).
  unfold defer, pprof.LookupWriteTo. rewrite Hreg, Hwt.
  unfold bind at 1. unfold bind at 1. cbn [log_Printf effect]. unfold bind at 1.
  match goal with
  | |- context [forRange ?l ?body ?w5] =>
      destruct (export_loop_succeeds f kind body l) with (w := w5)
        as (w' & -> & T & (St & Sc & Sp) & R & K & F)
  end.
  - intros format Hin. destruct (Hplain format Hin) as [Hs Hn].
    split; [now apply plainName_file|]. split; [now apply Htool|].
    intros w0. apply GenerateGraph_body.
  - apply (ready_same_fs dir w); [reflexivity | exact Hready].
  - eexists. split; [reflexivity|].
    unfold os.Remove, os.Close. cbn [emit trace tempCalls cpuProfiling fs ret snd].
    split; [rewrite T; cbn [emit trace]; now rewrite app_nil_r, <- !app_assoc|].
    split; [exact Sc|]. split; [exact Sp|].
    split; [apply (ready_same_fs dir w'); [reflexivity | exact R]|].
    split; [|exact F].
    intros q m d Hq. apply (K q m d). exact Hq.
Qed.

(** The loop over the snapshot profiles when all goes well. *)
Lemma snapshots_succeed (kinds : list string) :
  (forall kind, In kind kinds ->
     registered host kind = true /\ writeToFails host kind = false
     /\ os.hasSeparator kind = false /\ kind <> "") ->
  forall w, ready dir w ->
  exists w',
    forRange kinds
      (fun profile =>
         bind (WriteProfileAndExport host cfg profile dir) (fun _ => ret Continue)) w
    = (Normal Continue, w')
    /\ trace w' = trace w
         ++ snapshotEvents host dir (ProfilingOutputFormats cfg) (tempCalls w) kinds
    /\ cpuProfiling w' = cpuProfiling w
    /\ ready dir w' /\ keepsFiles w w'
    /\ forall kind format,
         In kind kinds -> In format (ProfilingOutputFormats cfg) ->
         exists m d, fs w' !! (dir ++ [kind +:+ "." +:+ format]) = Some (File m d).
Proof.
  induction kinds as [|kind kinds IH]; intros Hkinds w Hready.
  - exists w. cbn. rewrite app_nil_r. split; [reflexivity|]. split; [reflexivity|].
    split; [reflexivity|]. split; [exact Hready|]. split; [apply keepsFiles_refl|].
    intros kind format [].
  - destruct (Hkinds kind (or_introl eq_refl)) as (Hreg & Hwt & Hsep & Hne).
    destruct (WriteProfileAndExport_succeeds kind w Hreg Hwt Hsep Hne Hready)
      as (w1 & E1 & T1 & C1 & P1 & R1 & K1 & F1).
    destruct (IH (fun x Hx => Hkinds x (or_intror Hx)) w1 R1)
      as (w' & E2 & T2 & P2 & R2 & K2 & F2).
    exists w'. cbn [forRange]. unfold bind at 1. unfold bind at 1. rewrite E1.
    cbn [ret]. split; [exact E2|].
    split.
    { rewrite T2, T1, C1. cbn [snapshotEvents]. rewrite app_nil_r.
      now rewrite <- !app_assoc. }
    split; [congruence|]. split; [exact R2|].
    split; [eapply keepsFiles_trans; eassumption|].
    intros x format [<-|Hx] Hformat; [|now apply F2].
    destruct (F1 format Hformat) as (m & d & Hl). exact (K2 _ _ _ Hl).
Qed.

End Complete.

(** A supported format is a plain word. *)
Lemma supportedFormat_plain (format : string) :
  supportedFormat format = true -> os.hasSeparator format = false /\ format <> "".
Proof.
  unfold supportedFormat. intros H. apply orb_prop in H as [H|H];
    apply String.eqb_eq in H; subst format; split; (reflexivity || discriminate).
Qed.

(** The directory is ready when it could be made. *)
Lemma prepareDir_ready (host : Host) (dir : path) (w : World) :
  (forall q, mkdirDenied host q = false) ->
  (forall q t, dir = q ++ t -> forall m d, fs w !! q <> Some (File m d)) ->
  (forall name m, fs w !! (dir ++ [name]) <> Some (Dir m)) ->
  ready dir (prepareDir host dir w).
Proof.
  intros Hallow Hfree Hnodir. split.
  - assert (Hfree' : forall pre k, rev dir = pre ++ k ->
                       forall m d, fs w !! rev k <> Some (File m d)).
    { intros pre k E m d. apply (Hfree (rev k) (rev pre)).
      rewrite <- rev_app_distr, <- E. symmetry. apply rev_involutive. }
    rewrite prepareDir_MakeDirIfNotExists. unfold MakeDirIfNotExists.
    destruct (os.Stat (fs w) dir) as [[m|m d]|en] eqn:Hs; cbn [os.IsNotExist].
    + now exists m.
    + exfalso. unfold os.Stat in Hs.
      pose proof (mkdirAllRev_succeeds host (rev dir) 493 w Hallow Hfree') as Hok.
      destruct (rev dir) as [|c parent]; [discriminate Hs|].
      cbn [os.mkdirAllRev] in Hok. rewrite Hs in Hok. discriminate Hok.
    + pose proof (mkdirAllRev_succeeds host (rev dir) 493 w Hallow Hfree') as Hok.
      destruct en; cbn [os.IsNotExist].
      2:{ exfalso. unfold os.Stat in Hs.
          destruct (mkdirAllRev_ENOTDIR host (rev dir) 493 w Hs) as [e He].
          rewrite He in Hok. discriminate Hok. }
      2-6: (exfalso; destruct (statRev_errors _ _ _ Hs); discriminate).
      unfold os.MkdirAll.
      destruct (os.mkdirAllRev host (rev dir) 493 w) as [w' err] eqn:Hrun.
      cbn [snd] in Hok. subst err.
      destruct (mkdirAllRev_ok host _ _ _ _ Hrun) as [m Hm]. now exists m.
  - intros name m Hl.
    destruct (prepareDir_lookup host dir w (dir ++ [name])) as [H|([t Ht] & _)].
    + apply (Hnodir name m). exact (eq_trans (eq_sym H) Hl).
    + apply (f_equal (@List.length string)) in Ht.
      rewrite !length_app in Ht. cbn [List.length] in Ht. lia.
Qed.

Section CompleteRun.

Variable host : Host.
Variable cfg : Config.
Variable tc : APITestCase.

Hypothesis Hformats : ProfilingOutputFormats cfg <> [].
Hypothesis Hsupported : forallb supportedFormat (ProfilingOutputFormats cfg) = true.
Hypothesis Htemp : forall n, createTempFails host n = false.
Hypothesis Hwrite : forall p, writeDenied host p = false.
Hypothesis Hwfail : forall p d, writeFails host p d = None.
Hypothesis Htool : forall format f,
  In format (ProfilingOutputFormats cfg) -> pprofTool host format f <> None.
Hypothesis Hkinds : forall kind,
  In kind (EnabledProfilingTypes cfg) ->
  registered host kind = true /\ writeToFails host kind = false
  /\ os.hasSeparator kind = false /\ kind <> "".

(** The two loops of [RunProfiling] when all goes well. *)
Lemma exports_succeed (f : tmpfile) (w : World) :
  let dir := GetProfileDir tc in
  let rest : Go unit :=
    bind (forRange (ProfilingOutputFormats cfg)
            (fun format =>
               if negb (String.eqb format "png") && negb (String.eqb format "pdf")
               then
                 bind (effect (emit (EvBLogf
                   "Invalid profiling output format: %s. Only 'png' and 'pdf' are supported."
                   [AStr format]))) (fun _ => ret Return)
               else
                 bind (GenerateGraph host f
                         (filepath.JoinDir (GetProfileDir tc) ("cpu." +:+ format)) format)
                      (fun _ => ret Continue)))
         (fun fl =>
            match fl with
            | Return => ret tt
            | Continue =>
                bind (forRange (EnabledProfilingTypes cfg)
                        (fun profile =>
                           bind (WriteProfileAndExport host cfg profile (GetProfileDir tc))
                                (fun _ => ret Continue)))
                     (fun _ => ret tt)
            end) in
  ready dir w ->
  exists w',
    rest w = (Normal tt, w')
    /\ trace w' = trace w
         ++ concat (map (exportEvents host dir "cpu" f) (ProfilingOutputFormats cfg))
         ++ snapshotEvents host dir (ProfilingOutputFormats cfg) (tempCalls w)
              (EnabledProfilingTypes cfg)
    /\ cpuProfiling w' = cpuProfiling w
    /\ ready dir w'
    /\ forall kind format,
         In kind ("cpu" :: EnabledProfilingTypes cfg) ->
         In format (ProfilingOutputFormats cfg) ->
         exists m d, fs w' !! (dir ++ [kind +:+ "." +:+ format]) = Some (File m d).
Proof.
  intros dir rest Hready. subst rest dir.
  assert (Hplain : forall format, In format (ProfilingOutputFormats cfg) ->
                     os.hasSeparator format = false /\ format <> "").
  { intros format Hin. apply supportedFormat_plain.
    exact (proj1 (forallb_forall _ _) Hsupported format Hin). }
  unfold bind at 1.
  match goal with
  | |- context [forRange ?l ?body w] =>
      destruct (export_loop_succeeds host (GetProfileDir tc) Hwrite Hwfail f "cpu" body l)
        with (w := w)
        as (w1 & -> & T1 & (St1 & Sc1 & Sp1) & R1 & K1 & F1)
  end.
  - intros format Hin. destruct (Hplain format Hin) as [Hs Hn].
    split; [apply plainName_file; [reflexivity | exact Hs | discriminate | exact Hn]|].
    split; [now apply Htool|].
    intros w0.
    pose proof (proj1 (forallb_forall _ _) Hsupported format Hin) as Hsup.
    unfold supportedFormat in Hsup.
    assert (Hguard : negb (String.eqb format "png") && negb (String.eqb format "pdf")
                     = false).
    { destruct (String.eqb format "png"); [reflexivity|].
      destruct (String.eqb format "pdf"); [reflexivity | discriminate Hsup]. }
    rewrite Hguard. apply GenerateGraph_body.
  - exact Hready.
  - destruct (snapshots_succeed host cfg (GetProfileDir tc) Hwrite Hwfail Hformats Htool
                Hplain Htemp (EnabledProfilingTypes cfg) Hkinds w1 R1)
      as (w2 & E2 & T2 & P2 & R2 & K2 & F2).
    exists w2. cbn beta iota. unfold bind at 1. rewrite E2. cbn [ret].
    split; [reflexivity|].
    split; [now rewrite T2, T1, Sc1, <- app_assoc|].
    split; [congruence|]. split; [exact R2|].
    intros kind format [<-|Hkind] Hformat.
    + destruct (F1 format Hformat) as (m & d & Hl). exact (K2 _ _ _ Hl).
    + now apply F2.
Qed.

End CompleteRun.



(* ===================================================================== *)
(** * An unsupported output format *)
(* ===================================================================== *)

(** A loop goes on after the elements that let it. *)
Lemma forRange_app (A : Type) (body : A -> Go flow) (pre rest : list A) (w w1 : World) :
  forRange pre body w = (Normal Continue, w1) ->
  forRange (pre ++ rest) body w = forRange rest body w1.
Proof.
  revert w. induction pre as [|x pre IH]; intros w H.
  - cbn in H. injection H as <-. reflexivity.
  - cbn [app forRange] in *. unfold bind in *.
    destruct (body x w) as [[[|]| |msg] w0]; try discriminate H.
    now apply IH.
Qed.

Section Unsupported.

Variable host : Host.
Variable cfg : Config.
Variable tc : APITestCase.
Variable f : tmpfile.

(** The two loops of [RunProfiling] when the formats are [pre ++ bad ::
    post], [bad] being the first that is not supported: the tool is run for
    the formats [pre], in order, the format [bad] is logged, and that is
    all.  On a host that refuses nothing, all of [pre] is exported. *)
Lemma cpu_exports_stop (pre post : list string) (bad : string) (w : World) :
  forallb supportedFormat pre = true ->
  supportedFormat bad = false ->
  let dir := GetProfileDir tc in
  let rest : Go unit :=
    bind (forRange (pre ++ bad :: post)
            (fun format =>
               if negb (String.eqb format "png") && negb (String.eqb format "pdf")
               then
                 bind (effect (emit (EvBLogf
                   "Invalid profiling output format: %s. Only 'png' and 'pdf' are supported."
                   [AStr format]))) (fun _ => ret Return)
               else
                 bind (GenerateGraph host f
                         (filepath.JoinDir (GetProfileDir tc) ("cpu." +:+ format)) format)
                      (fun _ => ret Continue)))
         (fun fl =>
            match fl with
            | Return => ret tt
            | Continue =>
                bind (forRange (EnabledProfilingTypes cfg)
                        (fun profile =>
                           bind (WriteProfileAndExport host cfg profile (GetProfileDir tc))
                                (fun _ => ret Continue)))
                     (fun _ => ret tt)
            end) in
  exists w1 ex,
    rest w
    = (Normal tt,
       emit (EvBLogf
               "Invalid profiling output format: %s. Only 'png' and 'pdf' are supported."
               [AStr bad]) w1)
    /\ trace w1 = trace w ++ ex
    /\ List.filter isExportCall ex = map (fun format => EvExec format f) pre
    /\ Forall (cpuExportEvent dir f pre) ex
    /\ ((forall p, writeDenied host p = false) ->
        (forall p d, writeFails host p d = None) ->
        (forall format, In format pre -> pprofTool host format f <> None) ->
        ready dir w ->
        ex = concat (map (exportEvents host dir "cpu" f) pre)
        /\ ready dir w1
        /\ forall format, In format pre ->
             exists m d, fs w1 !! (dir ++ ["cpu" +:+ "." +:+ format]) = Some (File m d)).
Proof.
  intros Hpre Hbad dir rest. subst rest dir.
  set (body := fun format : string =>
         if negb (String.eqb format "png") && negb (String.eqb format "pdf")
         then
           bind (effect (emit (EvBLogf
             "Invalid profiling output format: %s. Only 'png' and 'pdf' are supported."
             [AStr format]))) (fun _ => ret Return)
         else
           bind (GenerateGraph host f
                   (filepath.JoinDir (GetProfileDir tc) ("cpu." +:+ format)) format)
                (fun _ => ret Continue)).
  assert (Ha : forall format w0, In format pre ->
            body format w0
            = (Normal Continue,
               snd (GenerateGraph host f
                      (filepath.JoinDir (GetProfileDir tc) ("cpu." +:+ format))
                      format w0))).
  { intros format w0 Hin.
    pose proof (proj1 (forallb_forall _ _) Hpre format Hin) as Hsup.
    unfold supportedFormat in Hsup. unfold body.
    assert (Hguard : negb (String.eqb format "png") && negb (String.eqb format "pdf")
                     = false).
    { destruct (String.eqb format "png"); [reflexivity|].
      destruct (String.eqb format "pdf"); [reflexivity | discriminate Hsup]. }
    rewrite Hguard. apply GenerateGraph_body. }
  assert (Hb : forall w0,
            body bad w0
            = (Normal Return,
               emit (EvBLogf
                 "Invalid profiling output format: %s. Only 'png' and 'pdf' are supported."
                 [AStr bad]) w0)).
  { intros w0. unfold supportedFormat in Hbad. apply orb_false_elim in Hbad as [E1 E2].
    unfold body. rewrite E1, E2. reflexivity. }
  destruct (export_loop host f
              (fun format => filepath.JoinDir (GetProfileDir tc) ("cpu." +:+ format))
              body pre Ha w) as (w1 & ex & E & _ & T & F & A).
  exists w1, ex. split.
  { unfold bind at 1. rewrite (forRange_app _ body pre (bad :: post) w w1 E).
    cbn [forRange]. unfold bind at 1. rewrite Hb. reflexivity. }
  split; [exact T|]. split; [exact F|]. split.
  { eapply Forall_impl; [exact A|].
    intros e [(x & Hx & ->)|[(x & d & Hx & ->)|(s & a & ->)]]; cbn; eauto. }
  intros Hwrite Hwfail Htool Hready.
  destruct (export_loop_succeeds host (GetProfileDir tc) Hwrite Hwfail f "cpu" body pre)
    with (w := w) as (w1' & E' & T' & _ & R' & _ & F').
  - intros format Hin.
    pose proof (proj1 (forallb_forall _ _) Hpre format Hin) as Hsup.
    destruct (supportedFormat_plain format Hsup) as [Hs Hn].
    split; [apply plainName_file; [reflexivity | exact Hs | discriminate | exact Hn]|].
    split; [now apply Htool|].
    intros w0. now apply Ha.
  - exact Hready.
  - rewrite E in E'. injection E' as <-.
    split; [|split; [exact R' | exact F']].
    rewrite T in T'. now apply app_inv_head in T'.
Qed.

End Unsupported.



